(** * JupyterHub metrics: the InfluxDB -> TimescaleDB history importers

    A shallow embedding of the pure core of
    [history/import_from_influxdb_v1.py] and
    [history/import_from_influxdb_v2.py]: the time window generator, the
    hourly blackout test, the pod-name and image-reference heuristics, the
    record normalizer ([transform_records]) of both dialects, the user
    aggregator, the [users] upsert, the [container_observations] insert, the
    duration parser and the import loop of [main].

    Conventions of the embedding.
    - A [datetime] is the integer number of microseconds since the epoch
      (UTC), from [datetime_min] (year 1) to [datetime_max] (year 9999);
      [timedelta(seconds=n)] is [n * 1000000].  The date arithmetic of
      [generate_time_windows] is range-checked as Python's is
      ([timedelta_of_seconds], [datetime_add]) and raises [OverflowError].
    - [td.total_seconds()] is a float: the microseconds of [td] divided by
      10^6 and rounded to the nearest binary64; [int] truncates that float
      ([total_seconds_int]).
    - A Python [str] is a [string]; [dict.get] that may miss is an [option].
    - An exception is [None] in the [option] monad.
    - A [while] loop that may run forever carries fuel; its [outcome] is a
      returned value, a raised exception, or [OutOfFuel]. *)

From Stdlib Require Import ZArith String Ascii List Lia Bool.
From stdpp Require Import base option list gmap strings.

Local Open Scope string_scope.
Local Open Scope Z_scope.
Local Open Scope list_scope.

(** ** Python string primitives (ASCII) *)

Module Py.

(** [s.startswith(p)] *)
Definition startswith (p s : string) : bool := String.prefix p s.

(** [s[n:]] *)
Fixpoint drop (n : nat) (s : string) : string :=
  match n, s with
  | O, _ => s
  | S _, EmptyString => EmptyString
  | S n', String _ s' => drop n' s'
  end.

(** [c in s] for a one-character [c] *)
Fixpoint contains (c : ascii) (s : string) : bool :=
  match s with
  | EmptyString => false
  | String a s' => Ascii.eqb a c || contains c s'
  end.

(** The cut at the last occurrence of [c], if there is one. *)
Fixpoint rcut (c : ascii) (s : string) : option (string * string) :=
  match s with
  | EmptyString => None
  | String a s' =>
      match rcut c s' with
      | Some (h, t) => Some (String a h, t)
      | None => if Ascii.eqb a c then Some (EmptyString, s') else None
      end
  end.

(** [s.rsplit(c, 1)] *)
Definition rsplit1 (c : ascii) (s : string) : list string :=
  match rcut c s with
  | Some (h, t) => [h; t]
  | None => [s]
  end.

(** [s.split(c)] *)
Fixpoint split (c : ascii) (s : string) : list string :=
  match s with
  | EmptyString => [EmptyString]
  | String a s' =>
      if Ascii.eqb a c then EmptyString :: split c s'
      else match split c s' with
           | h :: t => String a h :: t
           | [] => [String a EmptyString]
           end
  end.

(** [s.replace(c, r)] for a one-character [c] *)
Fixpoint replace (c : ascii) (r : string) (s : string) : string :=
  match s with
  | EmptyString => EmptyString
  | String a s' =>
      if Ascii.eqb a c then (r ++ replace c r s')%string
      else String a (replace c r s')
  end.

Definition is_upper (a : ascii) : bool :=
  let n := nat_of_ascii a in (65 <=? n)%nat && (n <=? 90)%nat.
Definition is_lower (a : ascii) : bool :=
  let n := nat_of_ascii a in (97 <=? n)%nat && (n <=? 122)%nat.
Definition is_cased (a : ascii) : bool := is_upper a || is_lower a.
Definition to_upper (a : ascii) : ascii :=
  if is_lower a then ascii_of_nat (nat_of_ascii a - 32) else a.
Definition to_lower (a : ascii) : ascii :=
  if is_upper a then ascii_of_nat (nat_of_ascii a + 32) else a.

(** [s.lower()] *)
Fixpoint lower (s : string) : string :=
  match s with
  | EmptyString => EmptyString
  | String a s' => String (to_lower a) (lower s')
  end.

(** [s.title()]: a cased character is upper-cased when the character
    before it is not cased, and lower-cased otherwise. *)
Fixpoint title_from (prev_cased : bool) (s : string) : string :=
  match s with
  | EmptyString => EmptyString
  | String a s' =>
      String (if prev_cased then to_lower a else to_upper a)
             (title_from (is_cased a) s')
  end.
Definition title (s : string) : string := title_from false s.

(** Truthiness of an optional string: [None] and [""] are falsy. *)
Definition truthy (o : option string) : bool :=
  match o with
  | Some (String _ _) => true
  | _ => false
  end.

(** [o or d] *)
Definition or_default (o : option string) (d : string) : string :=
  match o with
  | Some (String a s) => String a s
  | _ => d
  end.

(** [s[-1]]: [None] is the [IndexError] on the empty string. *)
Fixpoint last_char (s : string) : option ascii :=
  match s with
  | EmptyString => None
  | String a EmptyString => Some a
  | String _ s' => last_char s'
  end.

(** [s[:-1]] *)
Fixpoint drop_last (s : string) : string :=
  match s with
  | EmptyString => EmptyString
  | String _ EmptyString => EmptyString
  | String a s' => String a (drop_last s')
  end.

End Py.

(** ** Dates and durations *)

Abbreviation datetime := Z (only parsing).

(** [datetime.min] and [datetime.max], read in UTC: 0001-01-01T00:00:00 and
    9999-12-31T23:59:59.999999. *)
Definition datetime_min : Z := -62135596800000000.
Definition datetime_max : Z := 253402300799999999.

(** The values a Python [datetime] can hold. *)
Definition valid_datetime (dt : Z) : Prop := datetime_min <= dt <= datetime_max.

Definition timedelta (seconds : Z) : Z := seconds * 1000000.

(** The exception of the date arithmetic. *)
Inductive exn := OverflowError.

(** What running a piece of code gives: a value, an exception, or nothing
    yet because the fuel of its loop ran out. *)
Inductive outcome (A : Type) : Type :=
  | Returned (a : A)
  | Raised (e : exn)
  | OutOfFuel.
Arguments Returned {A} a.
Arguments Raised {A} e.
Arguments OutOfFuel {A}.

Definition outcome_map {A B} (f : A -> B) (o : outcome A) : outcome B :=
  match o with
  | Returned a => Returned (f a)
  | Raised e => Raised e
  | OutOfFuel => OutOfFuel
  end.

(** The constructor call [timedelta(seconds=n)]: the normalized [days] field
    ([n // 86400]) must have magnitude at most 999999999, otherwise
    [OverflowError]. *)
Definition timedelta_of_seconds (seconds : Z) : option Z :=
  let days := seconds / 86400 in
  if (-999999999 <=? days) && (days <=? 999999999)
  then Some (timedelta seconds) else None.

(** [dt + td] on a [datetime]: [OverflowError] when the sum is not a
    [datetime]. *)
Definition datetime_add (dt : datetime) (td : Z) : option Z :=
  let sum := dt + td in
  if (datetime_min <=? sum) && (sum <=? datetime_max) then Some sum else None.

(** [x / y] rounded to the nearest integer, ties to the even one
    ([0 <= x], [0 < y]). *)
Definition round_half_even (x y : Z) : Z :=
  let q := x / y in
  let r := x mod y in
  if 2 * r <? y then q
  else if y <? 2 * r then q + 1
  else if Z.even q then q else q + 1.

(** [int(n / d)] for Python ints [0 < n] and [0 < d] whose quotient is in
    the normal range of binary64, as that of a [timedelta]'s microseconds by
    [10 ** 6] always is.  The true division gives the float nearest to the
    quotient: a mantissa [m] of 53 bits, the quotient scaled by [2 ^ k] and
    rounded half to even; [int] truncates the float [m * 2 ^ (- k)]. *)
Definition int_of_true_divide (n d : Z) : Z :=
  let k0 := 52 + Z.log2 d - Z.log2 n in
  let k :=
    if d * 2 ^ 52 * 2 ^ Z.max 0 (- k0) <=? n * 2 ^ Z.max 0 k0
    then k0 else k0 + 1 in
  let m := round_half_even (n * 2 ^ Z.max 0 k) (d * 2 ^ Z.max 0 (- k)) in
  (m * 2 ^ Z.max 0 (- k)) / 2 ^ Z.max 0 k.

(** [int(td.total_seconds())]: [total_seconds] divides the microseconds of
    [td] by [10 ** 6] into a float. *)
Definition total_seconds_int (td : Z) : Z :=
  if td =? 0 then 0
  else if 0 <? td then int_of_true_divide td 1000000
  else - int_of_true_divide (- td) 1000000.

(** [dt.minute] of a UTC datetime *)
Definition minute (dt : datetime) : Z := (dt / 60000000) mod 60.

(** [dt.second] *)
Definition second (dt : datetime) : Z := (dt / 1000000) mod 60.

(** ** Code shared verbatim by the two importers *)

(** The [multipliers] table of [parse_duration_to_seconds]. *)
Definition multipliers (unit : ascii) : option Z :=
  match unit with
  | "s"%char => Some 1
  | "m"%char => Some 60
  | "h"%char => Some 3600
  | "d"%char => Some 86400
  | "w"%char => Some 604800
  | "y"%char => Some 31536000
  | _ => None
  end.

Section Duration.

(** Python's [int(str)]: [None] when it raises [ValueError]. *)
Variable int : string -> option Z.

(** [parse_duration_to_seconds] *)
Definition parse_duration_to_seconds (duration_str : string) : option Z :=
  unit ← Py.last_char duration_str;
  value ← int (Py.drop_last duration_str);
  Some (value * default 3600 (multipliers unit)).

End Duration.

(** [generate_time_windows]: the [while current < stop] loop.  [windows] is
    the list built so far. *)
Fixpoint generate_time_windows_loop (fuel : nat) (current stop : datetime)
    (window_size_seconds : Z) (windows : list (datetime * datetime))
    : outcome (list (datetime * datetime)) :=
  if current <? stop then
    match fuel with
    | O => OutOfFuel
    | S fuel' =>
        match timedelta_of_seconds window_size_seconds with
        | None => Raised OverflowError
        | Some td =>
            match datetime_add current td with
            | None => Raised OverflowError
            | Some sum =>
                let window_end := Z.min sum stop in
                generate_time_windows_loop fuel' window_end stop
                  window_size_seconds (windows ++ [(current, window_end)])
            end
        end
    end
  else Returned windows.

Definition generate_time_windows (fuel : nat) (start stop : datetime)
    (window_size_seconds : Z) : outcome (list (datetime * datetime)) :=
  generate_time_windows_loop fuel start stop window_size_seconds [].

(** [extract_container_info] *)
Record container_info := { base : string; version : string }.

Definition extract_container_info (container_name : string) : container_info :=
  let '(base0, version0) :=
    if Py.contains ":"%char container_name then
      match Py.rsplit1 ":"%char container_name with
      | [b; v] => (b, v)
      | _ => (container_name, "latest")
      end
    else (container_name, "latest") in
  let base1 :=
    if Py.contains "/"%char base0 then List.last (Py.split "/"%char base0) base0
    else base0 in
  {| base := base1; version := version0 |}.

Record user_info := { email : string; name : string }.

(** An emitted observation: the 9-tuple of [transform_records]. *)
Record observation := {
  o_timestamp : datetime;
  o_user_email : string;
  o_user_name : string;
  o_node_name : string;
  o_container_image : string;
  o_container_base : string;
  o_container_version : string;
  o_age_seconds : Z;
  o_pod_name : string
}.

(** ** The InfluxDB v1.x importer *)

Module V1.

(** A raw row of [query_influxdb]: the keys [transform_records] reads.
    [None] is a missing key (or a [None] value). *)
Record raw_sample := {
  time : option string;
  pod_name : option string;
  container_name : option string;
  node_name : option string;
  image : option string;
  version_tag : option string
}.

(** [is_in_blocked_time_window]; [now] is [datetime.now(timezone.utc)]. *)
Definition is_in_blocked_time_window (now : datetime)
    (minutes_before minutes_after : Z) : bool :=
  let current_minute := minute now in
  if (60 - minutes_before <=? current_minute) || (current_minute <=? minutes_after)
  then true
  else false.

Definition default_minutes_before : Z := 1.
Definition default_minutes_after : Z := 2.

(** The countdown [seconds_until_safe] that [draw_waiting_screen] computes
    from its own reading [now] of the clock. *)
Definition seconds_until_safe (now : datetime)
    (minutes_before minutes_after : Z) : Z :=
  let current_minute := minute now in
  if current_minute <=? minutes_after then
    let wait_minutes := minutes_after - current_minute + 1 in
    wait_minutes * 60 - second now
  else
    let wait_minutes := (60 - current_minute) + minutes_after + 1 in
    wait_minutes * 60 - second now.

(** [extract_user_info_from_pod_name] *)
Definition extract_user_info_from_pod_name (pod_name : string) : user_info :=
  if String.eqb pod_name "" then
    {| email := "unknown@illinois.edu"; name := "Unknown User" |}
  else if Py.startswith "jupyter-" pod_name then
    let username_part := Py.drop 8 pod_name in
    let parts := Py.rsplit1 "-"%char username_part in
    let username :=
      match parts with
      | p0 :: _ => p0
      | [] => "unknown"
      end in
    let email := (username ++ "@illinois.edu")%string in
    {| email := email; name := Py.title (Py.replace "-"%char " " username) |}
  else {| email := "unknown@illinois.edu"; name := "Unknown User" |}.

Section Normalizer.

(** [datetime.fromisoformat]: [None] when it raises [ValueError]. *)
Variable fromisoformat : string -> option datetime.

(** [datetime.fromisoformat(s.replace("Z", "+00:00"))] *)
Definition parse_timestamp (s : string) : option datetime :=
  fromisoformat (Py.replace "Z"%char "+00:00" s).

(** [r["time"]] parsed; a missing key raises. *)
Definition record_time (r : raw_sample) : option datetime :=
  t ← time r; parse_timestamp t.

(** [min] of a non-empty sequence. *)
Definition min_list (x : Z) (l : list Z) : Z := foldl Z.min x l.

(** [estimate_pod_age] *)
Definition estimate_pod_age (timestamp : string) (pod : string)
    (all_records : list raw_sample) : option Z :=
  current_time ← parse_timestamp timestamp;
  let pod_records :=
    filter (fun r => pod_name r = Some pod) all_records in
  match pod_records with
  | r0 :: rest =>
      t0 ← record_time r0;
      ts ← mapM record_time rest;
      let earliest_time := min_list t0 ts in
      let age := current_time - earliest_time in
      Some (total_seconds_int age)
  | [] => Some 0
  end.

(** The variables the loop of [transform_records] updates. *)
Record loop_state := {
  transformed : list observation;
  skipped_no_pod_name : Z;
  skipped_not_jupyter : Z;
  seen_keys : gset (string * string)
}.

Definition init_state : loop_state :=
  {| transformed := []; skipped_no_pod_name := 0; skipped_not_jupyter := 0;
     seen_keys := ∅ |}.

(** One iteration of [for record in records]. *)
Definition transform_record (records : list raw_sample) (st : loop_state)
    (record : raw_sample) : option loop_state :=
  if negb (Py.truthy (time record)) then Some st
  else
    let timestamp_str := default "" (time record) in
    timestamp ← parse_timestamp timestamp_str;
    let pod := Py.or_default (pod_name record) "unknown" in
    let node := Py.or_default (node_name record) "unknown" in
    let img := Py.or_default (image record) "unknown" in
    let version_from_tag := version_tag record in
    if String.eqb pod "unknown" then
      Some {| transformed := transformed st;
              skipped_no_pod_name := skipped_no_pod_name st + 1;
              skipped_not_jupyter := skipped_not_jupyter st;
              seen_keys := seen_keys st |}
    else if negb (Py.startswith "jupyter-" pod) then
      Some {| transformed := transformed st;
              skipped_no_pod_name := skipped_no_pod_name st;
              skipped_not_jupyter := skipped_not_jupyter st + 1;
              seen_keys := seen_keys st |}
    else
      let record_key := (pod, timestamp_str) in
      if decide (record_key ∈ seen_keys st) then Some st
      else
        let user := extract_user_info_from_pod_name pod in
        let cinfo := extract_container_info img in
        let final_version := Py.or_default version_from_tag (version cinfo) in
        age_seconds ← estimate_pod_age timestamp_str pod records;
        Some {| transformed := transformed st ++
                  [ {| o_timestamp := timestamp;
                       o_user_email := email user;
                       o_user_name := name user;
                       o_node_name := node;
                       o_container_image := img;
                       o_container_base := base cinfo;
                       o_container_version := final_version;
                       o_age_seconds := age_seconds;
                       o_pod_name := pod |} ];
                skipped_no_pod_name := skipped_no_pod_name st;
                skipped_not_jupyter := skipped_not_jupyter st;
                seen_keys := seen_keys st ∪ {[ record_key ]} |}.

(** The [for] loop: the first exception aborts it. *)
Fixpoint transform_loop (records : list raw_sample) (st : loop_state)
    (todo : list raw_sample) : option loop_state :=
  match todo with
  | [] => Some st
  | record :: todo' =>
      st' ← transform_record records st record;
      transform_loop records st' todo'
  end.

Record stats := {
  s_transformed : Z;
  s_skipped_no_pod_name : Z;
  s_skipped_not_jupyter : Z;
  s_duplicates_in_batch : Z
}.

(** [transform_records] *)
Definition transform_records (records : list raw_sample)
    : option (list observation * stats) :=
  st ← transform_loop records init_state records;
  let len_records := Z.of_nat (length records) in
  let len_transformed := Z.of_nat (length (transformed st)) in
  Some (transformed st,
        {| s_transformed := len_transformed;
           s_skipped_no_pod_name := skipped_no_pod_name st;
           s_skipped_not_jupyter := skipped_not_jupyter st;
           s_duplicates_in_batch :=
             len_records - len_transformed
             - skipped_no_pod_name st - skipped_not_jupyter st |}).

End Normalizer.

(** ** User aggregator and the [users] table *)

(** A value of the dict built by [extract_users_from_batch]. *)
Record user_entry := {
  user_id : string;
  first_seen : datetime;
  last_seen : datetime
}.

(** [extract_users_from_batch]: one iteration of the loop. *)
Definition add_user (users : gmap string user_entry) (record : observation)
    : gmap string user_entry :=
  let timestamp := o_timestamp record in
  let user_email := o_user_email record in
  let pod := o_pod_name record in
  let uid :=
    if Py.startswith "jupyter-" pod then
      match Py.rsplit1 "-"%char (Py.drop 8 pod) with
      | p0 :: _ => p0
      | [] => "unknown"
      end
    else "unknown" in
  match users !! user_email with
  | None =>
      <[ user_email := {| user_id := uid; first_seen := timestamp;
                          last_seen := timestamp |} ]> users
  | Some u =>
      let u1 := {| user_id := user_id u;
                   first_seen := Z.min (first_seen u) timestamp;
                   last_seen := last_seen u |} in
      let u2 := {| user_id := user_id u1;
                   first_seen := first_seen u1;
                   last_seen := Z.max (last_seen u1) timestamp |} in
      <[ user_email := u2 ]> users
  end.

Definition extract_users_from_batch (transformed : list observation)
    : gmap string user_entry :=
  foldl add_user ∅ transformed.

(** A row of the [users] table, keyed by [email]. *)
Record user_row := {
  r_user_id : string;
  r_full_name : string;
  r_first_seen : datetime;
  r_last_seen : datetime
}.

(** SQL [split_part(s, '@', 1)] *)
Definition split_part_1 (s : string) : string :=
  match Py.split "@"%char s with
  | p0 :: _ => p0
  | [] => ""
  end.

(** One execution of [upsert_sql] with the parameters
    [(email, user_id, email, first_seen, last_seen)]:
    [INSERT ... ON CONFLICT (email) DO UPDATE SET
       first_seen = LEAST(users.first_seen, EXCLUDED.first_seen),
       last_seen = GREATEST(users.last_seen, EXCLUDED.last_seen)]. *)
Definition upsert_sql (table : gmap string user_row)
    (params : string * user_entry) : gmap string user_row :=
  let '(email, data) := params in
  match table !! email with
  | None =>
      <[ email := {| r_user_id := user_id data;
                     r_full_name := split_part_1 email;
                     r_first_seen := first_seen data;
                     r_last_seen := last_seen data |} ]> table
  | Some row =>
      <[ email := {| r_user_id := r_user_id row;
                     r_full_name := r_full_name row;
                     r_first_seen := Z.min (r_first_seen row) (first_seen data);
                     r_last_seen := Z.max (r_last_seen row) (last_seen data) |} ]>
        table
  end.

(** [upsert_users] on a connection whose statements succeed: the new table
    and the returned [users_inserted]. *)
Definition upsert_users (table : gmap string user_row)
    (users : gmap string user_entry) : gmap string user_row * Z :=
  if decide (users = ∅) then (table, 0)
  else
    let users_before := Z.of_nat (size table) in
    let user_data := map_to_list users in
    let table' := foldl upsert_sql table user_data in
    let users_after := Z.of_nat (size table') in
    (table', users_after - users_before).

(** ** The [container_observations] table *)

(** The unique key [(user_email, pod_name, timestamp)]. *)
Definition observation_key (o : observation) : string * string * Z :=
  (o_user_email o, o_pod_name o, o_timestamp o).

(** One execution of [insert_sql]:
    [INSERT ... ON CONFLICT (user_email, pod_name, timestamp) DO NOTHING]. *)
Definition insert_sql (table : gmap (string * string * Z) observation)
    (o : observation) : gmap (string * string * Z) observation :=
  match table !! observation_key o with
  | Some _ => table
  | None => <[ observation_key o := o ]> table
  end.

(** [insert_records] on a connection whose statements succeed: the new
    table and the returned [rows_inserted].  [batch_size] is the page size
    of [execute_batch] and only groups the statements. *)
Definition insert_records (table : gmap (string * string * Z) observation)
    (records : list observation) (batch_size : Z)
    : gmap (string * string * Z) observation * Z :=
  match records with
  | [] => (table, 0)
  | _ =>
      let rows_before := Z.of_nat (size table) in
      let table' := foldl insert_sql table records in
      let rows_after := Z.of_nat (size table') in
      (table', rows_after - rows_before)
  end.

(** ** The import loop of [main] *)

(** What [run_import_loop] reads and updates: the [nonlocal] totals, the
    list [all_records] and the two tables behind [pg_conn]. *)
Record import_state := {
  all_records : list raw_sample;
  total_containers_inserted : Z;
  total_users_inserted : Z;
  total_skipped_no_pod_name : Z;
  total_skipped_not_jupyter : Z;
  total_duplicates_in_batch : Z;
  container_observations : gmap (string * string * Z) observation;
  users : gmap string user_row
}.

Section Driver.

Variable fromisoformat : string -> option datetime.

(** [query_influxdb(influx_client, build_influxql_query(...))] for a
    window: the rows the source returns. *)
Variable fetch : datetime * datetime -> list raw_sample.

Variable dry_run : bool.
Variable batch_size : Z.

(** The body of the [for] loop of [run_import_loop], without the waits. *)
Definition import_window (st : import_state) (window : datetime * datetime)
    : option import_state :=
  let window_records := fetch window in
  let all_records' := all_records st ++ window_records in
  if bool_decide (window_records <> []) && negb dry_run then
    '(transformed, stats) ← transform_records fromisoformat window_records;
    let sk1 := total_skipped_no_pod_name st + s_skipped_no_pod_name stats in
    let sk2 := total_skipped_not_jupyter st + s_skipped_not_jupyter stats in
    let dup := total_duplicates_in_batch st + s_duplicates_in_batch stats in
    match transformed with
    | [] =>
        Some {| all_records := all_records';
                total_containers_inserted := total_containers_inserted st;
                total_users_inserted := total_users_inserted st;
                total_skipped_no_pod_name := sk1;
                total_skipped_not_jupyter := sk2;
                total_duplicates_in_batch := dup;
                container_observations := container_observations st;
                users := users st |}
    | _ =>
        let '(table', containers_inserted) :=
          insert_records (container_observations st) transformed batch_size in
        let batch_users := extract_users_from_batch transformed in
        let '(users', users_inserted) := upsert_users (users st) batch_users in
        Some {| all_records := all_records';
                total_containers_inserted :=
                  total_containers_inserted st + containers_inserted;
                total_users_inserted := total_users_inserted st + users_inserted;
                total_skipped_no_pod_name := sk1;
                total_skipped_not_jupyter := sk2;
                total_duplicates_in_batch := dup;
                container_observations := table';
                users := users' |}
    end
  else
    Some {| all_records := all_records';
            total_containers_inserted := total_containers_inserted st;
            total_users_inserted := total_users_inserted st;
            total_skipped_no_pod_name := total_skipped_no_pod_name st;
            total_skipped_not_jupyter := total_skipped_not_jupyter st;
            total_duplicates_in_batch := total_duplicates_in_batch st;
            container_observations := container_observations st;
            users := users st |}.

(** [run_import_loop]: the windows in order; an exception stops the loop. *)
Fixpoint run_import_loop (st : import_state)
    (windows : list (datetime * datetime)) : option import_state :=
  match windows with
  | [] => Some st
  | window :: windows' =>
      st' ← import_window st window;
      run_import_loop st' windows'
  end.

(** The state [main] starts the loop with. *)
Definition initial_state
    (table : gmap (string * string * Z) observation)
    (utable : gmap string user_row) : import_state :=
  {| all_records := [];
     total_containers_inserted := 0;
     total_users_inserted := 0;
     total_skipped_no_pod_name := 0;
     total_skipped_not_jupyter := 0;
     total_duplicates_in_batch := 0;
     container_observations := table;
     users := utable |}.

(** [transformed_count], the "Ready to insert" figure of [main]. *)
Definition transformed_count (st : import_state) : Z :=
  Z.of_nat (length (all_records st))
  - total_skipped_no_pod_name st - total_skipped_not_jupyter st
  - total_duplicates_in_batch st.

End Driver.

End V1.

(** ** The InfluxDB v2 importer *)

Module V2.

(** A row of [query_influxdb]: [time], [pod_name] and [node_name] are read
    with [record[...]], the others with [record.get]. *)
Record raw_sample := {
  time : datetime;
  pod_name : string;
  container_name : option string;
  node_name : string;
  image : option string;
  version_tag : option string;
  state : option string;
  phase : option string
}.

(** [extract_user_info_from_pod_name] *)
Definition extract_user_info_from_pod_name (pod_name : string) : user_info :=
  if Py.startswith "jupyter-" pod_name then
    let username_part := Py.drop 8 pod_name in
    let parts := Py.rsplit1 "-"%char username_part in
    let username :=
      match parts with
      | p0 :: _ => p0
      | [] => "unknown"
      end in
    let email := (username ++ "@ilinois.edu")%string in
    {| email := email; name := Py.title (Py.replace "-"%char " " username) |}
  else {| email := "unknown@ilinois.edu"; name := "Unknown User" |}.

(** First pass of [transform_records]: earliest timestamp of each pod. *)
Definition note_first_seen (pod_first_seen : gmap string datetime)
    (record : raw_sample) : gmap string datetime :=
  let pod := pod_name record in
  let timestamp := time record in
  match pod_first_seen !! pod with
  | None => <[ pod := timestamp ]> pod_first_seen
  | Some t =>
      if timestamp <? t then <[ pod := timestamp ]> pod_first_seen
      else pod_first_seen
  end.

Definition first_pass (records : list raw_sample) : gmap string datetime :=
  foldl note_first_seen ∅ records.

(** Second pass, one record: [None] is [continue]. *)
Definition transform_record (pod_first_seen : gmap string datetime)
    (record : raw_sample) : option observation :=
  let timestamp := time record in
  let pod := pod_name record in
  let cname := default "unknown" (container_name record) in
  let node := node_name record in
  let img := default cname (image record) in
  let version_from_tag := version_tag record in
  let st := Py.lower (default "" (state record)) in
  let ph := Py.lower (default "" (phase record)) in
  if negb (String.eqb st "running") && negb (String.eqb ph "running") then None
  else
    let user := extract_user_info_from_pod_name pod in
    let cinfo := extract_container_info img in
    let final_version :=
      match version_from_tag with
      | Some v =>
          if Py.truthy version_from_tag && negb (String.eqb v "unknown")
          then v else version cinfo
      | None => version cinfo
      end in
    let first := default timestamp (pod_first_seen !! pod) in
    let age := timestamp - first in
    let age_seconds := total_seconds_int age in
    Some {| o_timestamp := timestamp;
            o_user_email := email user;
            o_user_name := name user;
            o_node_name := node;
            o_container_image := img;
            o_container_base := base cinfo;
            o_container_version := final_version;
            o_age_seconds := age_seconds;
            o_pod_name := pod |}.

(** [transform_records] *)
Definition transform_records (records : list raw_sample) : list observation :=
  let pod_first_seen := first_pass records in
  omap (transform_record pod_first_seen) records.

End V2.

(** ** A concrete [fromisoformat] for the form [YYYY-MM-DDTHH:MM:SS+00:00] *)

Module Iso.

Definition digit (a : ascii) : option Z :=
  let n := Z.of_nat (nat_of_ascii a) in
  if (48 <=? n) && (n <=? 57) then Some (n - 48) else None.

Fixpoint number (acc : Z) (l : list ascii) : option Z :=
  match l with
  | [] => Some acc
  | a :: l' => d ← digit a; number (10 * acc + d) l'
  end.

(** Days from 1970-01-01 to the civil date [y-m-d] (proleptic Gregorian). *)
Definition days_from_civil (y m d : Z) : Z :=
  let y' := if m <=? 2 then y - 1 else y in
  let era := y' / 400 in
  let yoe := y' - era * 400 in
  let mp := (m + 9) mod 12 in
  let doy := (153 * mp + 2) / 5 + d - 1 in
  let doe := yoe * 365 + yoe / 4 - yoe / 100 + doy in
  era * 146097 + doe - 719468.

Definition fromisoformat (s : string) : option datetime :=
  match list_ascii_of_string s with
  | [y1; y2; y3; y4; "-"; m1; m2; "-"; d1; d2; "T"; h1; h2; ":"; i1; i2; ":";
     s1; s2; "+"; "0"; "0"; ":"; "0"; "0"]%char =>
      y ← number 0 [y1; y2; y3; y4];
      m ← number 0 [m1; m2];
      d ← number 0 [d1; d2];
      h ← number 0 [h1; h2];
      i ← number 0 [i1; i2];
      sec ← number 0 [s1; s2];
      if (1 <=? m) && (m <=? 12) && (1 <=? d) && (d <=? 31)
         && (h <=? 23) && (i <=? 59) && (sec <=? 59)
      then Some ((days_from_civil y m d * 86400 + h * 3600 + i * 60 + sec)
                 * 1000000)
      else None
  | _ => None
  end.

End Iso.
(** ** Vocabulary of the statements *)

(** Each window ends where the next one starts. *)
Definition contiguous (ws : list (datetime * datetime)) : Prop :=
  forall (i : nat) a b, ws !! i = Some a -> ws !! S i = Some b -> a.2 = b.1.

(** An earlier window ends no later than a later one starts. *)
Definition non_overlapping (ws : list (datetime * datetime)) : Prop :=
  forall (i j : nat) a b,
    (i < j)%nat -> ws !! i = Some a -> ws !! j = Some b -> a.2 <= b.1.

(** The half-open windows cover exactly [[start, stop)]. *)
Definition covers (start stop : datetime) (ws : list (datetime * datetime))
    : Prop :=
  forall t, start <= t < stop <-> exists w, w ∈ ws /\ w.1 <= t < w.2.

(** Windows of positive length at most [d], chained from [a] up to [b]. *)
Fixpoint chain (d a : Z) (l : list (datetime * datetime)) (b : Z) : Prop :=
  match l with
  | [] => b <= a
  | w :: l' => w.1 = a /\ a < w.2 /\ w.2 - a <= d /\ w.2 <= b /\ chain d w.2 l' b
  end.

(** The number of iterations the loop of [generate_time_windows] needs: the
    length of the range in window sizes, rounded up. *)
Definition window_count (start stop : datetime) (window_size_seconds : Z) : Z :=
  Z.max 0 ((stop - start + timedelta window_size_seconds - 1)
           / timedelta window_size_seconds).

(** The largest sum [current + timedelta(seconds=window_size_seconds)] the
    loop computes, before [min] clips it to [stop], is still a [datetime]. *)
Definition windows_in_range (start stop : datetime) (window_size_seconds : Z)
    : Prop :=
  start + window_count start stop window_size_seconds
          * timedelta window_size_seconds <= datetime_max.

(** Every element of a list, paired with the elements before it. *)
Fixpoint with_prefix_from {A} (pre l : list A) : list (list A * A) :=
  match l with
  | [] => []
  | x :: l' => (pre, x) :: with_prefix_from (pre ++ [x]) l'
  end.

Definition with_prefix {A} (l : list A) : list (list A * A) :=
  with_prefix_from [] l.

(** [e] is the earliest timestamp among the records of [pod]: it is the
    time of one of them, and every one of them has a time no earlier. *)
Definition earliest_time {A} (pod_of : A -> option string)
    (time_of : A -> option Z) (records : list A) (pod : string) (e : Z)
    : Prop :=
  (exists r, r ∈ records /\ pod_of r = Some pod /\ time_of r = Some e)
  /\ (forall r, r ∈ records -> pod_of r = Some pod ->
        exists t, time_of r = Some t /\ e <= t).

Module V1Spec.

(** The dedup key [(pod_name, raw_timestamp_string)] of a sample that has a
    timestamp and a pod name with the required prefix. *)
Definition dedup_key (r : V1.raw_sample) : option (string * string) :=
  match V1.time r, V1.pod_name r with
  | Some ts, Some pod =>
      if Py.truthy (Some ts) && Py.startswith "jupyter-" pod
      then Some (pod, ts) else None
  | _, _ => None
  end.

(** [r] repeats the key of a sample of [pre]. *)
Definition is_duplicate (pre : list V1.raw_sample) (r : V1.raw_sample) : bool :=
  match dedup_key r with
  | Some k => bool_decide (Some k ∈ dedup_key <$> pre)
  | None => false
  end.

(** [r] has a key that no sample of [pre] has. *)
Definition is_first (pre : list V1.raw_sample) (r : V1.raw_sample) : bool :=
  match dedup_key r with
  | Some k => bool_decide (Some k ∉ dedup_key <$> pre)
  | None => false
  end.

(** The samples whose key already occurred earlier in the batch. *)
Definition later_duplicates (records : list V1.raw_sample)
    : list V1.raw_sample :=
  snd <$> filter (fun p => is_duplicate p.1 p.2) (with_prefix records).

(** The samples that are the first of the batch with their key. *)
Definition first_occurrences (records : list V1.raw_sample)
    : list V1.raw_sample :=
  snd <$> filter (fun p => is_first p.1 p.2) (with_prefix records).

(** The samples with a missing (or empty) timestamp. *)
Definition without_timestamp (records : list V1.raw_sample)
    : list V1.raw_sample :=
  filter (fun r => Py.truthy (V1.time r) = false) records.

(** [o] is the observation that the loop body of [transform_records]
    builds from the sample [r] of the batch [records]. *)
Definition emitted_for (fromisoformat : string -> option Z)
    (records : list V1.raw_sample) (r : V1.raw_sample) (o : observation)
    : Prop :=
  exists ts,
    V1.time r = Some ts
    /\ V1.parse_timestamp fromisoformat ts = Some (o_timestamp o)
    /\ V1.pod_name r = Some (o_pod_name o)
    /\ Py.startswith "jupyter-" (o_pod_name o) = true
    /\ o_user_email o = email (V1.extract_user_info_from_pod_name (o_pod_name o))
    /\ o_user_name o = name (V1.extract_user_info_from_pod_name (o_pod_name o))
    /\ o_container_image o = Py.or_default (V1.image r) "unknown"
    /\ o_container_base o = base (extract_container_info (o_container_image o))
    /\ o_container_version o =
         Py.or_default (V1.version_tag r)
           (version (extract_container_info (o_container_image o)))
    /\ V1.estimate_pod_age fromisoformat ts (o_pod_name o) records
       = Some (o_age_seconds o).

(** The loop invariant of [transform_records] after the samples [done]. *)
Definition loop_inv (fromisoformat : string -> option Z)
    (records done : list V1.raw_sample) (st : V1.loop_state) : Prop :=
  V1.seen_keys st = list_to_set (omap dedup_key done)
  /\ Forall2 (emitted_for fromisoformat records) (first_occurrences done)
       (V1.transformed st)
  /\ 0 <= V1.skipped_no_pod_name st
  /\ 0 <= V1.skipped_not_jupyter st
  /\ Z.of_nat (length (V1.transformed st)) + V1.skipped_no_pod_name st
     + V1.skipped_not_jupyter st
     + Z.of_nat (length (later_duplicates done))
     + Z.of_nat (length (without_timestamp done))
     = Z.of_nat (length done).

End V1Spec.

(** ** Samples used in the scenarios *)

Module Scenario.

Definition bob : string := "jupyter-bob-aa11".

(** The v1 sample [r] with its timestamp string and pod name replaced. *)
Definition v1_at (ts pod : string) (r : V1.raw_sample) : V1.raw_sample :=
  {| V1.time := Some ts;
     V1.pod_name := Some pod;
     V1.container_name := V1.container_name r;
     V1.node_name := V1.node_name r;
     V1.image := V1.image r;
     V1.version_tag := V1.version_tag r |}.

(** The v2 sample [r] with its timestamp and pod name replaced, marked
    running. *)
Definition v2_running_at (t : Z) (pod : string) (r : V2.raw_sample)
    : V2.raw_sample :=
  {| V2.time := t;
     V2.pod_name := pod;
     V2.container_name := V2.container_name r;
     V2.node_name := V2.node_name r;
     V2.image := V2.image r;
     V2.version_tag := V2.version_tag r;
     V2.state := Some "running";
     V2.phase := V2.phase r |}.

Definition v1_sample (ts pod img ver : option string) : V1.raw_sample :=
  {| V1.time := ts;
     V1.pod_name := pod;
     V1.container_name := Some "notebook";
     V1.node_name := Some "node-1";
     V1.image := img;
     V1.version_tag := ver |}.

Definition v2_sample (t : Z) (pod : string) (img ver st : option string)
    : V2.raw_sample :=
  {| V2.time := t;
     V2.pod_name := pod;
     V2.container_name := Some "notebook";
     V2.node_name := "node-1";
     V2.image := img;
     V2.version_tag := ver;
     V2.state := st;
     V2.phase := None |}.

(** A v1 batch: three samples of one pod five minutes apart, a repeated
    row, a row without timestamp and a row of another pod. *)
Definition v1_batch : list V1.raw_sample :=
  [ v1_sample (Some "2024-01-01T00:00:00Z") (Some bob) (Some "reg/nb:v1") None;
    v1_sample (Some "2024-01-01T00:05:00Z") (Some bob) (Some "reg/nb:v1") None;
    v1_sample (Some "2024-01-01T00:10:00Z") (Some bob) (Some "reg/nb:v1") None;
    v1_sample (Some "2024-01-01T00:10:00Z") (Some bob) (Some "reg/nb:v1") None;
    v1_sample None (Some "jupyter-eve-cc33") (Some "reg/nb:v1") None;
    v1_sample (Some "2024-01-01T00:10:00Z") (Some "hub-7f9c") (Some "hub:3") None ].

(** A row without timestamp. *)
Definition v1_no_time : V1.raw_sample :=
  v1_sample None (Some bob) (Some "reg/nb:v1") None.

(** A row whose version tag is the string ["unknown"]. *)
Definition v1_unknown_tag : V1.raw_sample :=
  v1_sample (Some "2024-01-01T00:00:00Z") (Some bob) (Some "reg/nb:v1")
    (Some "unknown").

(** A running pod of the hub itself, as the v2 query returns it. *)
Definition v2_hub : V2.raw_sample :=
  v2_sample 1704067200000000 "hub-jupyter-7f9c" (Some "hub:3") (Some "unknown")
    (Some "running").

(** Two running samples of one pod, at 1400-01-01T00:00:00 and at
    2023-12-31T23:59:59.999999. *)
Definition v2_long_span : list V2.raw_sample :=
  [ v2_sample (-17987443200000000) bob (Some "reg/nb:v1") (Some "unknown")
      (Some "running");
    v2_sample 1704067199999999 bob (Some "reg/nb:v1") (Some "unknown")
      (Some "running") ].

(** An observation of [bob] at the timestamp [t]. *)
Definition bob_at (t : Z) : observation :=
  {| o_timestamp := t;
     o_user_email := "bob@illinois.edu";
     o_user_name := "Bob";
     o_node_name := "node-1";
     o_container_image := "reg/nb:v1";
     o_container_base := "nb";
     o_container_version := "v1";
     o_age_seconds := 0;
     o_pod_name := bob |}.

(** A [users] table that already has a row for [bob]. *)
Definition users_table : gmap string V1.user_row :=
  {[ "bob@illinois.edu" :=
       {| V1.r_user_id := "bob"; V1.r_full_name := "Bob B.";
          V1.r_first_seen := 200; V1.r_last_seen := 300 |} ]}.

(** A source that has two rows of one pod in the window starting at 0 and
    nothing elsewhere. *)
Definition fetch (w : Z * Z) : list V1.raw_sample :=
  if w.1 =? 0 then
    [ v1_sample (Some "2024-01-01T00:00:00Z") (Some bob) (Some "nb:v1") None;
      v1_sample (Some "2024-01-01T00:05:00Z") (Some bob) (Some "nb:v1") None ]
  else [].

Definition windows : list (Z * Z) := [(0, 7200000000); (7200000000, 9000000000)].

End Scenario.

(** The observations of [obs] for the e-mail [e] start at [a] and end at
    [b]: both are timestamps of such observations, and all lie between. *)
Definition observed_range (obs : list observation) (e : string) (a b : Z)
    : Prop :=
  (exists o, o ∈ obs /\ o_user_email o = e /\ o_timestamp o = a)
  /\ (exists o, o ∈ obs /\ o_user_email o = e /\ o_timestamp o = b)
  /\ (forall o, o ∈ obs -> o_user_email o = e -> a <= o_timestamp o <= b).

(** ** Further vocabulary *)

Module V1Count.

(** The samples [transform_records] skips for want of a pod name: they have
    a timestamp, and their pod name is missing, empty or ["unknown"]. *)
Definition no_pod_name (records : list V1.raw_sample) : list V1.raw_sample :=
  filter (fun r => Py.truthy (V1.time r) = true
                   /\ Py.or_default (V1.pod_name r) "unknown" = "unknown")
    records.

(** The samples skipped because their pod name lacks the prefix. *)
Definition not_target (records : list V1.raw_sample) : list V1.raw_sample :=
  filter (fun r => Py.truthy (V1.time r) = true
                   /\ Py.or_default (V1.pod_name r) "unknown" <> "unknown"
                   /\ Py.startswith "jupyter-"
                        (Py.or_default (V1.pod_name r) "unknown") = false)
    records.

End V1Count.

Module V2Spec.

(** The test of the second pass of the v2 [transform_records]. *)
Definition is_running (r : V2.raw_sample) : Prop :=
  Py.lower (default "" (V2.state r)) = "running"
  \/ Py.lower (default "" (V2.phase r)) = "running".

#[global] Instance is_running_dec r : Decision (is_running r) :=
  or_dec _ _.

End V2Spec.

Module Sink.

(** Every observation of [out] already has its key in the table. *)
Definition obs_covered (table : gmap (string * string * Z) observation)
    (out : list observation) : Prop :=
  forall o, o ∈ out -> is_Some (table !! V1.observation_key o).

(** Every user of the batch has a row whose range contains the batch's. *)
Definition users_covered (table : gmap string V1.user_row)
    (batch : gmap string V1.user_entry) : Prop :=
  forall e u, batch !! e = Some u ->
    exists row, table !! e = Some row
                /\ V1.r_first_seen row <= V1.first_seen u
                /\ V1.last_seen u <= V1.r_last_seen row.

(** The tables already hold what the window [w] yields. *)
Definition window_covered (fromisoformat : string -> option Z)
    (fetch : Z * Z -> list V1.raw_sample)
    (st : V1.import_state) (w : Z * Z) : Prop :=
  forall out stats,
    V1.transform_records fromisoformat (fetch w) = Some (out, stats) ->
    obs_covered (V1.container_observations st) out
    /\ users_covered (V1.users st) (V1.extract_users_from_batch out).

(** From [st] to [st'] no stored observation changes and no user row
    narrows. *)
Definition tables_grow (st st' : V1.import_state) : Prop :=
  (forall k o, V1.container_observations st !! k = Some o ->
               V1.container_observations st' !! k = Some o)
  /\ (forall batch, users_covered (V1.users st) batch ->
                    users_covered (V1.users st') batch).

End Sink.
(** * Seconds of a [timedelta] *)

Lemma round_half_even_bounds x y :
  0 <= x -> 0 < y ->
  2 * x <= 2 * round_half_even x y * y + y
  /\ 2 * round_half_even x y * y <= 2 * x + y.
Proof.
  intros Hx Hy. unfold round_half_even.
  pose proof (Z.div_mod x y ltac:(lia)) as Hdm.
  pose proof (Z.mod_pos_bound x y Hy) as Hr.
  destruct (Z.ltb_spec (2 * (x mod y)) y);
    [|destruct (Z.ltb_spec y (2 * (x mod y))); [|destruct (Z.even (x / y))]];
    nia.
Qed.

Lemma round_half_even_nonneg x y :
  0 <= x -> 0 < y -> 0 <= round_half_even x y.
Proof.
  intros Hx Hy. unfold round_half_even.
  assert (0 <= x / y) by (apply Z.div_pos; lia).
  repeat case_match; lia.
Qed.

Lemma int_of_true_divide_nonneg n d :
  0 < n -> 0 < d -> 0 <= int_of_true_divide n d.
Proof.
  intros Hn Hd. unfold int_of_true_divide.
  set (k := if _ <=? _ then _ else _).
  assert (Ha : 0 < 2 ^ Z.max 0 k) by (apply Z.pow_pos_nonneg; lia).
  assert (Hb : 0 < 2 ^ Z.max 0 (- k)) by (apply Z.pow_pos_nonneg; lia).
  apply Z.div_pos; [|done].
  apply Z.mul_nonneg_nonneg; [|lia].
  apply round_half_even_nonneg; nia.
Qed.

Lemma total_seconds_int_nonneg td : 0 <= td -> 0 <= total_seconds_int td.
Proof.
  intros H. unfold total_seconds_int.
  destruct (Z.eqb_spec td 0); [done|].
  rewrite (proj2 (Z.ltb_lt 0 td)) by lia.
  apply int_of_true_divide_nonneg; lia.
Qed.

(** Below [2 ^ 34] seconds the float keeps the microseconds apart from the
    next whole second, and [int] gives the whole seconds. *)
Lemma total_seconds_int_exact td :
  0 <= td -> td < timedelta (2 ^ 34) -> total_seconds_int td = td / 1000000.
Proof.
  intros H0 Hlt. unfold timedelta in Hlt. unfold total_seconds_int.
  destruct (Z.eqb_spec td 0) as [->|Hne]; [done|].
  rewrite (proj2 (Z.ltb_lt 0 td)) by lia.
  unfold int_of_true_divide.
  change (Z.log2 1000000) with 19.
  assert (Hlog : Z.log2 td < 54).
  { apply Z.log2_lt_pow2; [lia|]. change (2 ^ 54) with 18014398509481984.
    change (2 ^ 34) with 17179869184 in Hlt. lia. }
  pose proof (Z.log2_nonneg td) as Hlog0.
  set (k0 := 52 + 19 - Z.log2 td).
  set (k := if _ <=? _ then _ else _).
  assert (Hk : 19 <= k).
  { unfold k. destruct (Z.leb_spec (1000000 * 2 ^ 52 * 2 ^ Z.max 0 (- k0))
                          (td * 2 ^ Z.max 0 k0)) as [Hc|Hc]; [|lia].
    assert (k0 = 18 \/ 19 <= k0) as [E|?] by lia; [|lia].
    rewrite E in Hc. exfalso.
    change (2 ^ Z.max 0 (- 18)) with 1 in Hc.
    change (2 ^ Z.max 0 18) with 262144 in Hc.
    change (2 ^ 52) with 4503599627370496 in Hc.
    change (2 ^ 34) with 17179869184 in Hlt. lia. }
  clearbody k. clear k0.
  rewrite (Z.max_r 0 k), (Z.max_l 0 (- k)) by lia.
  change (2 ^ 0) with 1. rewrite !Z.mul_1_r.
  assert (HK : 524288 <= 2 ^ k).
  { change 524288 with (2 ^ 19). apply Z.pow_le_mono_r; lia. }
  set (K := 2 ^ k) in *. clearbody K.
  destruct (round_half_even_bounds (td * K) 1000000) as [Hlo Hhi]; [nia|lia|].
  set (m := round_half_even (td * K) 1000000) in *. clearbody m.
  pose proof (Z.div_mod td 1000000 ltac:(lia)) as Hdm.
  pose proof (Z.mod_pos_bound td 1000000 ltac:(lia)) as Hr.
  set (q := td / 1000000) in *. set (r := td mod 1000000) in *.
  clearbody q r. subst td.
  symmetry. apply (Z.div_unique _ _ q (m - q * K)); [|lia].
  left. split; nia.
Qed.

Lemma total_seconds_int_whole n :
  0 <= n < 2 ^ 34 -> total_seconds_int (timedelta n) = n.
Proof.
  intros [H0 Hlt]. rewrite total_seconds_int_exact.
  - unfold timedelta. by rewrite Z.div_mul.
  - unfold timedelta. lia.
  - unfold timedelta. lia.
Qed.
(** * Time windows *)

Lemma timedelta_of_seconds_Some ws td :
  timedelta_of_seconds ws = Some td -> td = timedelta ws.
Proof.
  unfold timedelta_of_seconds. case_match; [|done]. by intros [= <-].
Qed.

Lemma timedelta_of_seconds_small ws :
  0 <= ws -> timedelta ws <= datetime_max - datetime_min ->
  timedelta_of_seconds ws = Some (timedelta ws).
Proof.
  unfold timedelta_of_seconds, timedelta, datetime_max, datetime_min.
  intros H0 Hle.
  assert (0 <= ws / 86400) by (apply Z.div_pos; lia).
  assert (ws / 86400 <= 999999999).
  { apply Z.lt_succ_r. apply Z.div_lt_upper_bound; lia. }
  rewrite (proj2 (Z.leb_le _ _)), (proj2 (Z.leb_le _ _)) by lia. done.
Qed.

Lemma datetime_add_Some dt td sum :
  datetime_add dt td = Some sum -> sum = dt + td /\ valid_datetime sum.
Proof.
  unfold datetime_add, valid_datetime.
  destruct (Z.leb_spec datetime_min (dt + td));
    destruct (Z.leb_spec (dt + td) datetime_max); simpl; try done.
  intros [= <-]. lia.
Qed.

Lemma datetime_add_valid dt td :
  valid_datetime (dt + td) -> datetime_add dt td = Some (dt + td).
Proof.
  unfold datetime_add, valid_datetime. intros [H1 H2].
  by rewrite (proj2 (Z.leb_le _ _) H1), (proj2 (Z.leb_le _ _) H2).
Qed.

Lemma datetime_add_overflow dt td :
  datetime_max < dt + td -> datetime_add dt td = None.
Proof.
  unfold datetime_add. intros H.
  rewrite (proj2 (Z.leb_gt _ _) H). by rewrite andb_false_r.
Qed.

Lemma loop_acc fuel : forall cur stop ws acc,
  generate_time_windows_loop fuel cur stop ws acc =
  outcome_map (fun l => acc ++ l) (generate_time_windows_loop fuel cur stop ws []).
Proof.
  induction fuel as [|fuel IH]; intros cur stop ws acc; simpl.
  - destruct (cur <? stop); simpl; [done | by rewrite app_nil_r].
  - destruct (cur <? stop); simpl; [| by rewrite app_nil_r].
    destruct (timedelta_of_seconds ws) as [td|]; [|done].
    destruct (datetime_add cur td) as [sum|]; [|done].
    rewrite IH. rewrite (IH _ _ _ [_]).
    destruct (generate_time_windows_loop fuel _ stop ws []); simpl; [|done..].
    by rewrite <- app_assoc.
Qed.

(** One iteration of the loop. *)
Lemma loop_step fuel cur stop ws :
  cur < stop ->
  generate_time_windows_loop (S fuel) cur stop ws [] =
  match timedelta_of_seconds ws with
  | None => Raised OverflowError
  | Some td =>
      match datetime_add cur td with
      | None => Raised OverflowError
      | Some sum =>
          outcome_map (fun l => (cur, Z.min sum stop) :: l)
            (generate_time_windows_loop fuel (Z.min sum stop) stop ws [])
      end
  end.
Proof.
  intros Hlt. simpl. apply Z.ltb_lt in Hlt. rewrite Hlt.
  destruct (timedelta_of_seconds ws) as [td|]; [|done].
  destruct (datetime_add cur td) as [sum|]; [|done].
  simpl. apply loop_acc.
Qed.

(** An iteration whose sum is a [datetime]. *)
Lemma loop_step_ok fuel cur stop ws :
  cur < stop ->
  timedelta_of_seconds ws = Some (timedelta ws) ->
  valid_datetime (cur + timedelta ws) ->
  generate_time_windows_loop (S fuel) cur stop ws [] =
  outcome_map (fun l => (cur, Z.min (cur + timedelta ws) stop) :: l)
    (generate_time_windows_loop fuel (Z.min (cur + timedelta ws) stop) stop ws []).
Proof.
  intros Hlt Htd Hv. rewrite loop_step by done.
  by rewrite Htd, datetime_add_valid.
Qed.

(** An iteration whose sum is past [datetime.max]. *)
Lemma loop_step_overflow fuel cur stop ws :
  cur < stop -> 0 < ws -> datetime_max < cur + timedelta ws ->
  generate_time_windows_loop (S fuel) cur stop ws [] = Raised OverflowError.
Proof.
  intros Hlt Hws Hov. rewrite loop_step by done.
  destruct (timedelta_of_seconds ws) as [td|] eqn:E; [|done].
  apply timedelta_of_seconds_Some in E as ->.
  by rewrite datetime_add_overflow.
Qed.

Lemma loop_done fuel cur stop ws :
  stop <= cur -> generate_time_windows_loop fuel cur stop ws [] = Returned [].
Proof.
  intros Hge. apply Z.ltb_ge in Hge. destruct fuel; simpl; by rewrite Hge.
Qed.

Lemma window_count_done cur stop ws :
  0 < ws -> stop <= cur -> window_count cur stop ws = 0.
Proof.
  intros Hws Hge. unfold window_count.
  assert (Hd : 0 < timedelta ws) by (unfold timedelta; lia).
  assert ((stop - cur + timedelta ws - 1) / timedelta ws <= 0); [|lia].
  apply Z.lt_succ_r. apply Z.div_lt_upper_bound; lia.
Qed.

Lemma window_count_one cur stop ws :
  0 < ws -> cur < stop -> stop <= cur + timedelta ws ->
  window_count cur stop ws = 1.
Proof.
  intros Hws Hlt Hle. unfold window_count.
  assert (Hd : 0 < timedelta ws) by (unfold timedelta; lia).
  assert ((stop - cur + timedelta ws - 1) / timedelta ws = 1) as ->; [|done].
  symmetry. apply (Z.div_unique _ _ 1 (stop - cur - 1)); lia.
Qed.

Lemma window_count_more cur stop ws :
  0 < ws -> cur + timedelta ws < stop ->
  window_count cur stop ws = 1 + window_count (cur + timedelta ws) stop ws.
Proof.
  intros Hws Hlt. unfold window_count.
  assert (Hd : 0 < timedelta ws) by (unfold timedelta; lia).
  replace (stop - cur + timedelta ws - 1)
    with ((stop - (cur + timedelta ws) + timedelta ws - 1) + 1 * timedelta ws)
    by lia.
  rewrite Z.div_add by lia.
  assert (0 <= (stop - (cur + timedelta ws) + timedelta ws - 1) / timedelta ws)
    by (apply Z.div_pos; lia).
  lia.
Qed.

Lemma window_count_pos cur stop ws :
  0 < ws -> cur < stop -> 1 <= window_count cur stop ws.
Proof.
  intros Hws Hlt.
  destruct (Z_lt_le_dec (cur + timedelta ws) stop).
  - rewrite window_count_more by done. unfold window_count. lia.
  - rewrite window_count_one by done. lia.
Qed.

(** In range, [stop - cur] iterations are enough and the result is a chain of
    full windows, the last one clipped at [stop]. *)
Lemma loop_enough fuel : forall cur stop ws,
  0 < ws -> datetime_min <= cur -> stop - cur <= Z.of_nat fuel ->
  windows_in_range cur stop ws ->
  exists l, generate_time_windows_loop fuel cur stop ws [] = Returned l
            /\ chain (timedelta ws) cur l stop
            /\ Z.of_nat (length l) = window_count cur stop ws
            /\ forall (i : nat) w, l !! i = Some w ->
                 w.1 = cur + Z.of_nat i * timedelta ws
                 /\ w.2 = Z.min (cur + (Z.of_nat i + 1) * timedelta ws) stop.
Proof.
  induction fuel as [|fuel IH]; intros cur stop ws Hws Hmin Hfuel Hin.
  - exists []. rewrite window_count_done by lia.
    split; [apply loop_done; lia|]. split; [simpl; lia|]. done.
  - assert (Hd : 0 < timedelta ws) by (unfold timedelta; lia).
    destruct (Z_lt_le_dec cur stop) as [Hlt|Hge].
    2:{ exists []. rewrite window_count_done by lia.
        split; [by apply loop_done|]. split; [simpl; lia|]. done. }
    pose proof (window_count_pos cur stop ws Hws Hlt) as Hn.
    unfold windows_in_range in Hin.
    assert (Hsum : valid_datetime (cur + timedelta ws))
      by (unfold valid_datetime; nia).
    assert (Htd : timedelta_of_seconds ws = Some (timedelta ws)).
    { apply timedelta_of_seconds_small; [lia|]. unfold valid_datetime in Hsum. lia. }
    rewrite loop_step_ok by done.
    set (e := Z.min (cur + timedelta ws) stop).
    destruct (Z_lt_le_dec (cur + timedelta ws) stop) as [Hmore|Hlast].
    + assert (He : e = cur + timedelta ws) by (unfold e; lia).
      rewrite window_count_more in Hin |- * by done.
      destruct (IH e stop ws Hws) as (l & Hl & Hc & Hlen & Hidx);
        [lia | lia | unfold windows_in_range; rewrite He; lia |].
      exists ((cur, e) :: l). rewrite Hl. split; [done|].
      split; [simpl; repeat split; try done; lia|].
      split; [rewrite length_cons, Nat2Z.inj_succ, Hlen, He; lia|].
      intros [|i] w Hi; simpl in Hi.
      * injection Hi as <-. simpl. split; [lia|]. rewrite He. lia.
      * destruct (Hidx i w Hi) as (H1 & H2). rewrite H1, H2, He.
        split; [lia|]. f_equal. lia.
    + assert (He : e = stop) by (unfold e; lia).
      rewrite window_count_one by done.
      exists [(cur, e)]. rewrite He, loop_done by lia.
      split; [done|]. split; [simpl; repeat split; lia|].
      split; [done|].
      intros [|i] w Hi; simpl in Hi; [|done].
      injection Hi as <-. simpl. split; lia.
Qed.

(** Out of range, the loop raises within [stop - cur] iterations. *)
Lemma loop_overflow fuel : forall cur stop ws,
  0 < ws -> datetime_min <= cur -> cur < stop ->
  stop - cur <= Z.of_nat fuel ->
  ~ windows_in_range cur stop ws ->
  generate_time_windows_loop fuel cur stop ws [] = Raised OverflowError.
Proof.
  induction fuel as [|fuel IH]; intros cur stop ws Hws Hmin Hlt Hfuel Hout;
    [lia|].
  assert (Hd : 0 < timedelta ws) by (unfold timedelta; lia).
  destruct (Z_lt_le_dec datetime_max (cur + timedelta ws)) as [Hov|Hok].
  { by apply loop_step_overflow. }
  unfold windows_in_range in Hout.
  destruct (Z_lt_le_dec (cur + timedelta ws) stop) as [Hmore|Hlast].
  2:{ rewrite window_count_one in Hout by done. lia. }
  rewrite loop_step by done.
  destruct (timedelta_of_seconds ws) as [td|] eqn:E; [|done].
  apply timedelta_of_seconds_Some in E as ->.
  rewrite datetime_add_valid by (unfold valid_datetime; lia).
  rewrite Z.min_l by lia.
  rewrite IH; [done | done | lia | done | lia |].
  unfold windows_in_range. rewrite window_count_more in Hout by done. lia.
Qed.

(** More fuel does not change an outcome that was reached. *)
Lemma loop_mono fuel : forall fuel' cur stop ws,
  generate_time_windows_loop fuel cur stop ws [] <> OutOfFuel ->
  (fuel <= fuel')%nat ->
  generate_time_windows_loop fuel' cur stop ws []
  = generate_time_windows_loop fuel cur stop ws [].
Proof.
  induction fuel as [|fuel IH]; intros fuel' cur stop ws Hl Hle.
  - simpl in Hl. destruct (cur <? stop) eqn:E; [done|].
    rewrite !loop_done; [done | by apply Z.ltb_ge..].
  - destruct (Z_lt_le_dec cur stop) as [Hlt|Hge].
    + destruct fuel' as [|fuel']; [lia|].
      rewrite loop_step in Hl by done. rewrite !loop_step by done.
      destruct (timedelta_of_seconds ws) as [td|]; [|done].
      destruct (datetime_add cur td) as [sum|]; [|done].
      rewrite (IH fuel'); [done | | lia].
      intros E. by rewrite E in Hl.
    + by rewrite !loop_done.
Qed.

(** With a window of zero seconds the loop stays where it is. *)
Lemma loop_stuck fuel : forall cur stop,
  valid_datetime cur -> cur < stop ->
  generate_time_windows_loop fuel cur stop 0 [] = OutOfFuel.
Proof.
  induction fuel as [|fuel IH]; intros cur stop Hv Hlt.
  - simpl. apply Z.ltb_lt in Hlt. by rewrite Hlt.
  - rewrite loop_step_ok; [| done | done | by rewrite Z.add_0_r].
    replace (Z.min (cur + timedelta 0) stop) with cur by (unfold timedelta; lia).
    by rewrite IH.
Qed.

Lemma chain_lookup d : forall l a b (i : nat) w,
  chain d a l b -> l !! i = Some w ->
  a <= w.1 /\ w.1 < w.2 /\ w.2 - w.1 <= d /\ w.2 <= b
  /\ chain d w.2 (drop (S i) l) b.
Proof.
  induction l as [|w0 l IH]; intros a b i w Hc Hi; [done|].
  destruct Hc as (H1 & H2 & H3 & H4 & Hc).
  destruct i as [|i]; simpl in Hi.
  - simplify_eq. simpl. rewrite ?drop_0. repeat split; try lia. done.
  - destruct (IH _ _ _ _ Hc Hi) as (? & ? & ? & ? & ?).
    repeat split; try lia. done.
Qed.

Lemma chain_contiguous d l a b : chain d a l b -> contiguous l.
Proof.
  intros Hc i w w' Hi Hi'.
  destruct (chain_lookup _ _ _ _ _ _ Hc Hi) as (_ & _ & _ & _ & Hd).
  rewrite <- (Nat.add_0_r (S i)), <- lookup_drop in Hi'.
  destruct (drop (S i) l) as [|w0 l0]; [done|].
  simpl in Hi'. simplify_eq. destruct Hd as [Hd _]. done.
Qed.

Lemma chain_non_overlapping d l a b : chain d a l b -> non_overlapping l.
Proof.
  intros Hc i j w w' Hij Hi Hj.
  destruct (chain_lookup _ _ _ _ _ _ Hc Hi) as (_ & _ & _ & _ & Hd).
  replace j with (S i + (j - S i))%nat in Hj by lia.
  rewrite <- lookup_drop in Hj.
  destruct (chain_lookup _ _ _ _ _ _ Hd Hj) as (? & _). done.
Qed.

Lemma chain_covers d : forall l a b, chain d a l b -> a <= b -> covers a b l.
Proof.
  induction l as [|w l IH]; intros a b Hc Hab t; simpl in Hc.
  - split; [lia|]. intros (w & Hw & _). by apply elem_of_nil in Hw.
  - destruct Hc as (H1 & H2 & H3 & H4 & Hc).
    specialize (IH _ _ Hc H4 t). split.
    + intros Ht. destruct (Z_lt_le_dec t w.2) as [Hlt|Hge].
      * exists w. split; [apply elem_of_cons; by left | lia].
      * destruct IH as [IH _]. destruct IH as (w' & Hw' & Ht'); [lia|].
        exists w'. split; [apply elem_of_cons; by right | done].
    + intros (w' & Hw' & Ht'). apply elem_of_cons in Hw' as [->|Hw'].
      * lia.
      * destruct IH as [_ IH]. assert (w.2 <= t < b) by (apply IH; eauto). lia.
Qed.

Lemma chain_head d l a b :
  chain d a l b -> a < b -> exists w, head l = Some w /\ w.1 = a.
Proof.
  destruct l as [|w l]; simpl; [lia|]. intros (H1 & _) _. eauto.
Qed.

Lemma chain_last d : forall l a b,
  chain d a l b -> a < b -> exists w, last l = Some w /\ w.2 = b.
Proof.
  induction l as [|w l IH]; intros a b Hc Hab; simpl in Hc; [lia|].
  destruct Hc as (H1 & H2 & H3 & H4 & Hc).
  destruct l as [|w' l].
  - simpl in Hc. exists w. split; [done | lia].
  - destruct (Z_lt_le_dec w.2 b) as [Hlt|Hge].
    + destruct (IH _ _ Hc Hlt) as (w1 & Hw1 & Hb). exists w1. by split.
    + simpl in Hc. lia.
Qed.

(** What [generate_time_windows] does on a range, once its loop has enough
    fuel. *)
Lemma generate_time_windows_returns start stop ws :
  valid_datetime start -> 0 < ws -> windows_in_range start stop ws ->
  exists windows,
    (forall fuel', (Z.to_nat (stop - start) <= fuel')%nat ->
       generate_time_windows fuel' start stop ws = Returned windows)
    /\ chain (timedelta ws) start windows stop
    /\ Z.of_nat (length windows) = window_count start stop ws
    /\ forall (i : nat) w, windows !! i = Some w ->
         w.1 = start + Z.of_nat i * timedelta ws
         /\ w.2 = Z.min (start + (Z.of_nat i + 1) * timedelta ws) stop.
Proof.
  intros [Hmin _] Hws Hin.
  destruct (loop_enough (Z.to_nat (stop - start)) start stop ws Hws Hmin)
    as (l & Hl & Hrest); [lia | done |].
  exists l. split; [|done].
  intros fuel' Hle. unfold generate_time_windows.
  rewrite (loop_mono (Z.to_nat (stop - start)) fuel');
    [done | by rewrite Hl | done].
Qed.

Lemma generate_time_windows_overflows start stop ws :
  valid_datetime start -> start < stop -> 0 < ws ->
  ~ windows_in_range start stop ws ->
  forall fuel', (Z.to_nat (stop - start) <= fuel')%nat ->
    generate_time_windows fuel' start stop ws = Raised OverflowError.
Proof.
  intros [Hmin _] Hlt Hws Hout fuel' Hle. unfold generate_time_windows.
  pose proof (loop_overflow (Z.to_nat (stop - start)) start stop ws
                Hws Hmin Hlt ltac:(lia) Hout) as H.
  rewrite (loop_mono (Z.to_nat (stop - start)) fuel');
    [done | by rewrite H | done].
Qed.

Lemma windows_in_range_dec start stop ws :
  windows_in_range start stop ws \/ ~ windows_in_range start stop ws.
Proof. unfold windows_in_range. lia. Qed.

Lemma windows_in_range_empty start stop ws :
  valid_datetime start -> 0 < ws -> stop <= start ->
  windows_in_range start stop ws.
Proof.
  intros [_ Hmax] Hws Hge. unfold windows_in_range.
  rewrite window_count_done by done. lia.
Qed.

(** The sums stay in range as soon as one window past [stop] does. *)
Lemma windows_in_range_sufficient start stop ws :
  valid_datetime start -> 0 < ws ->
  stop + timedelta ws <= datetime_max ->
  windows_in_range start stop ws.
Proof.
  intros [_ Hmax] Hws Hle. unfold windows_in_range, window_count.
  assert (Hd : 0 < timedelta ws) by (unfold timedelta; lia).
  pose proof (Z.mul_div_le (stop - start + timedelta ws - 1) (timedelta ws) Hd).
  destruct (Z.max_spec 0 ((stop - start + timedelta ws - 1) / timedelta ws))
    as [[_ ->]|[_ ->]]; lia.
Qed.

(** C2 (counterexample). One day cut into windows of 40000 years (in
    seconds, what [--time-window 40000y] gives): the first sum
    [current + timedelta(seconds=window_size_seconds)] is past
    [datetime.max], so no list is returned. *)
Lemma generate_time_windows_raises_on_wide_window :
  valid_datetime 1704067200000000
  /\ valid_datetime 1704153600000000
  /\ 1704067200000000 < 1704153600000000
  /\ 0 < 1261440000000
  /\ (forall fuel,
        generate_time_windows (S fuel) 1704067200000000 1704153600000000
          1261440000000 = Raised OverflowError)
  /\ (forall fuel windows,
        generate_time_windows fuel 1704067200000000 1704153600000000
          1261440000000 <> Returned windows).
Proof.
  assert (Hr : forall fuel,
             generate_time_windows (S fuel) 1704067200000000 1704153600000000
               1261440000000 = Raised OverflowError).
  { intros fuel. unfold generate_time_windows.
    apply loop_step_overflow; reflexivity. }
  split; [vm_compute; split; intros; discriminate|].
  split; [vm_compute; split; intros; discriminate|].
  split; [reflexivity|]. split; [reflexivity|]. split; [exact Hr|].
  intros [|fuel] windows; [vm_compute; discriminate|]. by rewrite Hr.
Qed.

(** C2 (amended). For [start < stop] and a positive window size whose sums
    [current + timedelta(seconds=window_size_seconds)] all stay within
    [datetime.max], [generate_time_windows] returns an ordered sequence of
    half-open windows that are contiguous, non-overlapping, cover exactly
    [[start, stop)], start at [start], end at [stop], and are each non-empty
    and at most [window_size_seconds] long; the sums stay in range whenever
    one window past [stop] does; when a sum leaves the range the call raises
    [OverflowError] instead; for [start >= stop] it returns the empty
    sequence. *)
Theorem generate_time_windows_partition :
  (forall start stop ws,
     valid_datetime start -> start < stop -> 0 < ws ->
     windows_in_range start stop ws ->
     exists fuel windows,
       (forall fuel', (fuel <= fuel')%nat ->
          generate_time_windows fuel' start stop ws = Returned windows)
       /\ contiguous windows
       /\ non_overlapping windows
       /\ covers start stop windows
       /\ (exists w, head windows = Some w /\ w.1 = start)
       /\ (exists w, last windows = Some w /\ w.2 = stop)
       /\ (forall w, w ∈ windows -> w.1 < w.2 /\ w.2 - w.1 <= timedelta ws))
  /\ (forall start stop ws,
        valid_datetime start -> 0 < ws ->
        stop + timedelta ws <= datetime_max ->
        windows_in_range start stop ws)
  /\ (forall start stop ws,
        valid_datetime start -> start < stop -> 0 < ws ->
        ~ windows_in_range start stop ws ->
        exists fuel,
          forall fuel', (fuel <= fuel')%nat ->
            generate_time_windows fuel' start stop ws = Raised OverflowError)
  /\ (forall fuel start stop ws,
        stop <= start -> generate_time_windows fuel start stop ws = Returned []).
Proof.
  split; [|split; [apply windows_in_range_sufficient|split]].
  - intros start stop ws Hv Hlt Hws Hin.
    destruct (generate_time_windows_returns start stop ws Hv Hws Hin)
      as (l & Hl & Hc & _).
    exists (Z.to_nat (stop - start)), l.
    split; [done|]. split; [|split; [|split; [|split; [|split]]]].
    + by eapply chain_contiguous.
    + by eapply chain_non_overlapping.
    + eapply chain_covers; [done | lia].
    + by eapply chain_head.
    + by eapply chain_last.
    + intros w Hw. apply list_elem_of_lookup in Hw as [i Hi].
      destruct (chain_lookup _ _ _ _ _ _ Hc Hi) as (? & ? & ? & ? & ?). lia.
  - intros start stop ws Hv Hlt Hws Hout.
    exists (Z.to_nat (stop - start)).
    by apply generate_time_windows_overflows.
  - intros fuel start stop ws Hge. by apply loop_done.
Qed.

Lemma generate_time_windows_partition_witness :
  (exists fuel windows,
     (forall fuel', (fuel <= fuel')%nat ->
        generate_time_windows fuel' 0 (timedelta 25) 10 = Returned windows)
     /\ contiguous windows
     /\ non_overlapping windows
     /\ covers 0 (timedelta 25) windows
     /\ (exists w, head windows = Some w /\ w.1 = 0)
     /\ (exists w, last windows = Some w /\ w.2 = timedelta 25)
     /\ (forall w, w ∈ windows -> w.1 < w.2 /\ w.2 - w.1 <= timedelta 10))
  /\ windows_in_range 0 (timedelta 25) 10
  /\ (exists fuel,
        forall fuel', (fuel <= fuel')%nat ->
          generate_time_windows fuel' 253402300700000000 253402300799999999 60
          = Raised OverflowError)
  /\ generate_time_windows 0 5 5 10 = Returned [].
Proof.
  split; [|split; [|split]].
  - apply (proj1 generate_time_windows_partition 0 (timedelta 25) 10);
      vm_compute; try reflexivity; try (split; intros; discriminate);
      intros; discriminate.
  - apply (proj1 (proj2 generate_time_windows_partition) 0 (timedelta 25) 10);
      vm_compute; try reflexivity; try (split; intros; discriminate);
      intros; discriminate.
  - apply (proj1 (proj2 (proj2 generate_time_windows_partition))
             253402300700000000 253402300799999999 60);
      vm_compute; try reflexivity; try (split; intros; discriminate).
    intros H. by apply H.
  - apply (proj2 (proj2 (proj2 generate_time_windows_partition)) 0%nat 5 5 10).
    vm_compute. intros; discriminate.
Defined.

(** C10 (counterexample). Twelve hours of the last day of year 9999 in
    windows of one day: the window size is positive, yet the first sum is
    past [datetime.max] and the call raises instead of returning a list. *)
Lemma generate_time_windows_raises_near_datetime_max :
  valid_datetime 253402214400000000
  /\ valid_datetime 253402257600000000
  /\ 0 < 86400
  /\ (forall fuel,
        generate_time_windows (S fuel) 253402214400000000 253402257600000000
          86400 = Raised OverflowError)
  /\ (forall fuel windows,
        generate_time_windows fuel 253402214400000000 253402257600000000
          86400 <> Returned windows).
Proof.
  assert (Hr : forall fuel,
             generate_time_windows (S fuel) 253402214400000000
               253402257600000000 86400 = Raised OverflowError).
  { intros fuel. unfold generate_time_windows.
    apply loop_step_overflow; reflexivity. }
  split; [vm_compute; split; intros; discriminate|].
  split; [vm_compute; split; intros; discriminate|].
  split; [reflexivity|]. split; [exact Hr|].
  intros [|fuel] windows; [vm_compute; discriminate|]. by rewrite Hr.
Qed.

(** C10 (amended). With a strictly positive window size the loop of
    [generate_time_windows] halts for every pair of timestamps: some amount
    of fuel suffices and any larger amount gives the same outcome, which is
    a list when every sum [current + timedelta(seconds=window_size_seconds)]
    stays within [datetime.max] and [OverflowError] otherwise.  An iteration
    either raises at its sum or leaves [stop - current] strictly smaller and
    non-negative, and so it is for every window of a returned list.  With a
    window size of zero and [start < stop] no amount of fuel suffices. *)
Theorem generate_time_windows_terminates :
  (forall start stop ws,
     valid_datetime start -> 0 < ws ->
     exists fuel,
       (exists windows,
          forall fuel', (fuel <= fuel')%nat ->
            generate_time_windows fuel' start stop ws = Returned windows)
       \/ (forall fuel', (fuel <= fuel')%nat ->
             generate_time_windows fuel' start stop ws = Raised OverflowError))
  /\ (forall start stop ws,
        valid_datetime start -> 0 < ws ->
        windows_in_range start stop ws ->
        exists fuel windows,
          (forall fuel', (fuel <= fuel')%nat ->
             generate_time_windows fuel' start stop ws = Returned windows)
          /\ (forall w, w ∈ windows ->
                0 <= stop - w.2 /\ stop - w.2 < stop - w.1))
  /\ (forall start stop ws,
        valid_datetime start -> start < stop -> 0 < ws ->
        ~ windows_in_range start stop ws ->
        exists fuel,
          forall fuel', (fuel <= fuel')%nat ->
            generate_time_windows fuel' start stop ws = Raised OverflowError)
  /\ (forall fuel current stop ws windows,
        0 < ws -> current < stop ->
        (generate_time_windows_loop (S fuel) current stop ws windows
         = Raised OverflowError
         /\ (timedelta_of_seconds ws = None
             \/ datetime_add current (timedelta ws) = None))
        \/ (exists window_end,
              window_end = Z.min (current + timedelta ws) stop
              /\ 0 <= stop - window_end
              /\ stop - window_end < stop - current
              /\ generate_time_windows_loop (S fuel) current stop ws windows
                 = generate_time_windows_loop fuel window_end stop ws
                     (windows ++ [(current, window_end)])))
  /\ (forall start stop,
        valid_datetime start -> start < stop ->
        forall fuel, generate_time_windows fuel start stop 0 = OutOfFuel).
Proof.
  split; [|split; [|split; [|split]]].
  - intros start stop ws Hv Hws. exists (Z.to_nat (stop - start)).
    destruct (windows_in_range_dec start stop ws) as [Hin|Hout].
    + left. destruct (generate_time_windows_returns start stop ws Hv Hws Hin)
        as (l & Hl & _). by exists l.
    + right. apply generate_time_windows_overflows; try done.
      destruct (Z_lt_le_dec start stop) as [|Hge]; [done|].
      destruct Hout. by apply windows_in_range_empty.
  - intros start stop ws Hv Hws Hin.
    destruct (generate_time_windows_returns start stop ws Hv Hws Hin)
      as (l & Hl & Hc & _).
    exists (Z.to_nat (stop - start)), l. split; [done|].
    intros w Hw. apply list_elem_of_lookup in Hw as [i Hi].
    destruct (chain_lookup _ _ _ _ _ _ Hc Hi) as (? & ? & ? & ? & ?). lia.
  - intros start stop ws Hv Hlt Hws Hout.
    exists (Z.to_nat (stop - start)).
    by apply generate_time_windows_overflows.
  - intros fuel current stop ws windows Hws Hlt.
    simpl. rewrite (proj2 (Z.ltb_lt _ _) Hlt).
    destruct (timedelta_of_seconds ws) as [td|] eqn:Etd; [|left; auto].
    apply timedelta_of_seconds_Some in Etd as ->.
    destruct (datetime_add current (timedelta ws)) as [sum|] eqn:Eadd;
      [|left; auto].
    apply datetime_add_Some in Eadd as [-> _].
    right. eexists. split; [done|].
    unfold timedelta. split; [lia|]. split; [lia|]. done.
  - intros start stop Hv Hlt fuel. by apply loop_stuck.
Qed.

Lemma generate_time_windows_terminates_witness :
  (exists fuel,
     (exists windows,
        forall fuel', (fuel <= fuel')%nat ->
          generate_time_windows fuel' 0 (timedelta 7200) 3600 = Returned windows)
     \/ (forall fuel', (fuel <= fuel')%nat ->
           generate_time_windows fuel' 0 (timedelta 7200) 3600
           = Raised OverflowError))
  /\ (exists fuel windows,
        (forall fuel', (fuel <= fuel')%nat ->
           generate_time_windows fuel' 0 (timedelta 7200) 3600 = Returned windows)
        /\ (forall w, w ∈ windows ->
              0 <= timedelta 7200 - w.2 /\ timedelta 7200 - w.2 < timedelta 7200 - w.1))
  /\ (exists fuel,
        forall fuel', (fuel <= fuel')%nat ->
          generate_time_windows fuel' 253402300700000000 253402300799999999 60
          = Raised OverflowError)
  /\ ((generate_time_windows_loop 1 0 (timedelta 7200) 3600 []
       = Raised OverflowError
       /\ (timedelta_of_seconds 3600 = None
           \/ datetime_add 0 (timedelta 3600) = None))
      \/ (exists window_end,
            window_end = Z.min (0 + timedelta 3600) (timedelta 7200)
            /\ 0 <= timedelta 7200 - window_end
            /\ timedelta 7200 - window_end < timedelta 7200 - 0
            /\ generate_time_windows_loop 1 0 (timedelta 7200) 3600 []
               = generate_time_windows_loop 0 window_end (timedelta 7200) 3600
                   ([] ++ [(0, window_end)])))
  /\ (forall fuel, generate_time_windows fuel 0 1 0 = OutOfFuel).
Proof.
  split; [|split; [|split; [|split]]].
  - apply (proj1 generate_time_windows_terminates 0 (timedelta 7200) 3600);
      vm_compute; try reflexivity; split; intros; discriminate.
  - apply (proj1 (proj2 generate_time_windows_terminates)
             0 (timedelta 7200) 3600);
      vm_compute; try reflexivity; try (split; intros; discriminate);
      intros; discriminate.
  - apply (proj1 (proj2 (proj2 generate_time_windows_terminates))
             253402300700000000 253402300799999999 60);
      vm_compute; try reflexivity; try (split; intros; discriminate).
    intros H. by apply H.
  - apply (proj1 (proj2 (proj2 (proj2 generate_time_windows_terminates)))
             0%nat 0 (timedelta 7200) 3600 []); reflexivity.
  - apply (proj2 (proj2 (proj2 (proj2 generate_time_windows_terminates))) 0 1);
      vm_compute; try reflexivity; split; intros; discriminate.
Defined.

(** * Blackout window *)

Lemma minute_range now : 0 <= minute now < 60.
Proof. unfold minute. apply Z.mod_pos_bound. lia. Qed.

(** C9. With the default parameters [is_in_blocked_time_window] is true
    exactly at the wall-clock minutes 59, 0, 1 and 2, and false at every
    other minute; for arbitrary parameters it is true exactly when
    [minute >= 60 - minutes_before] or [minute <= minutes_after]. *)
Theorem is_in_blocked_time_window_minutes :
  forall now,
    (V1.is_in_blocked_time_window now V1.default_minutes_before
       V1.default_minutes_after = true
     <-> minute now = 59 \/ minute now = 0 \/ minute now = 1 \/ minute now = 2)
    /\ (V1.is_in_blocked_time_window now V1.default_minutes_before
          V1.default_minutes_after = false
        <-> 3 <= minute now <= 58)
    /\ (forall minutes_before minutes_after,
          V1.is_in_blocked_time_window now minutes_before minutes_after = true
          <-> minute now >= 60 - minutes_before \/ minute now <= minutes_after).
Proof.
  intros now. pose proof (minute_range now) as Hm.
  unfold V1.is_in_blocked_time_window, V1.default_minutes_before,
    V1.default_minutes_after.
  split; [|split].
  - destruct (60 - 1 <=? minute now) eqn:E1, (minute now <=? 2) eqn:E2; simpl;
      rewrite ?Z.leb_le, ?Z.leb_gt in *; split; (lia || done).
  - destruct (60 - 1 <=? minute now) eqn:E1, (minute now <=? 2) eqn:E2; simpl;
      rewrite ?Z.leb_le, ?Z.leb_gt in *; split; (lia || done).
  - intros mb ma.
    destruct (60 - mb <=? minute now) eqn:E1, (minute now <=? ma) eqn:E2; simpl;
      rewrite ?Z.leb_le, ?Z.leb_gt in *; split; (lia || done).
Qed.

(** * User identity *)

(** Both dialects derive the same display name from every pod name. *)
Lemma extract_user_info_names_agree pod :
  name (V1.extract_user_info_from_pod_name pod)
  = name (V2.extract_user_info_from_pod_name pod).
Proof.
  unfold V1.extract_user_info_from_pod_name, V2.extract_user_info_from_pod_name.
  destruct pod as [|a pod]; [reflexivity|].
  change (String a pod =? "")%string with false.
  destruct (Py.startswith "jupyter-" (String a pod)); reflexivity.
Qed.

(** C8. The two dialects do not derive the same identity: for the pod
    ["jupyter-alice-x7k2"] the v1 importer builds the e-mail
    ["alice@illinois.edu"] and the v2 importer ["alice@ilinois.edu"]; only
    the display names coincide. *)
Theorem extract_user_info_emails_differ :
  email (V1.extract_user_info_from_pod_name "jupyter-alice-x7k2")
    = "alice@illinois.edu"
  /\ email (V2.extract_user_info_from_pod_name "jupyter-alice-x7k2")
    = "alice@ilinois.edu"
  /\ email (V1.extract_user_info_from_pod_name "jupyter-alice-x7k2")
     <> email (V2.extract_user_info_from_pod_name "jupyter-alice-x7k2")
  /\ name (V1.extract_user_info_from_pod_name "jupyter-alice-x7k2") = "Alice"
  /\ name (V2.extract_user_info_from_pod_name "jupyter-alice-x7k2") = "Alice".
Proof. repeat split; try reflexivity. discriminate. Qed.

(** * The v1 normalizer *)

Lemma with_prefix_from_snoc {A} (l : list A) : forall pre x,
  with_prefix_from pre (l ++ [x]) = with_prefix_from pre l ++ [(pre ++ l, x)].
Proof.
  induction l as [|y l IH]; intros pre x; simpl.
  - by rewrite app_nil_r.
  - rewrite IH. by rewrite <- app_assoc.
Qed.

Lemma with_prefix_snoc {A} (l : list A) x :
  with_prefix (l ++ [x]) = with_prefix l ++ [(l, x)].
Proof. unfold with_prefix. by rewrite with_prefix_from_snoc. Qed.

Lemma with_prefix_from_snd {A} (l : list A) : forall pre,
  snd <$> with_prefix_from pre l = l.
Proof. induction l as [|y l IH]; intros pre; simpl; [done | by rewrite IH]. Qed.

Section V1Normalizer.

Variable fromisoformat : string -> option Z.

Import V1Spec.

Lemma later_duplicates_snoc l r :
  later_duplicates (l ++ [r])
  = later_duplicates l ++ (if is_duplicate l r then [r] else []).
Proof.
  unfold later_duplicates. rewrite with_prefix_snoc, filter_app, fmap_app.
  f_equal. rewrite filter_cons, filter_nil. simpl.
  destruct (is_duplicate l r); reflexivity.
Qed.

Lemma first_occurrences_snoc l r :
  first_occurrences (l ++ [r])
  = first_occurrences l ++ (if is_first l r then [r] else []).
Proof.
  unfold first_occurrences. rewrite with_prefix_snoc, filter_app, fmap_app.
  f_equal. rewrite filter_cons, filter_nil. simpl.
  destruct (is_first l r); reflexivity.
Qed.

Lemma without_timestamp_snoc l r :
  without_timestamp (l ++ [r])
  = without_timestamp l ++ (if Py.truthy (V1.time r) then [] else [r]).
Proof.
  unfold without_timestamp. rewrite filter_app. f_equal.
  rewrite filter_cons, filter_nil.
  destruct (Py.truthy (V1.time r)); reflexivity.
Qed.

Lemma seen_key_elem (l : list V1.raw_sample) k :
  k ∈ (list_to_set (omap dedup_key l) : gset (string * string))
  <-> Some k ∈ dedup_key <$> l.
Proof.
  rewrite elem_of_list_to_set, list_elem_of_omap, list_elem_of_fmap.
  split; [intros (x & Hx & Hk) | intros (x & Hk & Hx)]; exists x; done.
Qed.

Lemma first_occurrences_subset l r : r ∈ first_occurrences l -> r ∈ l.
Proof.
  unfold first_occurrences. intros H.
  apply list_elem_of_fmap in H as ([pre x] & -> & H).
  apply list_elem_of_filter in H as [_ H].
  assert (Hx : (pre, x).2 ∈ snd <$> with_prefix l)
    by (apply list_elem_of_fmap; eauto).
  unfold with_prefix in Hx. by rewrite with_prefix_from_snd in Hx.
Qed.

Lemma dedup_key_some r pod ts :
  dedup_key r = Some (pod, ts)
  <-> V1.time r = Some ts /\ V1.pod_name r = Some pod
      /\ Py.truthy (Some ts) = true /\ Py.startswith "jupyter-" pod = true.
Proof.
  unfold dedup_key. split.
  - destruct (V1.time r) as [ts'|]; [|done].
    destruct (V1.pod_name r) as [pod'|]; [|done].
    destruct (Py.truthy (Some ts')) eqn:E1; [|done].
    destruct (Py.startswith "jupyter-" pod') eqn:E2; [|done].
    simpl. intros [= <- <-]. done.
  - intros (-> & -> & -> & ->). done.
Qed.

Lemma startswith_jupyter_or_default o pod :
  Py.or_default o "unknown" = pod -> Py.startswith "jupyter-" pod = true ->
  o = Some pod.
Proof.
  destruct o as [[|a s]|]; simpl; intros <-; try done.
Qed.

Lemma dedup_key_no_time r : Py.truthy (V1.time r) = false -> dedup_key r = None.
Proof.
  unfold dedup_key. destruct (V1.time r) as [ts|]; [|done].
  intros ->. by destruct (V1.pod_name r).
Qed.

Lemma dedup_key_no_prefix r :
  Py.startswith "jupyter-" (Py.or_default (V1.pod_name r) "unknown") = false ->
  dedup_key r = None.
Proof.
  unfold dedup_key. destruct (V1.time r) as [ts|]; [|done].
  destruct (V1.pod_name r) as [[|a pod]|]; try done.
  - by rewrite andb_false_r.
  - simpl Py.or_default. intros ->. by rewrite andb_false_r.
Qed.

Lemma dedup_key_target r :
  Py.truthy (V1.time r) = true ->
  Py.startswith "jupyter-" (Py.or_default (V1.pod_name r) "unknown") = true ->
  dedup_key r
  = Some (Py.or_default (V1.pod_name r) "unknown", default "" (V1.time r))
  /\ V1.time r = Some (default "" (V1.time r))
  /\ V1.pod_name r = Some (Py.or_default (V1.pod_name r) "unknown").
Proof.
  unfold dedup_key. destruct (V1.time r) as [ts|]; [|done].
  destruct (V1.pod_name r) as [[|a pod]|]; try done.
  simpl Py.or_default. simpl default. intros -> ->. done.
Qed.

(** A sample without a key leaves the keys, the first occurrences and the
    duplicates as they are. *)
Lemma loop_inv_no_key records done st st' r :
  loop_inv fromisoformat records done st ->
  dedup_key r = None ->
  V1.seen_keys st' = V1.seen_keys st ->
  V1.transformed st' = V1.transformed st ->
  0 <= V1.skipped_no_pod_name st' ->
  0 <= V1.skipped_not_jupyter st' ->
  V1.skipped_no_pod_name st' + V1.skipped_not_jupyter st'
  + (if Py.truthy (V1.time r) then 0 else 1)
  = V1.skipped_no_pod_name st + V1.skipped_not_jupyter st + 1 ->
  loop_inv fromisoformat records (done ++ [r]) st'.
Proof.
  intros (Hk & Hf & H1 & H2 & Hn) Hkey Hs Ht Hp1 Hp2 Hc.
  unfold loop_inv.
  rewrite omap_app, first_occurrences_snoc, later_duplicates_snoc,
    without_timestamp_snoc, Hs, Ht.
  unfold is_first, is_duplicate. rewrite Hkey. simpl omap. rewrite Hkey.
  rewrite !app_nil_r, !length_app.
  repeat split; try done.
  destruct (Py.truthy (V1.time r)); simpl length; lia.
Qed.

(** One iteration of the loop preserves the invariant. *)
Lemma transform_record_inv records done st r st' :
  V1.transform_record fromisoformat records st r = Some st' ->
  loop_inv fromisoformat records done st ->
  loop_inv fromisoformat records (done ++ [r]) st'.
Proof.
  intros Hstep Hinv. unfold V1.transform_record in Hstep.
  destruct (Py.truthy (V1.time r)) eqn:Etime; simpl in Hstep.
  2:{ simplify_eq. pose proof Hinv as (_ & _ & ? & ? & _).
      eapply loop_inv_no_key; eauto using dedup_key_no_time.
      rewrite Etime. lia. }
  destruct (V1.parse_timestamp fromisoformat (default "" (V1.time r)))
    as [t|] eqn:Eparse; simpl in Hstep; [|done].
  set (pod := Py.or_default (V1.pod_name r) "unknown") in *.
  destruct (String.eqb pod "unknown") eqn:Eunk.
  { simplify_eq. pose proof Hinv as (_ & _ & ? & ? & _).
    apply String.eqb_eq in Eunk.
    eapply loop_inv_no_key; eauto; simpl; try lia.
    - apply dedup_key_no_prefix. fold pod. by rewrite Eunk.
    - rewrite Etime. lia. }
  destruct (Py.startswith "jupyter-" pod) eqn:Epre; simpl in Hstep.
  2:{ simplify_eq. pose proof Hinv as (_ & _ & ? & ? & _).
      eapply loop_inv_no_key; eauto using dedup_key_no_prefix; simpl; try lia.
      rewrite Etime. lia. }
  destruct (dedup_key_target r Etime Epre) as (Hkey & Htime & Hpod).
  fold pod in Hkey, Hpod.
  destruct Hinv as (Hk & Hf & H1 & H2 & Hn).
  case_decide as Hseen.
  - simplify_eq. unfold loop_inv.
    rewrite omap_app, first_occurrences_snoc, later_duplicates_snoc,
      without_timestamp_snoc.
    unfold is_first, is_duplicate. rewrite Hkey, Etime. simpl omap.
    rewrite Hkey. rewrite Hk, seen_key_elem in Hseen.
    rewrite (bool_decide_eq_true_2 (_ ∈ _)) by done.
    rewrite (bool_decide_eq_false_2 (_ ∉ _)) by (intros Hn'; by apply Hn').
    rewrite !app_nil_r, !length_app. simpl length.
    repeat split; try done.
    + rewrite Hk. apply set_eq. intros k.
      rewrite list_to_set_app, elem_of_union, !seen_key_elem.
      rewrite elem_of_list_to_set, list_elem_of_singleton.
      split; [auto | intros [?| ->]; done].
    + lia.
  - destruct (V1.estimate_pod_age fromisoformat (default "" (V1.time r)) pod
                records) as [age|] eqn:Eage; simpl in Hstep; [|done].
    simplify_eq. unfold loop_inv. simpl.
    rewrite omap_app, first_occurrences_snoc, later_duplicates_snoc,
      without_timestamp_snoc.
    unfold is_first, is_duplicate. rewrite Hkey, Etime. simpl omap.
    rewrite Hkey. rewrite Hk, seen_key_elem in Hseen.
    rewrite (bool_decide_eq_true_2 (_ ∉ _)) by done.
    rewrite (bool_decide_eq_false_2 (_ ∈ _)) by done.
    rewrite !app_nil_r, !length_app. simpl length.
    repeat split; try done.
    + rewrite Hk. apply set_eq. intros k.
      rewrite list_to_set_app, !elem_of_union, !seen_key_elem.
      rewrite elem_of_list_to_set, list_elem_of_singleton, elem_of_singleton.
      done.
    + apply Forall2_app; [done|]. constructor; [|constructor].
      exists (default "" (V1.time r)). simpl. repeat split; try done.
    + lia.
Qed.

Lemma transform_loop_inv records : forall todo done st st',
  V1.transform_loop fromisoformat records st todo = Some st' ->
  loop_inv fromisoformat records done st ->
  loop_inv fromisoformat records (done ++ todo) st'.
Proof.
  induction todo as [|r todo IH]; intros done st st' Hloop Hinv; simpl in Hloop.
  - simplify_eq. by rewrite app_nil_r.
  - destruct (V1.transform_record fromisoformat records st r) as [st1|] eqn:E;
      simpl in Hloop; [|done].
    change (r :: todo) with ([r] ++ todo). rewrite app_assoc.
    eapply IH; [done|]. by eapply transform_record_inv.
Qed.

Lemma loop_inv_init records : loop_inv fromisoformat records [] V1.init_state.
Proof. unfold loop_inv. simpl. repeat split; done. Qed.

(** What [transform_records] returns, in terms of the batch. *)
Lemma transform_records_inv records out st :
  V1.transform_records fromisoformat records = Some (out, st) ->
  Forall2 (emitted_for fromisoformat records) (first_occurrences records) out
  /\ V1.s_transformed st = Z.of_nat (length out)
  /\ 0 <= V1.s_skipped_no_pod_name st
  /\ 0 <= V1.s_skipped_not_jupyter st
  /\ V1.s_duplicates_in_batch st
     = Z.of_nat (length (later_duplicates records))
       + Z.of_nat (length (without_timestamp records))
  /\ V1.s_transformed st + V1.s_skipped_no_pod_name st
     + V1.s_skipped_not_jupyter st + V1.s_duplicates_in_batch st
     = Z.of_nat (length records).
Proof.
  unfold V1.transform_records. intros H.
  destruct (V1.transform_loop fromisoformat records V1.init_state records)
    as [s|] eqn:E; simpl in H; [|done].
  simplify_eq. simpl.
  pose proof (transform_loop_inv _ _ _ _ _ E (loop_inv_init records))
    as (_ & Hf & H1 & H2 & Hn).
  simpl in *. repeat split; try done; lia.
Qed.

(** [min] is a lower bound and is attained. *)
Lemma min_list_spec l : forall x,
  (V1.min_list x l = x \/ V1.min_list x l ∈ l)
  /\ V1.min_list x l <= x
  /\ Forall (fun y => V1.min_list x l <= y) l.
Proof.
  unfold V1.min_list.
  induction l as [|y l IH]; intros x; simpl.
  - repeat split; [by left | lia | constructor].
  - destruct (IH (Z.min x y)) as (Hin & Hle & Hall). repeat split.
    + destruct Hin as [Heq|Hin].
      * rewrite Heq. destruct (Z.min_spec x y) as [[_ ->]|[_ ->]];
          [by left | right; apply elem_of_cons; by left].
      * right. apply elem_of_cons. by right.
    + lia.
    + constructor; [lia | done].
Qed.

Lemma estimate_pod_age_earliest ts t pod records a r :
  V1.estimate_pod_age fromisoformat ts pod records = Some a ->
  V1.parse_timestamp fromisoformat ts = Some t ->
  r ∈ records -> V1.pod_name r = Some pod ->
  exists e,
    earliest_time V1.pod_name (V1.record_time fromisoformat) records pod e
    /\ a = total_seconds_int (t - e).
Proof.
  unfold V1.estimate_pod_age. intros Hage Hparse Hr Hpod.
  rewrite Hparse in Hage. simpl in Hage.
  assert (Hmem : forall x, x ∈ filter (fun r => V1.pod_name r = Some pod) records
                           <-> x ∈ records /\ V1.pod_name x = Some pod).
  { intros x. rewrite list_elem_of_filter. tauto. }
  destruct (filter (fun r => V1.pod_name r = Some pod) records)
    as [|r0 rest] eqn:Efilter.
  { exfalso. eapply not_elem_of_nil. apply Hmem. eauto. }
  destruct (V1.record_time fromisoformat r0) as [t0|] eqn:E0;
    simpl in Hage; [|done].
  destruct (mapM (V1.record_time fromisoformat) rest) as [tl|] eqn:Etl;
    simpl in Hage; [|done].
  simplify_eq. apply mapM_Some in Etl.
  destruct (min_list_spec tl t0) as (Hin & Hle & Hall).
  exists (V1.min_list t0 tl). split; [|done]. split.
  - destruct Hin as [Heq|Hin].
    + exists r0. rewrite Heq. split; [|split; [|done]].
      * apply Hmem. apply elem_of_cons. by left.
      * apply Hmem. apply elem_of_cons. by left.
    + apply list_elem_of_lookup in Hin as [i Hi].
      destruct (Forall2_lookup_r _ _ _ _ _ Etl Hi) as (r' & Hr' & Ht').
      assert (Hin' : r' ∈ r0 :: rest)
        by (apply elem_of_cons; right; by eapply list_elem_of_lookup_2).
      apply Hmem in Hin' as [? ?]. exists r'. done.
  - intros x Hx Hxpod.
    assert (Hin' : x ∈ r0 :: rest) by (apply Hmem; done).
    apply elem_of_cons in Hin' as [->|Hin'].
    + exists t0. done.
    + apply list_elem_of_lookup in Hin' as [i Hi].
      destruct (Forall2_lookup_l _ _ _ _ _ Etl Hi) as (t' & Ht' & Hx').
      exists t'. split; [done|].
      rewrite Forall_forall in Hall. apply Hall.
      by eapply list_elem_of_lookup_2.
Qed.

(** With every timestamp of the batch present and well formed, no step of
    [transform_records] raises. *)
Lemma estimate_pod_age_total ts pod records :
  is_Some (V1.parse_timestamp fromisoformat ts) ->
  (forall r, r ∈ records -> is_Some (V1.record_time fromisoformat r)) ->
  is_Some (V1.estimate_pod_age fromisoformat ts pod records).
Proof.
  intros [t Ht] Hall. unfold V1.estimate_pod_age. rewrite Ht. simpl.
  assert (Hsub : forall x, x ∈ filter (fun r => V1.pod_name r = Some pod) records
                           -> x ∈ records).
  { intros x. rewrite list_elem_of_filter. tauto. }
  destruct (filter (fun r => V1.pod_name r = Some pod) records)
    as [|r0 rest]; [done|].
  destruct (Hall r0) as [t0 ->]; [apply Hsub, elem_of_cons; by left|].
  simpl.
  destruct (mapM_is_Some_2 (V1.record_time fromisoformat) rest) as [tl ->];
    [|done].
  apply Forall_forall. intros x Hx. apply Hall, Hsub, elem_of_cons. by right.
Qed.

Lemma transform_record_total records st r :
  (forall r, r ∈ records -> is_Some (V1.record_time fromisoformat r)) ->
  r ∈ records ->
  is_Some (V1.transform_record fromisoformat records st r).
Proof.
  intros Hall Hr. unfold V1.transform_record.
  destruct (Py.truthy (V1.time r)) eqn:Etime; simpl; [|done].
  destruct (Hall r Hr) as [t Ht]. unfold V1.record_time in Ht.
  destruct (V1.time r) as [ts|]; [|done]. simpl in Ht |- *.
  rewrite Ht. simpl.
  destruct (String.eqb _ "unknown"); [done|].
  destruct (Py.startswith "jupyter-" _); simpl; [|done].
  case_decide; [done|].
  destruct (estimate_pod_age_total ts
              (Py.or_default (V1.pod_name r) "unknown") records) as [a ->];
    [by rewrite Ht | done | done].
Qed.

Lemma transform_loop_total records : forall todo st,
  (forall r, r ∈ records -> is_Some (V1.record_time fromisoformat r)) ->
  (forall r, r ∈ todo -> r ∈ records) ->
  is_Some (V1.transform_loop fromisoformat records st todo).
Proof.
  induction todo as [|r todo IH]; intros st Hall Hsub; simpl; [done|].
  destruct (transform_record_total records st r Hall) as [st1 ->].
  { apply Hsub, elem_of_cons. by left. }
  simpl. apply IH; [done|]. intros x Hx. apply Hsub, elem_of_cons. by right.
Qed.

Lemma transform_records_total records :
  (forall r, r ∈ records -> is_Some (V1.record_time fromisoformat r)) ->
  is_Some (V1.transform_records fromisoformat records).
Proof.
  intros Hall. unfold V1.transform_records.
  destruct (transform_loop_total records records V1.init_state Hall) as [st ->];
    [done|]. done.
Qed.

(** Every emitted observation comes from a sample of the batch. *)
Lemma transform_records_emitted records out st o :
  V1.transform_records fromisoformat records = Some (out, st) ->
  o ∈ out ->
  exists r, r ∈ records /\ emitted_for fromisoformat records r o.
Proof.
  intros H Ho. apply transform_records_inv in H as (Hf & _).
  apply list_elem_of_lookup in Ho as [i Hi].
  destruct (Forall2_lookup_r _ _ _ _ _ Hf Hi) as (r & Hr & He).
  exists r. split; [|done].
  apply first_occurrences_subset. by eapply list_elem_of_lookup_2.
Qed.

End V1Normalizer.

(** * The v2 normalizer *)

Lemma first_pass_snoc l r :
  V2.first_pass (l ++ [r]) = V2.note_first_seen (V2.first_pass l) r.
Proof. unfold V2.first_pass. by rewrite foldl_snoc. Qed.

(** The first pass maps every pod of the batch to its earliest timestamp. *)
Lemma first_pass_spec records : forall pod,
  match V2.first_pass records !! pod with
  | Some e =>
      earliest_time (fun r => Some (V2.pod_name r)) (fun r => Some (V2.time r))
        records pod e
  | None => forall r, r ∈ records -> V2.pod_name r <> pod
  end.
Proof.
  induction records as [|r l IH] using rev_ind; intros pod.
  - unfold V2.first_pass. simpl. rewrite lookup_empty.
    intros r Hr. by apply elem_of_nil in Hr.
  - rewrite first_pass_snoc. unfold V2.note_first_seen.
    specialize (IH pod) as IHpod.
    destruct (decide (V2.pod_name r = pod)) as [Heq|Hne].
    + rewrite Heq. destruct (V2.first_pass l !! pod) as [e|] eqn:El.
      * destruct IHpod as ((r1 & Hr1 & Hp1 & Ht1) & Hmin).
        destruct (V2.time r <? e) eqn:Elt.
        -- apply Z.ltb_lt in Elt. rewrite lookup_insert_eq. split.
           ++ exists r. rewrite elem_of_app, list_elem_of_singleton.
              rewrite Heq. auto.
           ++ intros x Hx Hxp. apply elem_of_app in Hx as [Hx|Hx].
              ** destruct (Hmin x Hx Hxp) as (t & Ht & Hle).
                 exists t. split; [done | lia].
              ** apply list_elem_of_singleton in Hx as ->. eexists. split; [done | lia].
        -- apply Z.ltb_ge in Elt. rewrite El. split.
           ++ exists r1. rewrite elem_of_app. auto.
           ++ intros x Hx Hxp. apply elem_of_app in Hx as [Hx|Hx].
              ** by apply Hmin.
              ** apply list_elem_of_singleton in Hx as ->. eexists. split; [done | lia].
      * rewrite lookup_insert_eq. split.
        -- exists r. rewrite elem_of_app, list_elem_of_singleton, Heq. auto.
        -- intros x Hx Hxp. apply elem_of_app in Hx as [Hx|Hx].
           ++ injection Hxp as Hxp. by destruct (IHpod x Hx).
           ++ apply list_elem_of_singleton in Hx as ->. eexists. split; [done | lia].
    + assert (Hsame : forall m : gmap string Z,
                (match V2.first_pass l !! V2.pod_name r with
                 | Some t =>
                     if V2.time r <? t
                     then <[V2.pod_name r := V2.time r]> (V2.first_pass l)
                     else V2.first_pass l
                 | None => <[V2.pod_name r := V2.time r]> (V2.first_pass l)
                 end) !! pod = V2.first_pass l !! pod).
      { intros _. destruct (V2.first_pass l !! V2.pod_name r) as [t|];
          [destruct (V2.time r <? t)|]; by rewrite ?lookup_insert_ne. }
      rewrite (Hsame ∅).
      destruct (V2.first_pass l !! pod) as [e|].
      * destruct IHpod as ((r1 & Hr1 & Hp1 & Ht1) & Hmin). split.
        -- exists r1. rewrite elem_of_app. auto.
        -- intros x Hx Hxp. apply elem_of_app in Hx as [Hx|Hx].
           ++ by apply Hmin.
           ++ apply list_elem_of_singleton in Hx as ->. congruence.
      * intros x Hx. apply elem_of_app in Hx as [Hx|Hx]; [by apply IHpod|].
        apply list_elem_of_singleton in Hx as ->. done.
Qed.

(** Every observation of the v2 normalizer is built from a sample of the
    batch. *)
Lemma v2_transform_records_elem records o :
  o ∈ V2.transform_records records
  <-> exists r, r ∈ records
        /\ V2.transform_record (V2.first_pass records) r = Some o.
Proof. unfold V2.transform_records. apply list_elem_of_omap. Qed.

Lemma v2_transform_record_age pfs r o :
  V2.transform_record pfs r = Some o ->
  o_pod_name o = V2.pod_name r
  /\ o_timestamp o = V2.time r
  /\ o_age_seconds o
     = total_seconds_int (V2.time r - default (V2.time r) (pfs !! V2.pod_name r)).
Proof.
  unfold V2.transform_record.
  destruct (negb _ && negb _); [done|]. intros [= <-]. done.
Qed.

Lemma v2_age_earliest records o :
  o ∈ V2.transform_records records ->
  exists e,
    earliest_time (fun r => Some (V2.pod_name r)) (fun r => Some (V2.time r))
      records (o_pod_name o) e
    /\ o_age_seconds o = total_seconds_int (o_timestamp o - e).
Proof.
  intros Ho. apply v2_transform_records_elem in Ho as (r & Hr & Ho).
  apply v2_transform_record_age in Ho as (Hp & Ht & Ha).
  pose proof (first_pass_spec records (V2.pod_name r)) as Hfp.
  destruct (V2.first_pass records !! V2.pod_name r) as [e|].
  - exists e. rewrite Hp, Ht. done.
  - by destruct (Hfp r Hr).
Qed.

(** * Pod age *)

Lemma earliest_time_unique {A} (pod_of : A -> option string)
    (time_of : A -> option Z) records pod e1 e2 :
  earliest_time pod_of time_of records pod e1 ->
  earliest_time pod_of time_of records pod e2 -> e1 = e2.
Proof.
  intros ((r1 & Hr1 & Hp1 & Ht1) & Hmin1) ((r2 & Hr2 & Hp2 & Ht2) & Hmin2).
  destruct (Hmin1 r2 Hr2 Hp2) as (t & Ht & Hle1).
  destruct (Hmin2 r1 Hr1 Hp1) as (t' & Ht' & Hle2).
  simplify_eq. lia.
Qed.

Lemma v1_age_earliest fromisoformat records out st o :
  V1.transform_records fromisoformat records = Some (out, st) ->
  o ∈ out ->
  exists e,
    earliest_time V1.pod_name (V1.record_time fromisoformat) records
      (o_pod_name o) e
    /\ o_age_seconds o = total_seconds_int (o_timestamp o - e).
Proof.
  intros H Ho.
  destruct (transform_records_emitted _ _ _ _ _ H Ho)
    as (r & Hr & ts & Ht & Hparse & Hpod & _ & _ & _ & _ & _ & _ & Hage).
  by eapply estimate_pod_age_earliest.
Qed.

Lemma v1_scenario_age fromisoformat s0 s1 s2 t0 r0 r1 r2 :
  s0 <> "" -> s1 <> "" -> s2 <> "" ->
  V1.parse_timestamp fromisoformat s0 = Some t0 ->
  V1.parse_timestamp fromisoformat s1 = Some (t0 + timedelta 300) ->
  V1.parse_timestamp fromisoformat s2 = Some (t0 + timedelta 600) ->
  exists out st o,
    V1.transform_records fromisoformat
      [Scenario.v1_at s0 Scenario.bob r0; Scenario.v1_at s1 Scenario.bob r1;
       Scenario.v1_at s2 Scenario.bob r2] = Some (out, st)
    /\ out !! 2%nat = Some o
    /\ o_age_seconds o = 600.
Proof.
  intros N0 N1 N2 P0 P1 P2.
  set (records := [Scenario.v1_at s0 Scenario.bob r0;
                   Scenario.v1_at s1 Scenario.bob r1;
                   Scenario.v1_at s2 Scenario.bob r2]).
  assert (Ht : forall r, r ∈ records ->
             is_Some (V1.record_time fromisoformat r)).
  { intros r Hr. unfold records in Hr.
    repeat (apply elem_of_cons in Hr as [->|Hr]);
      [| | |by apply elem_of_nil in Hr];
      unfold V1.record_time; simpl; rewrite ?P0, ?P1, ?P2; eauto. }
  destruct (transform_records_total fromisoformat records Ht) as [[out st] Hout].
  exists out, st.
  destruct (transform_records_inv _ _ _ _ Hout) as (Hf & _).
  assert (D01 : s0 <> s1) by (intros ->; rewrite P0 in P1; unfold timedelta in P1; simplify_eq; lia).
  assert (D02 : s0 <> s2) by (intros ->; rewrite P0 in P2; unfold timedelta in P2; simplify_eq; lia).
  assert (D12 : s1 <> s2) by (intros ->; rewrite P1 in P2; unfold timedelta in P2; simplify_eq; lia).
  assert (Hfirst : V1Spec.first_occurrences records = records).
  { unfold V1Spec.first_occurrences, with_prefix, records. simpl.
    unfold V1Spec.is_first, V1Spec.dedup_key. simpl.
    destruct s0 as [|a0 s0]; [done|]. destruct s1 as [|a1 s1]; [done|].
    destruct s2 as [|a2 s2]; [done|]. simpl.
    rewrite !filter_cons, filter_nil. simpl.
    repeat (rewrite bool_decide_eq_true_2;
            [|rewrite ?elem_of_cons, ?elem_of_nil; intros Hc;
              repeat destruct Hc as [Hc|Hc]; simplify_eq; done]).
    simpl. done. }
  rewrite Hfirst in Hf. unfold records in Hf.
  apply Forall2_cons_inv_l in Hf as (o0 & out1 & _ & Hf & ->).
  apply Forall2_cons_inv_l in Hf as (o1 & out2 & _ & Hf & ->).
  apply Forall2_cons_inv_l in Hf as (o2 & out3 & He & Hf & ->).
  exists o2. split; [done|]. split; [done|].
  destruct He as (ts & Hts & Hparse & Hpod & _ & _ & _ & _ & _ & _ & Hage).
  simpl in Hts, Hpod. injection Hts as <-. injection Hpod as Hpod.
  rewrite <- Hpod in Hage.
  assert (Hr2 : Scenario.v1_at s2 Scenario.bob r2 ∈ records)
    by (unfold records; rewrite !elem_of_cons; auto).
  destruct (estimate_pod_age_earliest _ _ _ _ _ _ _ Hage Hparse Hr2 eq_refl)
    as (e & He & ->).
  assert (e = t0) as ->.
  { eapply earliest_time_unique; [exact He|]. split.
    - exists (Scenario.v1_at s0 Scenario.bob r0). unfold records.
      rewrite !elem_of_cons. unfold V1.record_time. simpl. auto.
    - intros r Hr _. unfold records in Hr.
      repeat (apply elem_of_cons in Hr as [->|Hr]);
        [| | |by apply elem_of_nil in Hr];
        unfold V1.record_time; simpl; rewrite ?P0, ?P1, ?P2;
        eexists; (split; [done|]); unfold timedelta; lia. }
  rewrite P2 in Hparse. injection Hparse as <-.
  replace (t0 + timedelta 600 - t0) with (timedelta 600) by lia.
  apply total_seconds_int_whole. done.
Qed.

Lemma v2_scenario_age t0 r0 r1 r2 :
  exists o,
    V2.transform_records
      [Scenario.v2_running_at t0 Scenario.bob r0;
       Scenario.v2_running_at (t0 + timedelta 300) Scenario.bob r1;
       Scenario.v2_running_at (t0 + timedelta 600) Scenario.bob r2]
      !! 2%nat = Some o
    /\ o_age_seconds o = 600.
Proof.
  set (records := [Scenario.v2_running_at t0 Scenario.bob r0;
                   Scenario.v2_running_at (t0 + timedelta 300) Scenario.bob r1;
                   Scenario.v2_running_at (t0 + timedelta 600) Scenario.bob r2]).
  pose proof (first_pass_spec records Scenario.bob) as Hfp.
  unfold V2.transform_records.
  destruct (V2.first_pass records !! Scenario.bob) as [e|] eqn:Ee.
  2:{ exfalso. apply (Hfp (Scenario.v2_running_at t0 Scenario.bob r0)); [|done].
      unfold records. apply elem_of_cons. by left. }
  assert (e = t0) as ->.
  { eapply earliest_time_unique; [exact Hfp|]. split.
    - exists (Scenario.v2_running_at t0 Scenario.bob r0). unfold records.
      rewrite !elem_of_cons. simpl. auto.
    - intros r Hr _. unfold records in Hr.
      repeat (apply elem_of_cons in Hr as [->|Hr]);
        [| | |by apply elem_of_nil in Hr]; simpl;
        eexists; (split; [done|]); unfold timedelta; lia. }
  clear Hfp. revert Ee. generalize (V2.first_pass records). intros pfs Ee.
  unfold records, V2.transform_record. simpl. rewrite Ee. simpl.
  eexists. split; [done|]. simpl.
  replace (t0 + timedelta 600 - t0) with (timedelta 600) by lia.
  apply total_seconds_int_whole. done.
Qed.

Lemma v1_age_earliest_le fromisoformat records out st o :
  V1.transform_records fromisoformat records = Some (out, st) ->
  o ∈ out ->
  exists e,
    earliest_time V1.pod_name (V1.record_time fromisoformat) records
      (o_pod_name o) e
    /\ e <= o_timestamp o
    /\ o_age_seconds o = total_seconds_int (o_timestamp o - e).
Proof.
  intros H Ho.
  destruct (transform_records_emitted _ _ _ _ _ H Ho)
    as (r & Hr & ts & Ht & Hparse & Hpod & _ & _ & _ & _ & _ & _ & Hage).
  destruct (estimate_pod_age_earliest _ _ _ _ _ _ _ Hage Hparse Hr Hpod)
    as (e & He & Ha).
  exists e. split; [done|]. split; [|done].
  destruct He as (_ & Hall). destruct (Hall r Hr Hpod) as (t & Hrt & Hle).
  unfold V1.record_time in Hrt. rewrite Ht in Hrt. simpl in Hrt.
  rewrite Hparse in Hrt. by simplify_eq.
Qed.

Lemma v2_age_earliest_le records o :
  o ∈ V2.transform_records records ->
  exists e,
    earliest_time (fun r => Some (V2.pod_name r)) (fun r => Some (V2.time r))
      records (o_pod_name o) e
    /\ e <= o_timestamp o
    /\ o_age_seconds o = total_seconds_int (o_timestamp o - e).
Proof.
  intros Ho. destruct (v2_age_earliest _ _ Ho) as (e & He & Ha).
  exists e. split; [done|]. split; [|done].
  apply v2_transform_records_elem in Ho as (r & Hr & Ho).
  apply v2_transform_record_age in Ho as (Hp & Ht & _).
  destruct He as (_ & Hall).
  destruct (Hall r Hr) as (t & Hrt & Hle); [by rewrite Hp|].
  simplify_eq. lia.
Qed.

(** C1 (counterexample). Two running samples of one pod, at
    1400-01-01T00:00:00 and at 2023-12-31T23:59:59.999999: the elapsed time
    is 19691510399.999999 s, a microsecond short of 19691510400 s, but the
    float of [total_seconds] is 19691510400.0 and the second observation
    gets [age_seconds = 19691510400]. *)
Lemma age_seconds_rounds_up_on_long_span :
  exists o,
    V2.transform_records Scenario.v2_long_span !! 1%nat = Some o
    /\ o_pod_name o = Scenario.bob
    /\ o_timestamp o = 1704067199999999
    /\ earliest_time (fun r => Some (V2.pod_name r)) (fun r => Some (V2.time r))
         Scenario.v2_long_span Scenario.bob (-17987443200000000)
    /\ o_timestamp o - -17987443200000000 = 19691510399999999
    /\ o_age_seconds o = 19691510400
    /\ o_timestamp o - -17987443200000000 < timedelta (o_age_seconds o).
Proof.
  eexists. split; [vm_compute; reflexivity|].
  split; [reflexivity|]. split; [reflexivity|].
  split; [|split; [reflexivity|split; [reflexivity|reflexivity]]].
  split.
  - eexists. split; [apply list_elem_of_here|]. done.
  - intros r Hr _. unfold Scenario.v2_long_span in Hr.
    repeat (apply elem_of_cons in Hr as [->|Hr]);
      [| |by apply elem_of_nil in Hr]; simpl;
      eexists; (split; [done|]); lia.
Qed.

(** C1 (amended). In both importers the [age_seconds] of every emitted
    observation is [int] of the float [total_seconds] of the time elapsed
    since the earliest timestamp of the same pod name anywhere in the batch;
    it is the number of whole elapsed seconds whenever less than [2 ^ 34]
    seconds have elapsed; for three samples of one pod at [t0],
    [t0 + 5 min] and [t0 + 10 min] the third observation has
    [age_seconds = 600]. *)
Theorem age_seconds_since_earliest_in_batch :
  (forall fromisoformat records out st o,
     V1.transform_records fromisoformat records = Some (out, st) ->
     o ∈ out ->
     exists e,
       earliest_time V1.pod_name (V1.record_time fromisoformat) records
         (o_pod_name o) e
       /\ e <= o_timestamp o
       /\ o_age_seconds o = total_seconds_int (o_timestamp o - e)
       /\ (o_timestamp o - e < timedelta (2 ^ 34) ->
           o_age_seconds o = (o_timestamp o - e) / 1000000))
  /\ (forall records o,
        o ∈ V2.transform_records records ->
        exists e,
          earliest_time (fun r => Some (V2.pod_name r))
            (fun r => Some (V2.time r)) records (o_pod_name o) e
          /\ e <= o_timestamp o
          /\ o_age_seconds o = total_seconds_int (o_timestamp o - e)
          /\ (o_timestamp o - e < timedelta (2 ^ 34) ->
              o_age_seconds o = (o_timestamp o - e) / 1000000))
  /\ (forall fromisoformat s0 s1 s2 t0 r0 r1 r2,
        s0 <> "" -> s1 <> "" -> s2 <> "" ->
        V1.parse_timestamp fromisoformat s0 = Some t0 ->
        V1.parse_timestamp fromisoformat s1 = Some (t0 + timedelta 300) ->
        V1.parse_timestamp fromisoformat s2 = Some (t0 + timedelta 600) ->
        exists out st o,
          V1.transform_records fromisoformat
            [Scenario.v1_at s0 Scenario.bob r0;
             Scenario.v1_at s1 Scenario.bob r1;
             Scenario.v1_at s2 Scenario.bob r2] = Some (out, st)
          /\ out !! 2%nat = Some o
          /\ o_age_seconds o = 600)
  /\ (forall t0 r0 r1 r2,
        exists o,
          V2.transform_records
            [Scenario.v2_running_at t0 Scenario.bob r0;
             Scenario.v2_running_at (t0 + timedelta 300) Scenario.bob r1;
             Scenario.v2_running_at (t0 + timedelta 600) Scenario.bob r2]
            !! 2%nat = Some o
          /\ o_age_seconds o = 600).
Proof.
  split; [|split; [|split]].
  - intros fromisoformat records out st o H Ho.
    destruct (v1_age_earliest_le _ _ _ _ _ H Ho) as (e & He & Hle & Ha).
    exists e. split; [done|]. split; [done|]. split; [done|].
    intros Hlt. rewrite Ha. apply total_seconds_int_exact; [lia | done].
  - intros records o Ho.
    destruct (v2_age_earliest_le _ _ Ho) as (e & He & Hle & Ha).
    exists e. split; [done|]. split; [done|]. split; [done|].
    intros Hlt. rewrite Ha. apply total_seconds_int_exact; [lia | done].
  - apply v1_scenario_age.
  - apply v2_scenario_age.
Qed.

Lemma age_seconds_since_earliest_in_batch_witness :
  (exists out st o,
     V1.transform_records Iso.fromisoformat Scenario.v1_batch = Some (out, st)
     /\ out !! 2%nat = Some o
     /\ exists e,
          earliest_time V1.pod_name (V1.record_time Iso.fromisoformat)
            Scenario.v1_batch (o_pod_name o) e
          /\ e <= o_timestamp o
          /\ o_age_seconds o = total_seconds_int (o_timestamp o - e)
          /\ (o_timestamp o - e < timedelta (2 ^ 34) ->
              o_age_seconds o = (o_timestamp o - e) / 1000000))
  /\ (exists o,
        V2.transform_records Scenario.v2_long_span !! 1%nat = Some o
        /\ exists e,
             earliest_time (fun r => Some (V2.pod_name r))
               (fun r => Some (V2.time r)) Scenario.v2_long_span
               (o_pod_name o) e
             /\ e <= o_timestamp o
             /\ o_age_seconds o = total_seconds_int (o_timestamp o - e)
             /\ (o_timestamp o - e < timedelta (2 ^ 34) ->
                 o_age_seconds o = (o_timestamp o - e) / 1000000))
  /\ (exists out st o,
        V1.transform_records Iso.fromisoformat
          [Scenario.v1_at "2024-01-01T00:00:00Z" Scenario.bob Scenario.v1_no_time;
           Scenario.v1_at "2024-01-01T00:05:00Z" Scenario.bob Scenario.v1_no_time;
           Scenario.v1_at "2024-01-01T00:10:00Z" Scenario.bob Scenario.v1_no_time]
        = Some (out, st)
        /\ out !! 2%nat = Some o
        /\ o_age_seconds o = 600).
Proof.
  split; [|split].
  - eexists _, _, _. split; [vm_compute; reflexivity|]. split; [reflexivity|].
    eapply (proj1 age_seconds_since_earliest_in_batch Iso.fromisoformat
              Scenario.v1_batch); [vm_compute; reflexivity|].
    apply elem_of_cons; right. apply elem_of_cons; right.
    apply elem_of_cons; left. reflexivity.
  - eexists. split; [vm_compute; reflexivity|].
    apply (proj1 (proj2 age_seconds_since_earliest_in_batch)
             Scenario.v2_long_span).
    vm_compute. apply elem_of_cons; right. apply list_elem_of_here.
  - apply (proj1 (proj2 (proj2 age_seconds_since_earliest_in_batch))
             Iso.fromisoformat _ _ _ 1704067200000000);
      first [discriminate | vm_compute; reflexivity].
Defined.

(** * Accounting *)

(** C4. The statistics returned by the v1 normalizer add up to the number of
    input samples, with every statistic non-negative; a batch whose
    timestamps are all present and well formed is normalized without error;
    the empty batch gives four zeros. *)
Theorem transform_records_accounting :
  forall fromisoformat,
    (forall records out st,
       V1.transform_records fromisoformat records = Some (out, st) ->
       V1.s_transformed st + V1.s_skipped_no_pod_name st
       + V1.s_skipped_not_jupyter st + V1.s_duplicates_in_batch st
       = Z.of_nat (length records)
       /\ V1.s_transformed st = Z.of_nat (length out)
       /\ 0 <= V1.s_skipped_no_pod_name st
       /\ 0 <= V1.s_skipped_not_jupyter st
       /\ 0 <= V1.s_duplicates_in_batch st)
    /\ (forall records,
          (forall r, r ∈ records ->
             is_Some (V1.record_time fromisoformat r)) ->
          is_Some (V1.transform_records fromisoformat records))
    /\ V1.transform_records fromisoformat []
       = Some ([], {| V1.s_transformed := 0;
                      V1.s_skipped_no_pod_name := 0;
                      V1.s_skipped_not_jupyter := 0;
                      V1.s_duplicates_in_batch := 0 |}).
Proof.
  intros fromisoformat. split; [|split].
  - intros records out st H.
    apply transform_records_inv in H as (_ & Ht & H1 & H2 & Hd & Hsum).
    repeat split; try done. lia.
  - apply transform_records_total.
  - reflexivity.
Qed.

Lemma transform_records_accounting_witness :
  exists out st,
    V1.transform_records Iso.fromisoformat Scenario.v1_batch = Some (out, st)
    /\ V1.s_transformed st + V1.s_skipped_no_pod_name st
       + V1.s_skipped_not_jupyter st + V1.s_duplicates_in_batch st
       = Z.of_nat (length Scenario.v1_batch)
    /\ V1.s_transformed st = Z.of_nat (length out).
Proof.
  eexists _, _. split; [vm_compute; reflexivity|].
  split;
    eapply (proj1 (transform_records_accounting Iso.fromisoformat)
              Scenario.v1_batch);
    vm_compute; reflexivity.
Defined.

(** C5. In the v1 normalizer the emitted observations are those of the first
    sample of each [(pod_name, timestamp)] key, in order, but
    [duplicates_in_batch] is the number of later samples with an already
    seen key plus the number of samples without timestamp: on the batch of
    one sample without timestamp it is 1, although nothing is a duplicate. *)
Theorem duplicates_in_batch_counts_missing_timestamps :
  forall fromisoformat,
    (forall records out st,
       V1.transform_records fromisoformat records = Some (out, st) ->
       Forall2 (V1Spec.emitted_for fromisoformat records)
         (V1Spec.first_occurrences records) out
       /\ V1.s_duplicates_in_batch st
          = Z.of_nat (length (V1Spec.later_duplicates records))
            + Z.of_nat (length (V1Spec.without_timestamp records)))
    /\ V1.transform_records fromisoformat [Scenario.v1_no_time]
       = Some ([], {| V1.s_transformed := 0;
                      V1.s_skipped_no_pod_name := 0;
                      V1.s_skipped_not_jupyter := 0;
                      V1.s_duplicates_in_batch := 1 |})
    /\ V1Spec.later_duplicates [Scenario.v1_no_time] = [].
Proof.
  intros fromisoformat. split; [|split].
  - intros records out st H.
    apply transform_records_inv in H as (Hf & _ & _ & _ & Hd & _). done.
  - reflexivity.
  - reflexivity.
Qed.

Lemma duplicates_in_batch_counts_missing_timestamps_witness :
  exists out st,
    V1.transform_records Iso.fromisoformat Scenario.v1_batch = Some (out, st)
    /\ V1.s_duplicates_in_batch st = 2
    /\ length (V1Spec.later_duplicates Scenario.v1_batch) = 1%nat
    /\ length (V1Spec.without_timestamp Scenario.v1_batch) = 1%nat
    /\ V1.s_duplicates_in_batch st
       = Z.of_nat (length (V1Spec.later_duplicates Scenario.v1_batch))
         + Z.of_nat (length (V1Spec.without_timestamp Scenario.v1_batch)).
Proof.
  eexists _, _. split; [vm_compute; reflexivity|].
  split; [reflexivity|]. split; [vm_compute; reflexivity|].
  split; [vm_compute; reflexivity|].
  eapply (proj1 (duplicates_in_batch_counts_missing_timestamps
                   Iso.fromisoformat) Scenario.v1_batch).
  vm_compute; reflexivity.
Defined.

(** * Pod-name prefix filter *)

Lemma v2_running_kept pfs r :
  Py.lower (default "" (V2.state r)) = "running"
  \/ Py.lower (default "" (V2.phase r)) = "running" ->
  exists o, V2.transform_record pfs r = Some o /\ o_pod_name o = V2.pod_name r.
Proof.
  intros Hrun. unfold V2.transform_record.
  assert ((negb (Py.lower (default "" (V2.state r)) =? "running")%string
           && negb (Py.lower (default "" (V2.phase r)) =? "running")%string)
          = false) as ->.
  { destruct Hrun as [-> | ->]; simpl; [done | by rewrite andb_false_r]. }
  eexists. split; [done|]. done.
Qed.

(** C3 (counterexample). The v2 normalizer emits an observation for a
    running pod whose name does not start with ["jupyter-"]. *)
Lemma v2_emits_pod_without_prefix :
  exists o,
    o ∈ V2.transform_records [Scenario.v2_hub]
    /\ o_pod_name o = "hub-jupyter-7f9c"
    /\ Py.startswith "jupyter-" (o_pod_name o) = false.
Proof.
  eexists. split; [|split].
  - vm_compute. apply list_elem_of_here.
  - reflexivity.
  - reflexivity.
Qed.

(** C3 (amended). No observation of the v1 normalizer has a pod name
    without the prefix ["jupyter-"]; the v2 normalizer has no prefix filter:
    it emits an observation for every sample whose state or phase is
    running, whatever its pod name. *)
Theorem pod_prefix_filter_v1_only :
  (forall fromisoformat records out st o,
     V1.transform_records fromisoformat records = Some (out, st) ->
     o ∈ out ->
     Py.startswith "jupyter-" (o_pod_name o) = true)
  /\ (forall records r,
        r ∈ records ->
        Py.lower (default "" (V2.state r)) = "running"
        \/ Py.lower (default "" (V2.phase r)) = "running" ->
        exists o,
          o ∈ V2.transform_records records
          /\ o_pod_name o = V2.pod_name r).
Proof.
  split.
  - intros fromisoformat records out st o H Ho.
    destruct (transform_records_emitted _ _ _ _ _ H Ho)
      as (r & _ & ts & _ & _ & _ & Hpre & _). done.
  - intros records r Hr Hrun.
    destruct (v2_running_kept (V2.first_pass records) r Hrun) as (o & Ho & Hp).
    exists o. split; [|done]. apply v2_transform_records_elem. eauto.
Qed.

Lemma pod_prefix_filter_v1_only_witness :
  (exists out st,
     V1.transform_records Iso.fromisoformat Scenario.v1_batch = Some (out, st)
     /\ forall o, o ∈ out -> Py.startswith "jupyter-" (o_pod_name o) = true)
  /\ (exists o,
        o ∈ V2.transform_records [Scenario.v2_hub]
        /\ o_pod_name o = V2.pod_name Scenario.v2_hub).
Proof.
  split.
  - eexists _, _. split; [vm_compute; reflexivity|].
    intros o. eapply (proj1 pod_prefix_filter_v1_only Iso.fromisoformat
                        Scenario.v1_batch).
    vm_compute; reflexivity.
  - apply (proj2 pod_prefix_filter_v1_only [Scenario.v2_hub] Scenario.v2_hub).
    + apply list_elem_of_here.
    + left. reflexivity.
Defined.

(** * Container version *)

Lemma rcut_none c s : Py.contains c s = false -> Py.rcut c s = None.
Proof.
  induction s as [|a s IH]; simpl; [done|].
  intros H. apply orb_false_iff in H as [Ha Hs].
  rewrite (IH Hs), Ha. done.
Qed.

Lemma rcut_last c v : forall b,
  Py.contains c v = false ->
  Py.rcut c (b ++ String c v)%string = Some (b, v).
Proof.
  intros b Hv. induction b as [|a b IH]; simpl.
  - rewrite (rcut_none _ _ Hv), Ascii.eqb_refl. done.
  - by rewrite IH.
Qed.

Lemma contains_app c v : forall b,
  Py.contains c (b ++ String c v)%string = true.
Proof.
  induction b as [|a b IH]; simpl.
  - by rewrite Ascii.eqb_refl.
  - rewrite IH. apply orb_true_r.
Qed.

Lemma version_without_colon img :
  Py.contains ":" img = false -> version (extract_container_info img) = "latest".
Proof. unfold extract_container_info. intros ->. done. Qed.

Lemma version_after_last_colon b v :
  Py.contains ":" v = false ->
  version (extract_container_info (b ++ String ":" v)%string) = v.
Proof.
  intros Hv. unfold extract_container_info, Py.rsplit1.
  rewrite contains_app, (rcut_last _ _ _ Hv). done.
Qed.

(** C6 (counterexample). In the v1 normalizer a version tag equal to the
    string ["unknown"] is kept as [container_version], although the image
    reference ["reg/nb:v1"] yields the version ["v1"]. *)
Lemma v1_keeps_unknown_version_tag :
  exists out st o,
    V1.transform_records Iso.fromisoformat [Scenario.v1_unknown_tag]
    = Some (out, st)
    /\ out = [o]
    /\ V1.version_tag Scenario.v1_unknown_tag = Some "unknown"
    /\ o_container_version o = "unknown"
    /\ version (extract_container_info (o_container_image o)) = "v1".
Proof.
  eexists _, _, _. split; [vm_compute; reflexivity|].
  repeat split; reflexivity.
Qed.

(** C6 (amended). In the v2 normalizer [container_version] is the version
    tag when the tag is present, non-empty and not ["unknown"], and
    otherwise the version derived from the image reference; in the v1
    normalizer it is the tag whenever the tag is present and non-empty (the
    string ["unknown"] included), and otherwise the derived version.  The
    derived version is what follows the last colon of the image reference,
    and ["latest"] when there is no colon. *)
Theorem container_version_precedence :
  (forall fromisoformat records out st o,
     V1.transform_records fromisoformat records = Some (out, st) ->
     o ∈ out ->
     exists r,
       r ∈ records
       /\ V1.pod_name r = Some (o_pod_name o)
       /\ V1.record_time fromisoformat r = Some (o_timestamp o)
       /\ (forall v, V1.version_tag r = Some v -> v <> "" ->
             o_container_version o = v)
       /\ (V1.version_tag r = None \/ V1.version_tag r = Some "" ->
             o_container_version o
             = version (extract_container_info (o_container_image o))))
  /\ (forall records o,
        o ∈ V2.transform_records records ->
        exists r,
          r ∈ records
          /\ V2.pod_name r = o_pod_name o
          /\ V2.time r = o_timestamp o
          /\ (forall v, V2.version_tag r = Some v -> v <> "" -> v <> "unknown" ->
                o_container_version o = v)
          /\ (V2.version_tag r = None \/ V2.version_tag r = Some ""
              \/ V2.version_tag r = Some "unknown" ->
                o_container_version o
                = version (extract_container_info (o_container_image o))))
  /\ (forall img,
        Py.contains ":" img = false ->
        version (extract_container_info img) = "latest")
  /\ (forall b v,
        Py.contains ":" v = false ->
        version (extract_container_info (b ++ String ":" v)%string) = v).
Proof.
  split; [|split; [|split]].
  - intros fromisoformat records out st o H Ho.
    destruct (transform_records_emitted _ _ _ _ _ H Ho)
      as (r & Hr & ts & Ht & Hparse & Hpod & _ & _ & _ & _ & _ & Hver & _).
    exists r. split; [done|]. split; [done|]. split.
    { unfold V1.record_time. rewrite Ht. done. }
    rewrite Hver. split.
    + intros v -> Hv. destruct v; done.
    + intros [-> | ->]; done.
  - intros records o Ho.
    apply v2_transform_records_elem in Ho as (r & Hr & Ho).
    exists r. split; [done|]. unfold V2.transform_record in Ho.
    destruct (negb _ && negb _); [done|]. injection Ho as <-. simpl.
    split; [done|]. split; [done|]. split.
    + intros v -> Hv Hu. apply String.eqb_neq in Hu. rewrite Hu.
      destruct v; done.
    + intros [-> | [-> | ->]]; done.
  - apply version_without_colon.
  - apply version_after_last_colon.
Qed.

Lemma container_version_precedence_witness :
  (exists out st,
     V1.transform_records Iso.fromisoformat [Scenario.v1_unknown_tag]
     = Some (out, st)
     /\ forall o, o ∈ out ->
          exists r,
            r ∈ [Scenario.v1_unknown_tag]
            /\ V1.pod_name r = Some (o_pod_name o)
            /\ V1.record_time Iso.fromisoformat r = Some (o_timestamp o)
            /\ (forall v, V1.version_tag r = Some v -> v <> "" ->
                  o_container_version o = v)
            /\ (V1.version_tag r = None \/ V1.version_tag r = Some "" ->
                  o_container_version o
                  = version (extract_container_info (o_container_image o))))
  /\ version (extract_container_info "image") = "latest"
  /\ version (extract_container_info
                ("registry.example.com/org/image" ++ String ":" "v2.1")%string)
     = "v2.1".
Proof.
  split; [|split].
  - eexists _, _. split; [vm_compute; reflexivity|].
    intros o. eapply (proj1 container_version_precedence Iso.fromisoformat
                        [Scenario.v1_unknown_tag]).
    vm_compute; reflexivity.
  - apply (proj1 (proj2 (proj2 container_version_precedence)) "image").
    reflexivity.
  - apply (proj2 (proj2 (proj2 container_version_precedence))
             "registry.example.com/org/image" "v2.1").
    reflexivity.
Defined.

(** * User summaries *)

Lemma extract_users_snoc obs o :
  V1.extract_users_from_batch (obs ++ [o])
  = V1.add_user (V1.extract_users_from_batch obs) o.
Proof. unfold V1.extract_users_from_batch. by rewrite foldl_snoc. Qed.

Lemma observed_range_snoc_other obs o e a b :
  o_user_email o <> e ->
  observed_range obs e a b -> observed_range (obs ++ [o]) e a b.
Proof.
  intros Hne ((o1 & H1 & E1 & T1) & (o2 & H2 & E2 & T2) & Hall).
  split; [|split].
  - exists o1. rewrite elem_of_app. auto.
  - exists o2. rewrite elem_of_app. auto.
  - intros x Hx Hxe. apply elem_of_app in Hx as [Hx|Hx]; [by apply Hall|].
    apply list_elem_of_singleton in Hx as ->. done.
Qed.

Lemma observed_range_snoc_same obs o a b :
  observed_range obs (o_user_email o) a b ->
  observed_range (obs ++ [o]) (o_user_email o)
    (Z.min a (o_timestamp o)) (Z.max b (o_timestamp o)).
Proof.
  intros ((o1 & H1 & E1 & T1) & (o2 & H2 & E2 & T2) & Hall).
  split; [|split].
  - destruct (Z.min_spec a (o_timestamp o)) as [[_ ->]|[_ ->]].
    + exists o1. rewrite elem_of_app. auto.
    + exists o. rewrite elem_of_app, list_elem_of_singleton. auto.
  - destruct (Z.max_spec b (o_timestamp o)) as [[_ ->]|[_ ->]].
    + exists o. rewrite elem_of_app, list_elem_of_singleton. auto.
    + exists o2. rewrite elem_of_app. auto.
  - intros x Hx Hxe. apply elem_of_app in Hx as [Hx|Hx].
    + specialize (Hall x Hx Hxe). lia.
    + apply list_elem_of_singleton in Hx as ->. lia.
Qed.

Lemma add_user_other users o e :
  o_user_email o <> e -> V1.add_user users o !! e = users !! e.
Proof.
  intros Hne. unfold V1.add_user. cbv zeta.
  destruct (users !! o_user_email o); by rewrite lookup_insert_ne.
Qed.

Lemma add_user_new users o :
  users !! o_user_email o = None ->
  exists u, V1.add_user users o !! o_user_email o = Some u
            /\ V1.first_seen u = o_timestamp o
            /\ V1.last_seen u = o_timestamp o.
Proof.
  intros Hnone. unfold V1.add_user. cbv zeta. rewrite Hnone.
  eexists. split; [apply lookup_insert_eq|]. done.
Qed.

Lemma add_user_known users o u :
  users !! o_user_email o = Some u ->
  exists u', V1.add_user users o !! o_user_email o = Some u'
             /\ V1.first_seen u' = Z.min (V1.first_seen u) (o_timestamp o)
             /\ V1.last_seen u' = Z.max (V1.last_seen u) (o_timestamp o).
Proof.
  intros Hsome. unfold V1.add_user. cbv zeta. rewrite Hsome.
  eexists. split; [apply lookup_insert_eq|]. done.
Qed.

(** The aggregator maps every e-mail of the batch to the range of its
    timestamps. *)
Lemma extract_users_spec obs : forall e,
  match V1.extract_users_from_batch obs !! e with
  | Some u => observed_range obs e (V1.first_seen u) (V1.last_seen u)
  | None => forall o, o ∈ obs -> o_user_email o <> e
  end.
Proof.
  induction obs as [|o obs IH] using rev_ind; intros e.
  - unfold V1.extract_users_from_batch. simpl. rewrite lookup_empty.
    intros o Ho. by apply elem_of_nil in Ho.
  - rewrite extract_users_snoc. specialize (IH e).
    destruct (decide (o_user_email o = e)) as [Heq|Hne].
    + subst e.
      destruct (V1.extract_users_from_batch obs !! o_user_email o)
        as [u|] eqn:Eu.
      * destruct (add_user_known _ _ _ Eu) as (u' & -> & -> & ->).
        by apply observed_range_snoc_same.
      * destruct (add_user_new _ _ Eu) as (u' & -> & -> & ->).
        split; [|split].
        -- exists o. rewrite elem_of_app, list_elem_of_singleton. auto.
        -- exists o. rewrite elem_of_app, list_elem_of_singleton. auto.
        -- intros x Hx Hxe. apply elem_of_app in Hx as [Hx|Hx].
           ++ by destruct (IH x Hx).
           ++ apply list_elem_of_singleton in Hx as ->. lia.
    + rewrite add_user_other by done.
      destruct (V1.extract_users_from_batch obs !! e) as [u|].
      * by apply observed_range_snoc_other.
      * intros x Hx. apply elem_of_app in Hx as [Hx|Hx]; [by apply IH|].
        apply list_elem_of_singleton in Hx as ->. done.
Qed.

Lemma observed_range_unique obs e a b a' b' :
  observed_range obs e a b -> observed_range obs e a' b' -> a = a' /\ b = b'.
Proof.
  intros ((o1 & H1 & E1 & T1) & (o2 & H2 & E2 & T2) & Hall)
         ((o1' & H1' & E1' & T1') & (o2' & H2' & E2' & T2') & Hall').
  pose proof (Hall o1' H1' E1'). pose proof (Hall o2' H2' E2').
  pose proof (Hall' o1 H1 E1). pose proof (Hall' o2 H2 E2). lia.
Qed.

Lemma upsert_sql_other table k v e :
  k <> e -> V1.upsert_sql table (k, v) !! e = table !! e.
Proof.
  intros Hne. unfold V1.upsert_sql.
  destruct (table !! k); by rewrite lookup_insert_ne.
Qed.

Lemma upsert_sql_lookup_congr t1 t2 e u :
  t1 !! e = t2 !! e ->
  V1.upsert_sql t1 (e, u) !! e = V1.upsert_sql t2 (e, u) !! e.
Proof.
  intros H. unfold V1.upsert_sql. rewrite H.
  destruct (t2 !! e); by rewrite !lookup_insert_eq.
Qed.

Lemma foldl_upsert_absent (l : list (string * V1.user_entry)) : forall table e,
  e ∉ l.*1 -> foldl V1.upsert_sql table l !! e = table !! e.
Proof.
  induction l as [|[k v] l IH]; intros table e Hnot; simpl; [done|].
  rewrite fmap_cons, not_elem_of_cons in Hnot. destruct Hnot as [Hne Hnot].
  rewrite IH by done. apply upsert_sql_other. simpl in Hne. congruence.
Qed.

Lemma foldl_upsert_present (l : list (string * V1.user_entry)) :
  forall table e u,
    NoDup l.*1 -> (e, u) ∈ l ->
    foldl V1.upsert_sql table l !! e = V1.upsert_sql table (e, u) !! e.
Proof.
  induction l as [|[k v] l IH]; intros table e u Hnd Hin; simpl.
  - by apply elem_of_nil in Hin.
  - rewrite fmap_cons in Hnd. apply NoDup_cons in Hnd as [Hk Hnd].
    apply elem_of_cons in Hin as [Heq|Hin].
    + injection Heq as <- <-. by apply foldl_upsert_absent.
    + assert (Hne : k <> e).
      { intros ->. apply Hk. apply list_elem_of_fmap. by exists (e, u). }
      rewrite (IH _ e u) by done.
      apply upsert_sql_lookup_congr. by apply upsert_sql_other.
Qed.

(** The table after [upsert_users], at an e-mail of the batch and at any
    other e-mail. *)
Lemma upsert_users_present table users e u :
  users !! e = Some u ->
  (V1.upsert_users table users).1 !! e = V1.upsert_sql table (e, u) !! e.
Proof.
  intros Hu. unfold V1.upsert_users.
  case_decide as Hempty; [by rewrite Hempty, lookup_empty in Hu|].
  simpl. apply foldl_upsert_present.
  - apply NoDup_fst_map_to_list.
  - by apply elem_of_map_to_list.
Qed.

Lemma upsert_users_absent table users e :
  users !! e = None -> (V1.upsert_users table users).1 !! e = table !! e.
Proof.
  intros Hu. unfold V1.upsert_users. case_decide; [done|]. simpl.
  apply foldl_upsert_absent. intros Hin.
  apply list_elem_of_fmap in Hin as ([k v] & -> & Hin).
  apply elem_of_map_to_list in Hin. simpl in Hu. congruence.
Qed.

Lemma upsert_users_conflict table users e row u :
  table !! e = Some row -> users !! e = Some u ->
  (V1.upsert_users table users).1 !! e
  = Some {| V1.r_user_id := V1.r_user_id row;
            V1.r_full_name := V1.r_full_name row;
            V1.r_first_seen := Z.min (V1.r_first_seen row) (V1.first_seen u);
            V1.r_last_seen := Z.max (V1.r_last_seen row) (V1.last_seen u) |}.
Proof.
  intros Hrow Hu. rewrite (upsert_users_present _ _ _ _ Hu).
  unfold V1.upsert_sql. rewrite Hrow. apply lookup_insert_eq.
Qed.

Lemma upsert_users_insert table users e u :
  table !! e = None -> users !! e = Some u ->
  (V1.upsert_users table users).1 !! e
  = Some {| V1.r_user_id := V1.user_id u;
            V1.r_full_name := V1.split_part_1 e;
            V1.r_first_seen := V1.first_seen u;
            V1.r_last_seen := V1.last_seen u |}.
Proof.
  intros Hrow Hu. rewrite (upsert_users_present _ _ _ _ Hu).
  unfold V1.upsert_sql. rewrite Hrow. apply lookup_insert_eq.
Qed.

(** C7. A stored user row never shrinks: upserting an aggregated batch that
    has the row's e-mail leaves [first_seen] at the minimum and [last_seen]
    at the maximum of the stored and the incoming value, and any batch leaves
    [first_seen] no later and [last_seen] no earlier; the aggregator itself
    yields the earliest and latest timestamp of each e-mail.  Importing
    observations that span [[t1, t3]] and then observations that span
    [[t2, t4]], with [t1 < t2 < t3 < t4], ends with [first_seen = t1] and
    [last_seen = t4]. *)
Theorem user_summary_never_shrinks :
  (forall table users e row u,
     table !! e = Some row -> users !! e = Some u ->
     exists row',
       (V1.upsert_users table users).1 !! e = Some row'
       /\ V1.r_first_seen row' = Z.min (V1.r_first_seen row) (V1.first_seen u)
       /\ V1.r_last_seen row' = Z.max (V1.r_last_seen row) (V1.last_seen u))
  /\ (forall table users e row,
        table !! e = Some row ->
        exists row',
          (V1.upsert_users table users).1 !! e = Some row'
          /\ V1.r_first_seen row' <= V1.r_first_seen row
          /\ V1.r_last_seen row <= V1.r_last_seen row')
  /\ (forall obs e u,
        V1.extract_users_from_batch obs !! e = Some u ->
        observed_range obs e (V1.first_seen u) (V1.last_seen u))
  /\ (forall table obs1 obs2 e t1 t2 t3 t4,
        t1 < t2 -> t2 < t3 -> t3 < t4 ->
        table !! e = None ->
        observed_range obs1 e t1 t3 ->
        observed_range obs2 e t2 t4 ->
        let table1 :=
          (V1.upsert_users table (V1.extract_users_from_batch obs1)).1 in
        let table2 :=
          (V1.upsert_users table1 (V1.extract_users_from_batch obs2)).1 in
        exists row,
          table2 !! e = Some row
          /\ V1.r_first_seen row = t1 /\ V1.r_last_seen row = t4).
Proof.
  split; [|split; [|split]].
  - intros table users e row u Hrow Hu. eexists.
    split; [by apply upsert_users_conflict|]. done.
  - intros table users e row Hrow.
    destruct (users !! e) as [u|] eqn:Eu.
    + eexists. split; [by eapply upsert_users_conflict|]. simpl. lia.
    + exists row. split; [|lia]. rewrite upsert_users_absent by done. done.
  - intros obs e u Hu. pose proof (extract_users_spec obs e) as H.
    by rewrite Hu in H.
  - intros table obs1 obs2 e t1 t2 t3 t4 H12 H23 H34 Hnone Hr1 Hr2 table1 table2.
    pose proof (extract_users_spec obs1 e) as Hs1.
    pose proof (extract_users_spec obs2 e) as Hs2.
    destruct (V1.extract_users_from_batch obs1 !! e) as [u1|] eqn:E1.
    2:{ destruct Hr1 as ((o & Ho & He & _) & _). by destruct (Hs1 o Ho). }
    destruct (V1.extract_users_from_batch obs2 !! e) as [u2|] eqn:E2.
    2:{ destruct Hr2 as ((o & Ho & He & _) & _). by destruct (Hs2 o Ho). }
    destruct (observed_range_unique _ _ _ _ _ _ Hs1 Hr1) as [F1 L1].
    destruct (observed_range_unique _ _ _ _ _ _ Hs2 Hr2) as [F2 L2].
    pose proof (upsert_users_insert _ _ _ _ Hnone E1) as Ht1.
    fold table1 in Ht1.
    pose proof (upsert_users_conflict _ _ _ _ _ Ht1 E2) as Ht2.
    fold table2 in Ht2.
    eexists. split; [exact Ht2|]. simpl. lia.
Qed.

Lemma user_summary_never_shrinks_witness :
  (exists row',
     (V1.upsert_users Scenario.users_table
        (V1.extract_users_from_batch [Scenario.bob_at 100; Scenario.bob_at 250])).1
       !! "bob@illinois.edu" = Some row'
     /\ V1.r_first_seen row' = Z.min 200 100
     /\ V1.r_last_seen row' = Z.max 300 250)
  /\ (exists row,
        (V1.upsert_users
           (V1.upsert_users ∅
              (V1.extract_users_from_batch
                 [Scenario.bob_at 100; Scenario.bob_at 300])).1
           (V1.extract_users_from_batch
              [Scenario.bob_at 400; Scenario.bob_at 200])).1
          !! "bob@illinois.edu" = Some row
        /\ V1.r_first_seen row = 100 /\ V1.r_last_seen row = 400).
Proof.
  split.
  - apply (proj1 user_summary_never_shrinks Scenario.users_table
             (V1.extract_users_from_batch
                [Scenario.bob_at 100; Scenario.bob_at 250])
             "bob@illinois.edu"
             {| V1.r_user_id := "bob"; V1.r_full_name := "Bob B.";
                V1.r_first_seen := 200; V1.r_last_seen := 300 |}
             {| V1.user_id := "bob"; V1.first_seen := 100;
                V1.last_seen := 250 |});
      vm_compute; reflexivity.
  - apply (proj2 (proj2 (proj2 user_summary_never_shrinks)) ∅
             [Scenario.bob_at 100; Scenario.bob_at 300]
             [Scenario.bob_at 400; Scenario.bob_at 200]
             "bob@illinois.edu" 100 200 300 400);
      try lia; try reflexivity.
    + split; [|split].
      * exists (Scenario.bob_at 100). rewrite !elem_of_cons. auto.
      * exists (Scenario.bob_at 300). rewrite !elem_of_cons. auto.
      * intros o Ho _. rewrite !elem_of_cons, elem_of_nil in Ho.
        destruct Ho as [-> | [-> | []]]; simpl; lia.
    + split; [|split].
      * exists (Scenario.bob_at 200). rewrite !elem_of_cons. auto.
      * exists (Scenario.bob_at 400). rewrite !elem_of_cons. auto.
      * intros o Ho _. rewrite !elem_of_cons, elem_of_nil in Ho.
        destruct Ho as [-> | [-> | []]]; simpl; lia.
Defined.

(** * More on time windows *)

(** X1. Within the range of [datetime], the call returns and the number of
    windows is the requested range divided by the window size, rounded up
    (and zero for an empty or reversed range). *)
Theorem generate_time_windows_count start stop ws :
  valid_datetime start -> 0 < ws -> windows_in_range start stop ws ->
  exists fuel windows,
    (forall fuel', (fuel <= fuel')%nat ->
       generate_time_windows fuel' start stop ws = Returned windows)
    /\ Z.of_nat (length windows)
       = Z.max 0 ((stop - start + timedelta ws - 1) / timedelta ws).
Proof.
  intros Hv Hws Hin.
  destruct (generate_time_windows_returns start stop ws Hv Hws Hin)
    as (l & Hl & _ & Hlen & _).
  exists (Z.to_nat (stop - start)), l. split; [done|]. exact Hlen.
Qed.

Lemma generate_time_windows_count_witness :
  exists fuel windows,
    (forall fuel', (fuel <= fuel')%nat ->
       generate_time_windows fuel' 0 (timedelta 25) 10 = Returned windows)
    /\ Z.of_nat (length windows)
       = Z.max 0 ((timedelta 25 - 0 + timedelta 10 - 1) / timedelta 10).
Proof.
  apply (generate_time_windows_count 0 (timedelta 25) 10);
    vm_compute; try reflexivity; try (split; intros; discriminate);
    intros; discriminate.
Defined.

(** X2. Within the range of [datetime], the call returns and the [i]-th
    window starts [i] window sizes after [start] and ends one window size
    later, or at [stop] if that comes first: every window but the last has
    exactly the configured size. *)
Theorem generate_time_windows_nth start stop ws :
  valid_datetime start -> 0 < ws -> windows_in_range start stop ws ->
  exists fuel windows,
    (forall fuel', (fuel <= fuel')%nat ->
       generate_time_windows fuel' start stop ws = Returned windows)
    /\ forall (i : nat) w,
         windows !! i = Some w ->
         w.1 = start + Z.of_nat i * timedelta ws
         /\ w.2 = Z.min (start + (Z.of_nat i + 1) * timedelta ws) stop
         /\ ((S i < length windows)%nat -> w.2 - w.1 = timedelta ws).
Proof.
  intros Hv Hws Hin.
  destruct (generate_time_windows_returns start stop ws Hv Hws Hin)
    as (l & Hl & Hc & _ & Hidx).
  exists (Z.to_nat (stop - start)), l. split; [done|].
  intros i w Hi. destruct (Hidx i w Hi) as (H1 & H2).
  split; [done|]. split; [done|].
  intros Hlt. destruct (lookup_lt_is_Some_2 l (S i) Hlt) as [w' Hw'].
  destruct (Hidx (S i) w' Hw') as (H1' & _).
  pose proof (chain_contiguous _ _ _ _ Hc i w w' Hi Hw') as Hcont.
  rewrite Hcont, H1', H1. lia.
Qed.

Lemma generate_time_windows_nth_witness :
  exists fuel windows,
    (forall fuel', (fuel <= fuel')%nat ->
       generate_time_windows fuel' 0 (timedelta 25) 10 = Returned windows)
    /\ forall (i : nat) w,
         windows !! i = Some w ->
         w.1 = 0 + Z.of_nat i * timedelta 10
         /\ w.2 = Z.min (0 + (Z.of_nat i + 1) * timedelta 10) (timedelta 25)
         /\ ((S i < length windows)%nat -> w.2 - w.1 = timedelta 10).
Proof.
  apply (generate_time_windows_nth 0 (timedelta 25) 10);
    vm_compute; try reflexivity; try (split; intros; discriminate);
    intros; discriminate.
Defined.

(** * More on the blackout window *)

Lemma clock_of_parts h m s us :
  0 <= m < 60 -> 0 <= s < 60 -> 0 <= us < 1000000 ->
  minute (((h * 60 + m) * 60 + s) * 1000000 + us) = m
  /\ second (((h * 60 + m) * 60 + s) * 1000000 + us) = s.
Proof.
  intros Hm Hs Hus. unfold minute, second. split.
  - assert ((((h * 60 + m) * 60 + s) * 1000000 + us) / 60000000 = h * 60 + m)
      as ->.
    { symmetry. apply (Z.div_unique _ _ _ (s * 1000000 + us)); lia. }
    symmetry. apply (Z.mod_unique _ _ h); lia.
  - assert ((((h * 60 + m) * 60 + s) * 1000000 + us) / 1000000
            = (h * 60 + m) * 60 + s) as ->.
    { symmetry. apply (Z.div_unique _ _ _ us); lia. }
    symmetry. apply (Z.mod_unique _ _ (h * 60 + m)); lia.
Qed.

Lemma clock_decompose now :
  exists h m s us,
    now = ((h * 60 + m) * 60 + s) * 1000000 + us
    /\ 0 <= m < 60 /\ 0 <= s < 60 /\ 0 <= us < 1000000.
Proof.
  exists (now / 1000000 / 60 / 60), ((now / 1000000 / 60) mod 60),
    ((now / 1000000) mod 60), (now mod 1000000).
  pose proof (Z.mod_pos_bound (now / 1000000 / 60) 60).
  pose proof (Z.mod_pos_bound (now / 1000000) 60).
  pose proof (Z.mod_pos_bound now 1000000).
  pose proof (Z.div_mod now 1000000).
  pose proof (Z.div_mod (now / 1000000) 60).
  pose proof (Z.div_mod (now / 1000000 / 60) 60).
  repeat split; lia.
Qed.

Lemma blocked_of_parts h m s us mb ma :
  0 <= m < 60 -> 0 <= s < 60 -> 0 <= us < 1000000 ->
  V1.is_in_blocked_time_window
    (((h * 60 + m) * 60 + s) * 1000000 + us) mb ma
  = (60 - mb <=? m) || (m <=? ma).
Proof.
  intros Hm Hs Hus. unfold V1.is_in_blocked_time_window.
  destruct (clock_of_parts h m s us Hm Hs Hus) as [-> _].
  by destruct ((60 - mb <=? m) || (m <=? ma)).
Qed.

(** X3. At a blocked instant the countdown shown by the waiting screen is
    exact: it is positive, it ends at second 0 of minute
    [minutes_after + 1], that instant is not blocked, and every whole
    second before it is. *)
Theorem seconds_until_safe_exact now minutes_before minutes_after :
  0 <= minutes_before -> 0 <= minutes_after ->
  minutes_after + 1 < 60 - minutes_before ->
  V1.is_in_blocked_time_window now minutes_before minutes_after = true ->
  let wait := V1.seconds_until_safe now minutes_before minutes_after in
  0 < wait
  /\ minute (now + timedelta wait) = minutes_after + 1
  /\ second (now + timedelta wait) = 0
  /\ V1.is_in_blocked_time_window (now + timedelta wait)
       minutes_before minutes_after = false
  /\ (forall s, 0 <= s < wait ->
        V1.is_in_blocked_time_window (now + timedelta s)
          minutes_before minutes_after = true).
Proof.
  intros Hmb Hma Hgap Hblocked wait.
  destruct (clock_decompose now) as (h & m & s & us & -> & Hm & Hs & Hus).
  rewrite blocked_of_parts in Hblocked by done.
  unfold wait, V1.seconds_until_safe.
  destruct (clock_of_parts h m s us Hm Hs Hus) as [-> ->].
  unfold timedelta.
  destruct (m <=? minutes_after) eqn:E.
  - apply Z.leb_le in E.
    replace (((h * 60 + m) * 60 + s) * 1000000 + us
             + ((minutes_after - m + 1) * 60 - s) * 1000000)
      with (((h * 60 + (minutes_after + 1)) * 60 + 0) * 1000000 + us) by lia.
    destruct (clock_of_parts h (minutes_after + 1) 0 us) as [-> ->]; try lia.
    rewrite blocked_of_parts by lia.
    repeat split; try lia.
    intros x Hx.
      replace (((h * 60 + m) * 60 + s) * 1000000 + us + x * 1000000)
        with (((h * 60 + (m + (s + x) / 60)) * 60 + (s + x) mod 60) * 1000000
              + us)
        by (pose proof (Z.div_mod (s + x) 60); lia).
      pose proof (Z.mod_pos_bound (s + x) 60).
      assert (0 <= (s + x) / 60) by (apply Z.div_pos; lia).
      assert ((s + x) / 60 < minutes_after - m + 1)
        by (apply Z.div_lt_upper_bound; lia).
      rewrite blocked_of_parts by lia.
      apply orb_true_iff. right. apply Z.leb_le. lia.
  - apply Z.leb_gt in E. rewrite orb_false_r in Hblocked.
    apply Z.leb_le in Hblocked.
    replace (((h * 60 + m) * 60 + s) * 1000000 + us
             + ((60 - m + minutes_after + 1) * 60 - s) * 1000000)
      with ((((h + 1) * 60 + (minutes_after + 1)) * 60 + 0) * 1000000 + us)
      by lia.
    destruct (clock_of_parts (h + 1) (minutes_after + 1) 0 us) as [-> ->];
      try lia.
    rewrite blocked_of_parts by lia.
    repeat split; try lia.
    intros x Hx.
      pose proof (Z.mod_pos_bound (s + x) 60).
      assert (0 <= (s + x) / 60) by (apply Z.div_pos; lia).
      assert ((s + x) / 60 < 60 - m + minutes_after + 1)
        by (apply Z.div_lt_upper_bound; lia).
      destruct (Z_lt_le_dec (m + (s + x) / 60) 60) as [Hlt|Hge].
      * replace (((h * 60 + m) * 60 + s) * 1000000 + us + x * 1000000)
          with (((h * 60 + (m + (s + x) / 60)) * 60 + (s + x) mod 60) * 1000000
                + us)
          by (pose proof (Z.div_mod (s + x) 60); lia).
        rewrite blocked_of_parts by lia.
        apply orb_true_iff. left. apply Z.leb_le. lia.
      * replace (((h * 60 + m) * 60 + s) * 1000000 + us + x * 1000000)
          with ((((h + 1) * 60 + (m + (s + x) / 60 - 60)) * 60
                 + (s + x) mod 60) * 1000000 + us)
          by (pose proof (Z.div_mod (s + x) 60); lia).
        rewrite blocked_of_parts by lia.
        apply orb_true_iff. right. apply Z.leb_le. lia.
Qed.

Lemma seconds_until_safe_exact_witness :
  let now := 1704067170000000 in
  let wait := V1.seconds_until_safe now 1 2 in
  0 < wait
  /\ minute (now + timedelta wait) = 2 + 1
  /\ second (now + timedelta wait) = 0
  /\ V1.is_in_blocked_time_window (now + timedelta wait) 1 2 = false
  /\ (forall s, 0 <= s < wait ->
        V1.is_in_blocked_time_window (now + timedelta s) 1 2 = true).
Proof.
  apply (seconds_until_safe_exact 1704067170000000 1 2); try lia. reflexivity.
Defined.

(** X4. The blackout test depends on the minute of the hour only: it gives
    the same answer one hour later. *)
Theorem is_in_blocked_time_window_hourly now minutes_before minutes_after :
  V1.is_in_blocked_time_window (now + timedelta 3600)
    minutes_before minutes_after
  = V1.is_in_blocked_time_window now minutes_before minutes_after.
Proof.
  unfold V1.is_in_blocked_time_window.
  assert (minute (now + timedelta 3600) = minute now) as ->; [|done].
  unfold minute, timedelta.
  replace (now + 3600 * 1000000) with (now + 60 * 60000000) by lia.
  rewrite Z.div_add by lia.
  replace (now / 60000000 + 60) with (now / 60000000 + 1 * 60) by lia.
  apply Z_mod_plus_full.
Qed.

(** * Durations *)

Lemma last_char_snoc s c : Py.last_char (s ++ String c "")%string = Some c.
Proof.
  induction s as [|a s IH]; [done|].
  change (String a s ++ String c "")%string
    with (String a (s ++ String c "")%string).
  simpl. rewrite IH. by destruct s.
Qed.

Lemma drop_last_snoc s c : Py.drop_last (s ++ String c "")%string = s.
Proof.
  induction s as [|a s IH]; [done|].
  change (String a s ++ String c "")%string
    with (String a (s ++ String c "")%string).
  simpl. rewrite IH. by destruct s.
Qed.

(** X5. [parse_duration_to_seconds] reads the number before the final
    character and multiplies it by the unit that character names; a final
    character that is no unit counts as hours (so a bare number loses its
    last digit and is read in hours); the empty string raises. *)
Theorem parse_duration_to_seconds_units :
  forall int : string -> option Z,
    (forall s c,
       parse_duration_to_seconds int (s ++ String c "")%string
       = (fun value => value * default 3600 (multipliers c)) <$> int s)
    /\ (forall s c,
          multipliers c = None ->
          parse_duration_to_seconds int (s ++ String c "")%string
          = parse_duration_to_seconds int (s ++ "h")%string)
    /\ parse_duration_to_seconds int "" = None.
Proof.
  intros int.
  assert (H : forall s c,
             parse_duration_to_seconds int (s ++ String c "")%string
             = (fun value => value * default 3600 (multipliers c)) <$> int s).
  { intros s c. unfold parse_duration_to_seconds.
    rewrite last_char_snoc, drop_last_snoc. simpl. by destruct (int s). }
  split; [done|]. split; [|done].
  intros s c Hc. rewrite !H, Hc. done.
Qed.

Lemma parse_duration_to_seconds_units_witness :
  parse_duration_to_seconds (Iso.number 0 ∘ list_ascii_of_string)
    ("9" ++ String "0" "")%string
  = parse_duration_to_seconds (Iso.number 0 ∘ list_ascii_of_string)
      ("9" ++ "h")%string.
Proof.
  apply (proj1 (proj2 (parse_duration_to_seconds_units
                         (Iso.number 0 ∘ list_ascii_of_string))) "9" "0"%char).
  reflexivity.
Defined.

(** * More on user identity *)

Lemma rcut_some c s h t :
  Py.rcut c s = Some (h, t) ->
  s = (h ++ String c t)%string /\ Py.contains c t = false.
Proof.
  revert h t. induction s as [|a s IH]; intros h t; simpl; [done|].
  destruct (Py.rcut c s) as [[h' t']|] eqn:E.
  - intros [= <- <-]. destruct (IH _ _ eq_refl) as [-> Ht]. done.
  - destruct (Ascii.eqb a c) eqn:Ea; [|done]. intros [= <- <-].
    apply Ascii.eqb_eq in Ea as ->. split; [done|].
    clear IH. induction s as [|b s IHs]; [done|]. simpl in E |- *.
    destruct (Py.rcut c s) as [[? ?]|]; [done|].
    destruct (Ascii.eqb b c); [done|]. simpl. by apply IHs.
Qed.

Lemma startswith_jupyter_app s : Py.startswith "jupyter-" ("jupyter-" ++ s) = true.
Proof. unfold Py.startswith. simpl. by destruct s. Qed.

(** The user identifier both importers cut out of a pod name. *)
Lemma username_of_convention user suffix :
  Py.contains "-" suffix = false ->
  Py.rsplit1 "-" (Py.drop 8 ("jupyter-" ++ user ++ String "-" suffix)%string)
  = [user; suffix].
Proof.
  intros Hs.
  change (Py.drop 8 ("jupyter-" ++ user ++ String "-" suffix)%string)
    with (user ++ String "-" suffix)%string.
  unfold Py.rsplit1. by rewrite rcut_last.
Qed.

(** X6. For a pod named ["jupyter-<user>-<suffix>"] whose suffix has no
    hyphen, both importers take [<user>] (hyphens included) as the user
    identifier: the e-mail is [<user>] followed by the importer's domain and
    the display name is the title-cased [<user>] with hyphens turned into
    spaces.  When nothing follows the prefix but a hyphen-free word, that
    whole word is the user identifier, in both importers again. *)
Theorem extract_user_info_convention :
  (forall user suffix,
     Py.contains "-" suffix = false ->
     V1.extract_user_info_from_pod_name
       ("jupyter-" ++ user ++ String "-" suffix)%string
     = {| email := (user ++ "@illinois.edu")%string;
          name := Py.title (Py.replace "-" " " user) |}
     /\ V2.extract_user_info_from_pod_name
          ("jupyter-" ++ user ++ String "-" suffix)%string
        = {| email := (user ++ "@ilinois.edu")%string;
             name := Py.title (Py.replace "-" " " user) |})
  /\ (forall word,
        Py.contains "-" word = false ->
        V1.extract_user_info_from_pod_name ("jupyter-" ++ word)%string
        = {| email := (word ++ "@illinois.edu")%string;
             name := Py.title word |}
        /\ V2.extract_user_info_from_pod_name ("jupyter-" ++ word)%string
           = {| email := (word ++ "@ilinois.edu")%string;
                name := Py.title word |}).
Proof.
  split.
  - intros user suffix Hs.
    unfold V1.extract_user_info_from_pod_name,
      V2.extract_user_info_from_pod_name.
    rewrite startswith_jupyter_app, (username_of_convention _ _ Hs). done.
  - intros word Hw.
    assert (Hr : Py.replace "-" " " word = word).
    { clear -Hw. induction word as [|a w IH]; [done|]. simpl in Hw |- *.
      apply orb_false_iff in Hw as [-> Hw]. by rewrite IH. }
    unfold V1.extract_user_info_from_pod_name,
      V2.extract_user_info_from_pod_name.
    rewrite startswith_jupyter_app.
    change (Py.drop 8 ("jupyter-" ++ word)%string) with word.
    unfold Py.rsplit1. rewrite (rcut_none _ _ Hw).
    change (("jupyter-" ++ word)%string =? "")%string with false.
    cbv iota. rewrite Hr. done.
Qed.

Lemma extract_user_info_convention_witness :
  (V1.extract_user_info_from_pod_name
     ("jupyter-" ++ "john-doe" ++ String "-" "x7k2")%string
  = {| email := ("john-doe" ++ "@illinois.edu")%string;
       name := Py.title (Py.replace "-" " " "john-doe") |}
  /\ V2.extract_user_info_from_pod_name
       ("jupyter-" ++ "john-doe" ++ String "-" "x7k2")%string
     = {| email := ("john-doe" ++ "@ilinois.edu")%string;
          name := Py.title (Py.replace "-" " " "john-doe") |})
  /\ (V1.extract_user_info_from_pod_name ("jupyter-" ++ "alice")%string
      = {| email := ("alice" ++ "@illinois.edu")%string;
           name := Py.title "alice" |}
      /\ V2.extract_user_info_from_pod_name ("jupyter-" ++ "alice")%string
         = {| email := ("alice" ++ "@ilinois.edu")%string;
              name := Py.title "alice" |}).
Proof.
  split.
  - apply (proj1 extract_user_info_convention "john-doe" "x7k2"). reflexivity.
  - apply (proj2 extract_user_info_convention "alice"). reflexivity.
Defined.

(** * Image references *)

Lemma rcut_of_contains c s :
  Py.contains c s = true -> exists h t, Py.rcut c s = Some (h, t).
Proof.
  induction s as [|a s IH]; simpl; [done|].
  intros H. destruct (Py.rcut c s) as [[h t]|] eqn:E; [eauto|].
  apply orb_true_iff in H as [-> | H]; [eauto|].
  destruct (IH H) as (? & ? & ?). done.
Qed.

Lemma split_nonempty c s : Py.split c s <> [].
Proof.
  destruct s as [|a s]; simpl; [done|].
  destruct (Ascii.eqb a c); [done|]. by destruct (Py.split c s).
Qed.

Lemma split_no_sep c s : Py.contains c s = false -> Py.split c s = [s].
Proof.
  induction s as [|a s IH]; simpl; [done|].
  intros H. apply orb_false_iff in H as [-> H]. by rewrite (IH H).
Qed.

Lemma split_sep c s :
  Py.contains c s = true -> exists h g t, Py.split c s = h :: g :: t.
Proof.
  induction s as [|a s IH]; simpl; [done|]. intros H.
  destruct (Ascii.eqb a c) eqn:Ea.
  - pose proof (split_nonempty c s).
    destruct (Py.split c s) as [|g t]; [done|]. eauto.
  - simpl in H. destruct (IH H) as (h & g & t & ->). eauto.
Qed.

Lemma split_last_cons c a s d :
  List.last (Py.split c (String a s)) d
  = if Ascii.eqb a c || Py.contains c s
    then List.last (Py.split c s) d
    else String a s.
Proof.
  simpl. destruct (Ascii.eqb a c) eqn:Ea; simpl.
  - pose proof (split_nonempty c s). by destruct (Py.split c s).
  - destruct (Py.contains c s) eqn:Es.
    + by destruct (split_sep _ _ Es) as (h & g & t & ->).
    + by rewrite (split_no_sep _ _ Es).
Qed.

(** The last field of [s.split(c)] has no [c], and [s] is that field after
    a prefix that is empty or ends with [c]. *)
Lemma split_last c s d :
  Py.contains c (List.last (Py.split c s) d) = false
  /\ exists p,
       s = (p ++ List.last (Py.split c s) d)%string
       /\ (p = "" \/ exists p', p = (p' ++ String c "")%string).
Proof.
  induction s as [|a s IH].
  - split; [done|]. exists "". auto.
  - rewrite split_last_cons. destruct IH as (Hno & p & Hs & Hp).
    destruct (Ascii.eqb a c) eqn:Ea; simpl orb; cbv iota.
    + apply Ascii.eqb_eq in Ea as ->. split; [done|].
      exists (String c p). split; [rewrite Hs at 1; reflexivity|].
      right. destruct Hp as [-> | (p' & ->)]; [by exists ""|].
      by exists (String c p').
    + destruct (Py.contains c s) eqn:Es.
      * split; [done|]. destruct Hp as [-> | (p' & ->)].
        -- change (s = List.last (Py.split c s) d) in Hs.
           rewrite <- Hs in Hno. congruence.
        -- exists (String a (p' ++ String c "")).
           split; [rewrite Hs at 1; reflexivity|]. right. by exists (String a p').
      * split; [simpl; by rewrite Ea, Es|]. exists "". auto.
Qed.

Lemma str_app_assoc (a b c : string) :
  ((a ++ b) ++ c = a ++ (b ++ c))%string.
Proof.
  induction a as [|x a IH]; [done|].
  change (String x ((a ++ b) ++ c)%string = String x (a ++ (b ++ c))%string).
  by rewrite IH.
Qed.

Lemma str_app_nil_r (a : string) : (a ++ "")%string = a.
Proof.
  induction a as [|x a IH]; [done|].
  change (String x (a ++ "")%string = String x a). by rewrite IH.
Qed.

(** X7. The base name that [extract_container_info] returns never contains
    a slash and the version never contains a colon; without a colon in the
    reference the version is ["latest"]. *)
Theorem extract_container_info_separators img :
  Py.contains "/" (base (extract_container_info img)) = false
  /\ Py.contains ":" (version (extract_container_info img)) = false
  /\ (Py.contains ":" img = false ->
        version (extract_container_info img) = "latest").
Proof.
  unfold extract_container_info.
  destruct (Py.contains ":" img) eqn:Ec.
  - destruct (rcut_of_contains _ _ Ec) as (h & t & Hcut).
    unfold Py.rsplit1. rewrite Hcut.
    destruct (rcut_some _ _ _ _ Hcut) as [_ Ht]. simpl.
    split; [|split; [done | done]].
    destruct (Py.contains "/" h) eqn:Eh; [|done].
    apply split_last.
  - simpl. split; [|split; done].
    destruct (Py.contains "/" img) eqn:Eh; [|done].
    apply split_last.
Qed.

Lemma extract_container_info_separators_witness :
  version (extract_container_info "image") = "latest".
Proof.
  apply (proj2 (proj2 (extract_container_info_separators "image"))).
  reflexivity.
Defined.

(** X8. [extract_container_info] loses nothing but the registry path: the
    image reference is a prefix that is empty or ends with a slash, then
    the base name, then (when the reference has a colon) a colon and the
    version. *)
Theorem extract_container_info_recompose img :
  exists p,
    (p = "" \/ exists p', p = (p' ++ String "/" "")%string)
    /\ img = (p ++ base (extract_container_info img)
                ++ (if Py.contains ":" img
                    then String ":" (version (extract_container_info img))
                    else ""))%string.
Proof.
  unfold extract_container_info.
  destruct (Py.contains ":" img) eqn:Ec.
  - destruct (rcut_of_contains _ _ Ec) as (h & t & Hcut).
    unfold Py.rsplit1. rewrite Hcut.
    destruct (rcut_some _ _ _ _ Hcut) as [Himg _]. simpl.
    destruct (Py.contains "/" h) eqn:Eh.
    + destruct (split_last "/" h h) as (_ & p & Hh & Hp).
      exists p. split; [done|].
      rewrite <- str_app_assoc, <- Hh. done.
    + exists "". auto.
  - simpl. destruct (Py.contains "/" img) eqn:Eh.
    + destruct (split_last "/" img img) as (_ & p & Hh & Hp).
      exists p. split; [done|]. by rewrite str_app_nil_r.
    + exists "". split; [auto|]. by rewrite str_app_nil_r.
Qed.

(** * More on the v1 normalizer *)

Section V1More.

Variable fromisoformat : string -> option Z.

Import V1Spec.

Lemma first_occurrence_exists l : forall r k,
  r ∈ l -> dedup_key r = Some k ->
  exists r', r' ∈ first_occurrences l /\ dedup_key r' = Some k.
Proof.
  induction l as [|x l IH] using rev_ind; intros r k Hr Hk.
  - by apply elem_of_nil in Hr.
  - rewrite first_occurrences_snoc.
    destruct (decide (Some k ∈ dedup_key <$> l)) as [Hin|Hnot].
    + apply list_elem_of_fmap in Hin as (r0 & Hk0 & Hr0).
      destruct (IH r0 k Hr0 (eq_sym Hk0)) as (r' & Hr' & Hk').
      exists r'. rewrite elem_of_app. auto.
    + apply elem_of_app in Hr as [Hr|Hr].
      * exfalso. apply Hnot. apply list_elem_of_fmap. eauto.
      * apply list_elem_of_singleton in Hr as ->. exists x.
        unfold is_first. rewrite Hk, bool_decide_eq_true_2 by done.
        rewrite elem_of_app, list_elem_of_singleton. auto.
Qed.

Lemma length_filter_singleton {A} (P : A -> Prop) `{!forall x, Decision (P x)}
    (x : A) :
  (P x -> length (filter P [x]) = 1%nat)
  /\ (~ P x -> length (filter P [x]) = 0%nat).
Proof.
  rewrite filter_cons, filter_nil. split; intros HP; case_decide; done.
Qed.

Lemma transform_record_counters records st r st' :
  V1.transform_record fromisoformat records st r = Some st' ->
  V1.skipped_no_pod_name st'
  = V1.skipped_no_pod_name st + Z.of_nat (length (V1Count.no_pod_name [r]))
  /\ V1.skipped_not_jupyter st'
     = V1.skipped_not_jupyter st + Z.of_nat (length (V1Count.not_target [r])).
Proof.
  unfold V1Count.no_pod_name, V1Count.not_target.
  match goal with
  | |- _ -> _ = _ + Z.of_nat (length (filter ?P _)) /\
            _ = _ + Z.of_nat (length (filter ?Q _)) =>
      destruct (length_filter_singleton P r) as [Hp1 Hp0];
      destruct (length_filter_singleton Q r) as [Hq1 Hq0]
  end.
  cbv beta in Hp1, Hp0, Hq1, Hq0.
  unfold V1.transform_record.
  destruct (Py.truthy (V1.time r)) eqn:Etime; simpl negb; cbv iota.
  2:{ intros [= <-]. rewrite Hp0, Hq0 by (intros [? ?]; done). lia. }
  destruct (V1.parse_timestamp fromisoformat _) as [t|]; simpl mbind; [|done].
  destruct (String.eqb _ "unknown") eqn:Eunk.
  { apply String.eqb_eq in Eunk. intros [= <-]. simpl.
    rewrite Hp1 by done. rewrite Hq0 by (intros (_ & ? & _); done). lia. }
  apply String.eqb_neq in Eunk.
  destruct (Py.startswith "jupyter-" _) eqn:Epre; simpl negb; cbv iota.
  2:{ intros [= <-]. simpl.
      rewrite Hp0 by (intros [_ ?]; done). rewrite Hq1 by done. lia. }
  rewrite Hp0 by (intros [_ ?]; done).
  rewrite Hq0 by (intros (_ & _ & ?); done).
  case_decide.
  - intros [= <-]. lia.
  - destruct (V1.estimate_pod_age fromisoformat _ _ _); simpl; [|done].
    intros [= <-]. simpl. lia.
Qed.

Lemma transform_loop_counters records : forall todo st st',
  V1.transform_loop fromisoformat records st todo = Some st' ->
  V1.skipped_no_pod_name st'
  = V1.skipped_no_pod_name st + Z.of_nat (length (V1Count.no_pod_name todo))
  /\ V1.skipped_not_jupyter st'
     = V1.skipped_not_jupyter st + Z.of_nat (length (V1Count.not_target todo)).
Proof.
  induction todo as [|r todo IH]; intros st st' H; simpl in H.
  - simplify_eq. simpl. lia.
  - destruct (V1.transform_record fromisoformat records st r) as [st1|] eqn:E;
      simpl in H; [|done].
    destruct (transform_record_counters _ _ _ _ E) as (H1 & H2).
    destruct (IH _ _ H) as (H3 & H4).
    change (r :: todo) with ([r] ++ todo).
    unfold V1Count.no_pod_name, V1Count.not_target in *.
    rewrite !filter_app, !length_app. lia.
Qed.

Lemma first_occurrences_size l :
  length (first_occurrences l)
  = size (list_to_set (omap dedup_key l) : gset (string * string)).
Proof.
  induction l as [|x l IH] using rev_ind; [done|].
  rewrite first_occurrences_snoc, omap_app, list_to_set_app_L, length_app, IH.
  unfold is_first. simpl omap. destruct (dedup_key x) as [k|] eqn:Ek.
  - simpl list_to_set. rewrite union_empty_r_L.
    destruct (decide (Some k ∈ dedup_key <$> l)) as [Hin|Hnot].
    + rewrite bool_decide_eq_false_2 by (intros Hn; by apply Hn). simpl.
      apply seen_key_elem in Hin.
      rewrite union_comm_L, (subseteq_union_1_L {[k]}) by set_solver. lia.
    + rewrite bool_decide_eq_true_2 by done. simpl.
      rewrite size_union, size_singleton; [lia|].
      rewrite <- seen_key_elem in Hnot. set_solver.
  - simpl. rewrite union_empty_r_L. lia.
Qed.

End V1More.

(** X9. A sample without timestamp is not always skipped: when the batch
    also has a sample with a timestamp for the same prefixed pod name, the
    v1 [transform_records] raises instead of returning. *)
Theorem transform_records_raises_on_missing_time
    fromisoformat records r1 r2 pod :
  r1 ∈ records -> r2 ∈ records ->
  Py.truthy (V1.time r1) = true ->
  V1.pod_name r1 = Some pod -> Py.startswith "jupyter-" pod = true ->
  V1.pod_name r2 = Some pod -> V1.time r2 = None ->
  V1.transform_records fromisoformat records = None.
Proof.
  intros Hr1 Hr2 Ht1 Hp1 Hpre Hp2 Ht2.
  destruct (V1.transform_records fromisoformat records) as [[out st]|] eqn:E;
    [exfalso | done].
  destruct (transform_records_inv _ _ _ _ E) as (Hf & _).
  destruct (V1.time r1) as [ts1|] eqn:Ets1; [|done].
  assert (Hk : V1Spec.dedup_key r1 = Some (pod, ts1)).
  { apply dedup_key_some. rewrite Ets1. done. }
  destruct (first_occurrence_exists _ _ _ Hr1 Hk) as (r' & Hr' & Hk').
  apply dedup_key_some in Hk' as (Ht' & Hp' & _ & _).
  apply list_elem_of_lookup in Hr' as [i Hi].
  destruct (Forall2_lookup_l _ _ _ _ _ Hf Hi) as (o & _ & He).
  destruct He as (ts & Hts & Hparse & Hpod & _ & _ & _ & _ & _ & _ & Hage).
  assert (Hin : r' ∈ records).
  { apply first_occurrences_subset. by eapply list_elem_of_lookup_2. }
  destruct (estimate_pod_age_earliest _ _ _ _ _ _ _ Hage Hparse Hin Hpod)
    as (e & (_ & Hall) & _).
  assert (Hsame : o_pod_name o = pod) by congruence.
  rewrite Hsame in Hall.
  destruct (Hall r2 Hr2 Hp2) as (t & Hrt & _).
  unfold V1.record_time in Hrt. rewrite Ht2 in Hrt. done.
Qed.

Lemma transform_records_raises_on_missing_time_witness :
  V1.transform_records Iso.fromisoformat
    [Scenario.v1_unknown_tag; Scenario.v1_no_time] = None.
Proof.
  apply (transform_records_raises_on_missing_time Iso.fromisoformat
           [Scenario.v1_unknown_tag; Scenario.v1_no_time]
           Scenario.v1_unknown_tag Scenario.v1_no_time Scenario.bob);
    try reflexivity.
  - apply elem_of_cons. by left.
  - apply elem_of_cons. right. apply elem_of_cons. by left.
Defined.

(** X10. What the two skip counters of the v1 normalizer count:
    [skipped_no_pod_name] the samples with a timestamp whose pod name is
    missing, empty or ["unknown"], [skipped_not_jupyter] the samples with a
    timestamp and another pod name that lacks the prefix. *)
Theorem transform_records_skip_counters fromisoformat records out st :
  V1.transform_records fromisoformat records = Some (out, st) ->
  V1.s_skipped_no_pod_name st
  = Z.of_nat (length (V1Count.no_pod_name records))
  /\ V1.s_skipped_not_jupyter st
     = Z.of_nat (length (V1Count.not_target records)).
Proof.
  unfold V1.transform_records. intros H.
  destruct (V1.transform_loop fromisoformat records V1.init_state records)
    as [s|] eqn:E; simpl in H; [|done].
  simplify_eq. simpl.
  destruct (transform_loop_counters _ _ _ _ _ E) as (H1 & H2).
  simpl in H1, H2. lia.
Qed.

Lemma transform_records_skip_counters_witness :
  exists out st,
    V1.transform_records Iso.fromisoformat Scenario.v1_batch = Some (out, st)
    /\ V1.s_skipped_no_pod_name st
       = Z.of_nat (length (V1Count.no_pod_name Scenario.v1_batch))
    /\ V1.s_skipped_not_jupyter st
       = Z.of_nat (length (V1Count.not_target Scenario.v1_batch)).
Proof.
  eexists _, _. split; [vm_compute; reflexivity|].
  eapply (transform_records_skip_counters Iso.fromisoformat Scenario.v1_batch).
  vm_compute; reflexivity.
Defined.

(** X11. The v1 normalizer emits exactly one observation per distinct
    [(pod_name, timestamp string)] key among the samples with a timestamp
    and a prefixed pod name. *)
Theorem transform_records_one_per_key fromisoformat records out st :
  V1.transform_records fromisoformat records = Some (out, st) ->
  length out
  = size (list_to_set (omap V1Spec.dedup_key records) : gset (string * string)).
Proof.
  intros H. destruct (transform_records_inv _ _ _ _ H) as (Hf & _).
  rewrite <- (Forall2_length _ _ _ Hf). apply first_occurrences_size.
Qed.

Lemma transform_records_one_per_key_witness :
  exists out st,
    V1.transform_records Iso.fromisoformat Scenario.v1_batch = Some (out, st)
    /\ length out
       = size (list_to_set (omap V1Spec.dedup_key Scenario.v1_batch)
                 : gset (string * string)).
Proof.
  eexists _, _. split; [vm_compute; reflexivity|].
  eapply (transform_records_one_per_key Iso.fromisoformat Scenario.v1_batch).
  vm_compute; reflexivity.
Defined.

(** * Ages, the v2 output and the aggregator *)

(** X12. In both importers [age_seconds] is never negative, and it is 0 for
    an observation whose timestamp is the earliest of its pod in the
    batch. *)
Theorem age_seconds_nonnegative :
  (forall fromisoformat records out st o,
     V1.transform_records fromisoformat records = Some (out, st) ->
     o ∈ out ->
     0 <= o_age_seconds o
     /\ (earliest_time V1.pod_name (V1.record_time fromisoformat) records
           (o_pod_name o) (o_timestamp o) ->
         o_age_seconds o = 0))
  /\ (forall records o,
        o ∈ V2.transform_records records ->
        0 <= o_age_seconds o
        /\ (earliest_time (fun r => Some (V2.pod_name r))
              (fun r => Some (V2.time r)) records
              (o_pod_name o) (o_timestamp o) ->
            o_age_seconds o = 0)).
Proof.
  split.
  - intros fromisoformat records out st o H Ho.
    destruct (transform_records_emitted _ _ _ _ _ H Ho)
      as (r & Hr & ts & Ht & Hparse & Hpod & _ & _ & _ & _ & _ & _ & Hage).
    destruct (estimate_pod_age_earliest _ _ _ _ _ _ _ Hage Hparse Hr Hpod)
      as (e & He & ->).
    split.
    + destruct He as (_ & Hall). destruct (Hall r Hr Hpod) as (t & Hrt & Hle).
      unfold V1.record_time in Hrt. rewrite Ht in Hrt. simpl in Hrt.
      rewrite Hparse in Hrt. simplify_eq.
      apply total_seconds_int_nonneg. lia.
    + intros He'. rewrite (earliest_time_unique _ _ _ _ _ _ He He').
      by rewrite Z.sub_diag.
  - intros records o Ho.
    destruct (v2_age_earliest _ _ Ho) as (e & He & ->).
    apply v2_transform_records_elem in Ho as (r & Hr & Ho).
    apply v2_transform_record_age in Ho as (Hp & Ht & _).
    split.
    + destruct He as (_ & Hall).
      destruct (Hall r Hr) as (t & Hrt & Hle); [by rewrite Hp|].
      simplify_eq. apply total_seconds_int_nonneg. lia.
    + intros He'. rewrite (earliest_time_unique _ _ _ _ _ _ He He').
      by rewrite Z.sub_diag.
Qed.

Lemma age_seconds_nonnegative_witness :
  exists out st,
    V1.transform_records Iso.fromisoformat Scenario.v1_batch = Some (out, st)
    /\ forall o, o ∈ out -> 0 <= o_age_seconds o.
Proof.
  eexists _, _. split; [vm_compute; reflexivity|].
  intros o Ho.
  eapply (proj1 age_seconds_nonnegative Iso.fromisoformat Scenario.v1_batch);
    [vm_compute; reflexivity | exact Ho].
Defined.

Lemma v2_transform_record_running pfs r :
  (V2Spec.is_running r ->
   exists o, V2.transform_record pfs r = Some o
             /\ o_pod_name o = V2.pod_name r /\ o_timestamp o = V2.time r)
  /\ (~ V2Spec.is_running r -> V2.transform_record pfs r = None).
Proof.
  unfold V2Spec.is_running, V2.transform_record. split.
  - intros Hrun.
    assert ((negb (Py.lower (default "" (V2.state r)) =? "running")%string
             && negb (Py.lower (default "" (V2.phase r)) =? "running")%string)
            = false) as ->.
    { destruct Hrun as [-> | ->]; simpl; [done | by rewrite andb_false_r]. }
    eexists. split; [done|]. done.
  - intros Hnot.
    destruct (String.eqb_spec (Py.lower (default "" (V2.state r))) "running")
      as [Hs|Hs]; [tauto|].
    destruct (String.eqb_spec (Py.lower (default "" (V2.phase r))) "running")
      as [Hp|Hp]; [tauto|]. done.
Qed.

(** X13. The v2 normalizer neither deduplicates nor reorders: its output
    is, in input order, one observation per sample whose state or phase is
    running, with that sample's pod name and timestamp. *)
Theorem v2_transform_records_keeps_every_running_sample records :
  (fun o => (o_pod_name o, o_timestamp o)) <$> V2.transform_records records
  = (fun r => (V2.pod_name r, V2.time r)) <$> filter V2Spec.is_running records.
Proof.
  unfold V2.transform_records. generalize (V2.first_pass records) as pfs.
  intros pfs. induction records as [|r l IH]; [done|].
  rewrite filter_cons.
  change (omap (V2.transform_record pfs) (r :: l))
    with (match V2.transform_record pfs r with
          | Some y => y :: omap (V2.transform_record pfs) l
          | None => omap (V2.transform_record pfs) l
          end).
  destruct (v2_transform_record_running pfs r) as [Hyes Hno].
  case_decide as Hrun.
  - destruct (Hyes Hrun) as (o & Ho & Hp & Ht).
    rewrite Ho, !fmap_cons, IH, Hp, Ht. done.
  - rewrite (Hno Hrun). done.
Qed.

(** X14. [extract_users_from_batch] has one entry per e-mail of the batch
    and no other. *)
Theorem extract_users_from_batch_keys obs :
  dom (V1.extract_users_from_batch obs)
  = (list_to_set (o_user_email <$> obs) : gset string).
Proof.
  apply set_eq. intros e.
  rewrite elem_of_dom, elem_of_list_to_set, list_elem_of_fmap.
  pose proof (extract_users_spec obs e) as H.
  destruct (V1.extract_users_from_batch obs !! e) as [u|]; split.
  - intros _. destruct H as ((o & Ho & He & _) & _). eauto.
  - intros _. eauto.
  - intros [? ?]. done.
  - intros (o & -> & Ho). by destruct (H o Ho).
Qed.

Lemma add_user_user_id users o :
  match users !! o_user_email o with
  | Some u =>
      exists u', V1.add_user users o !! o_user_email o = Some u'
                 /\ V1.user_id u' = V1.user_id u
  | None =>
      exists u', V1.add_user users o !! o_user_email o = Some u'
                 /\ V1.user_id u'
                    = if Py.startswith "jupyter-" (o_pod_name o)
                      then match Py.rsplit1 "-" (Py.drop 8 (o_pod_name o)) with
                           | p0 :: _ => p0
                           | [] => "unknown"
                           end
                      else "unknown"
  end.
Proof.
  unfold V1.add_user. cbv zeta.
  destruct (users !! o_user_email o) as [u|];
    eexists; (split; [apply lookup_insert_eq | done]).
Qed.

Lemma v1_email_of_user_id pod :
  Py.startswith "jupyter-" pod = true ->
  email (V1.extract_user_info_from_pod_name pod)
  = ((match Py.rsplit1 "-" (Py.drop 8 pod) with
      | p0 :: _ => p0
      | [] => "unknown"
      end) ++ "@illinois.edu")%string.
Proof.
  intros Hpre. unfold V1.extract_user_info_from_pod_name. rewrite Hpre.
  destruct pod; done.
Qed.

Lemma extract_users_user_id obs :
  Forall (fun o => Py.startswith "jupyter-" (o_pod_name o) = true
                   /\ o_user_email o
                      = email (V1.extract_user_info_from_pod_name (o_pod_name o)))
    obs ->
  forall e u,
    V1.extract_users_from_batch obs !! e = Some u ->
    e = (V1.user_id u ++ "@illinois.edu")%string.
Proof.
  induction obs as [|o obs IH] using rev_ind; intros Hall e u Hu.
  - unfold V1.extract_users_from_batch in Hu. simpl in Hu.
    by rewrite lookup_empty in Hu.
  - apply Forall_app in Hall as [Hall Ho].
    apply Forall_singleton in Ho as [Hpre Hemail].
    rewrite extract_users_snoc in Hu.
    destruct (decide (o_user_email o = e)) as [<-|Hne].
    + pose proof (add_user_user_id (V1.extract_users_from_batch obs) o) as H.
      destruct (V1.extract_users_from_batch obs !! o_user_email o)
        as [u0|] eqn:E0.
      * destruct H as (u' & Hu' & Hid). rewrite Hu in Hu'. simplify_eq.
        rewrite Hid. by apply IH.
      * destruct H as (u' & Hu' & Hid). rewrite Hu in Hu'. simplify_eq.
        rewrite Hid, Hpre, Hemail. by apply v1_email_of_user_id.
    + rewrite add_user_other in Hu by done. by apply IH.
Qed.

(** X15. The user aggregator and the normalizer agree on the identity: for
    the observations that the v1 [transform_records] returns, every entry of
    [extract_users_from_batch] has for key its [user_id] followed by
    ["@illinois.edu"]. *)
Theorem extract_users_from_batch_user_id fromisoformat records out st e u :
  V1.transform_records fromisoformat records = Some (out, st) ->
  V1.extract_users_from_batch out !! e = Some u ->
  e = (V1.user_id u ++ "@illinois.edu")%string.
Proof.
  intros H Hu. eapply extract_users_user_id; [|exact Hu].
  apply Forall_forall. intros o Ho.
  destruct (transform_records_emitted _ _ _ _ _ H Ho)
    as (r & _ & ts & _ & _ & _ & Hpre & Hemail & _). done.
Qed.

Lemma extract_users_from_batch_user_id_witness :
  exists out st u,
    V1.transform_records Iso.fromisoformat Scenario.v1_batch = Some (out, st)
    /\ V1.extract_users_from_batch out !! "bob@illinois.edu" = Some u
    /\ "bob@illinois.edu" = (V1.user_id u ++ "@illinois.edu")%string.
Proof.
  eexists _, _, _. split; [vm_compute; reflexivity|].
  split; [vm_compute; reflexivity|].
  eapply (extract_users_from_batch_user_id Iso.fromisoformat Scenario.v1_batch);
    vm_compute; reflexivity.
Defined.

(** * The sink *)

Lemma insert_sql_keep table o k x :
  table !! k = Some x -> V1.insert_sql table o !! k = Some x.
Proof.
  intros H. unfold V1.insert_sql.
  destruct (table !! V1.observation_key o) eqn:E; [done|].
  rewrite lookup_insert_ne; [done|]. intros <-. congruence.
Qed.

Lemma insert_sql_dom table o :
  dom (V1.insert_sql table o) = dom table ∪ {[V1.observation_key o]}.
Proof.
  unfold V1.insert_sql. destruct (table !! V1.observation_key o) eqn:E.
  - apply (elem_of_dom_2 table) in E. set_solver.
  - rewrite dom_insert_L. set_solver.
Qed.

Lemma foldl_insert_keep l : forall table k x,
  table !! k = Some x -> foldl V1.insert_sql table l !! k = Some x.
Proof.
  induction l as [|o l IH]; intros table k x H; simpl; [done|].
  apply IH. by apply insert_sql_keep.
Qed.

Lemma foldl_insert_dom l : forall table,
  dom (foldl V1.insert_sql table l)
  = dom table ∪ list_to_set (V1.observation_key <$> l).
Proof.
  induction l as [|o l IH]; intros table; simpl.
  - set_solver.
  - rewrite IH, insert_sql_dom. set_solver.
Qed.

Lemma foldl_insert_from l : forall table k x,
  foldl V1.insert_sql table l !! k = Some x ->
  table !! k = Some x \/ (x ∈ l /\ V1.observation_key x = k).
Proof.
  induction l as [|o l IH]; intros table k x H; simpl in H; [by left|].
  destruct (IH _ _ _ H) as [Hk|[Hin Hk]].
  - unfold V1.insert_sql in Hk.
    destruct (table !! V1.observation_key o) eqn:E; [by left|].
    destruct (decide (V1.observation_key o = k)) as [<-|Hne].
    + rewrite lookup_insert_eq in Hk. simplify_eq.
      right. split; [apply elem_of_cons; by left | done].
    + rewrite lookup_insert_ne in Hk by done. by left.
  - right. split; [apply elem_of_cons; by right | done].
Qed.

Lemma foldl_insert_fixed l : forall table,
  Sink.obs_covered table l -> foldl V1.insert_sql table l = table.
Proof.
  induction l as [|o l IH]; intros table Hc; simpl; [done|].
  assert (V1.insert_sql table o = table) as ->.
  { unfold V1.insert_sql. destruct (Hc o) as [x ->]; [|done].
    apply elem_of_cons. by left. }
  apply IH. intros x Hx. apply Hc. apply elem_of_cons. by right.
Qed.

Lemma size_union_difference (A B : gset (string * string * Z)) :
  Z.of_nat (size (A ∪ B)) - Z.of_nat (size A) = Z.of_nat (size (B ∖ A)).
Proof.
  assert (A ∪ B = A ∪ (B ∖ A)) as ->.
  { apply set_eq. intros x. rewrite !elem_of_union, elem_of_difference.
    destruct (decide (x ∈ A)); tauto. }
  rewrite size_union by set_solver. lia.
Qed.

Lemma size_list_to_set_le (l : list (string * string * Z)) :
  (size (list_to_set l : gset (string * string * Z)) <= length l)%nat.
Proof.
  induction l as [|x l IH]; simpl; [done|].
  rewrite size_union_alt, size_singleton.
  assert (size (list_to_set l ∖ {[x]} : gset (string * string * Z))
          <= size (list_to_set l : gset (string * string * Z)))%nat
    by (apply subseteq_size; set_solver).
  lia.
Qed.

Lemma insert_records_spec table records batch_size :
  (forall k o, table !! k = Some o ->
     (V1.insert_records table records batch_size).1 !! k = Some o)
  /\ dom (V1.insert_records table records batch_size).1
     = dom table ∪ list_to_set (V1.observation_key <$> records)
  /\ (forall k o,
        (V1.insert_records table records batch_size).1 !! k = Some o ->
        table !! k = Some o \/ (o ∈ records /\ V1.observation_key o = k))
  /\ (V1.insert_records table records batch_size).2
     = Z.of_nat (size (list_to_set (V1.observation_key <$> records)
                       ∖ dom table))
  /\ 0 <= (V1.insert_records table records batch_size).2
       <= Z.of_nat (length records).
Proof.
  unfold V1.insert_records. destruct records as [|o l].
  - simpl. split; [done|]. split; [set_solver|]. split; [by left|].
    split; [|lia]. rewrite difference_disjoint_L by set_solver. done.
  - set (records := o :: l). cbn [fst snd].
    assert (Hsz : Z.of_nat (size (foldl V1.insert_sql table records))
                  - Z.of_nat (size table)
                  = Z.of_nat (size (list_to_set (V1.observation_key <$> records)
                                    ∖ dom table))).
    { rewrite <- !size_dom, foldl_insert_dom. apply size_union_difference. }
    split; [intros k x; apply foldl_insert_keep|].
    split; [apply foldl_insert_dom|].
    split; [intros k x; apply foldl_insert_from|].
    split; [exact Hsz|]. rewrite Hsz. split; [lia|].
    pose proof (size_list_to_set_le (V1.observation_key <$> records)) as Hle.
    rewrite length_fmap in Hle.
    assert (size (list_to_set (V1.observation_key <$> records) ∖ dom table)
            <= size (list_to_set (V1.observation_key <$> records)
                       : gset (string * string * Z)))%nat
      by (apply subseteq_size; set_solver).
    lia.
Qed.




(** * More on the [users] upsert *)

Lemma upsert_sql_dom table e u :
  dom (V1.upsert_sql table (e, u)) = dom table ∪ {[e]}.
Proof.
  unfold V1.upsert_sql. destruct (table !! e) eqn:E.
  - rewrite dom_insert_L. apply (elem_of_dom_2 table) in E. set_solver.
  - rewrite dom_insert_L. set_solver.
Qed.

Lemma foldl_upsert_dom (l : list (string * V1.user_entry)) : forall table,
  dom (foldl V1.upsert_sql table l) = dom table ∪ list_to_set l.*1.
Proof.
  induction l as [|[e u] l IH]; intros table.
  - simpl. set_solver.
  - change (foldl V1.upsert_sql table ((e, u) :: l))
      with (foldl V1.upsert_sql (V1.upsert_sql table (e, u)) l).
    rewrite IH, upsert_sql_dom, fmap_cons. simpl list_to_set. set_solver.
Qed.

Lemma upsert_users_dom table users :
  dom (V1.upsert_users table users).1 = dom table ∪ dom users.
Proof.
  unfold V1.upsert_users. case_decide as He.
  - rewrite He. simpl. set_solver.
  - simpl. rewrite foldl_upsert_dom. f_equal.
    apply set_eq. intros e.
    rewrite elem_of_list_to_set, list_elem_of_fmap, elem_of_dom. split.
    + intros ([k v] & -> & Hin). apply elem_of_map_to_list in Hin. eauto.
    + intros [v Hv]. exists (e, v). split; [done|].
      by apply elem_of_map_to_list.
Qed.

Lemma size_union_difference_str (A B : gset string) :
  Z.of_nat (size (A ∪ B)) - Z.of_nat (size A) = Z.of_nat (size (B ∖ A)).
Proof.
  assert (A ∪ B = A ∪ (B ∖ A)) as ->.
  { apply set_eq. intros x. rewrite !elem_of_union, elem_of_difference.
    destruct (decide (x ∈ A)); tauto. }
  rewrite size_union by set_solver. lia.
Qed.

(** X18. [upsert_users] keeps the [user_id] and [full_name] of a stored
    user, leaves the rows of e-mails outside the batch untouched, and
    stores a new user with the batch's [user_id] and the part of the e-mail
    before ["@"] as [full_name]. *)
Theorem upsert_users_preserves_identity table users e :
  (forall row u,
     table !! e = Some row -> users !! e = Some u ->
     exists row',
       (V1.upsert_users table users).1 !! e = Some row'
       /\ V1.r_user_id row' = V1.r_user_id row
       /\ V1.r_full_name row' = V1.r_full_name row)
  /\ (users !! e = None ->
        (V1.upsert_users table users).1 !! e = table !! e)
  /\ (forall u,
        table !! e = None -> users !! e = Some u ->
        (V1.upsert_users table users).1 !! e
        = Some {| V1.r_user_id := V1.user_id u;
                  V1.r_full_name := V1.split_part_1 e;
                  V1.r_first_seen := V1.first_seen u;
                  V1.r_last_seen := V1.last_seen u |}).
Proof.
  split; [|split].
  - intros row u Hrow Hu. eexists.
    split; [by apply upsert_users_conflict|]. done.
  - apply upsert_users_absent.
  - intros u Hrow Hu. by apply upsert_users_insert.
Qed.

Lemma upsert_users_preserves_identity_witness :
  exists row',
    (V1.upsert_users Scenario.users_table
       (V1.extract_users_from_batch [Scenario.bob_at 100])).1
      !! "bob@illinois.edu" = Some row'
    /\ V1.r_user_id row' = "bob"
    /\ V1.r_full_name row' = "Bob B.".
Proof.
  apply (proj1 (upsert_users_preserves_identity Scenario.users_table
                  (V1.extract_users_from_batch [Scenario.bob_at 100])
                  "bob@illinois.edu")
           {| V1.r_user_id := "bob"; V1.r_full_name := "Bob B.";
              V1.r_first_seen := 200; V1.r_last_seen := 300 |}
           {| V1.user_id := "bob"; V1.first_seen := 100;
              V1.last_seen := 100 |});
    vm_compute; reflexivity.
Defined.

(** X19. After [upsert_users] the table has a row for every stored e-mail
    and every e-mail of the batch, and the returned count is the number of
    e-mails of the batch that had no row before. *)
Theorem upsert_users_new_users table users :
  dom (V1.upsert_users table users).1 = dom table ∪ dom users
  /\ (V1.upsert_users table users).2
     = Z.of_nat (size (dom users ∖ dom table)).
Proof.
  split; [apply upsert_users_dom|].
  pose proof (upsert_users_dom table users) as Hdom.
  unfold V1.upsert_users in *. case_decide as He.
  - rewrite He. simpl. rewrite dom_empty_L.
    rewrite difference_disjoint_L by set_solver. done.
  - simpl in *. rewrite <- !size_dom, Hdom. apply size_union_difference_str.
Qed.

Lemma upsert_sql_fixed table e u row :
  table !! e = Some row ->
  V1.r_first_seen row <= V1.first_seen u ->
  V1.last_seen u <= V1.r_last_seen row ->
  V1.upsert_sql table (e, u) = table.
Proof.
  intros Hrow Hf Hl. unfold V1.upsert_sql. rewrite Hrow.
  apply insert_id. rewrite Hrow. f_equal. destruct row as [i n f l].
  simpl in *. f_equal; lia.
Qed.

Lemma foldl_upsert_fixed (l : list (string * V1.user_entry)) : forall table,
  (forall e u, (e, u) ∈ l ->
     exists row, table !! e = Some row
                 /\ V1.r_first_seen row <= V1.first_seen u
                 /\ V1.last_seen u <= V1.r_last_seen row) ->
  foldl V1.upsert_sql table l = table.
Proof.
  induction l as [|[e u] l IH]; intros table Hc; [done|].
  change (foldl V1.upsert_sql table ((e, u) :: l))
    with (foldl V1.upsert_sql (V1.upsert_sql table (e, u)) l).
  destruct (Hc e u) as (row & Hrow & Hf & Hl); [apply elem_of_cons; by left|].
  rewrite (upsert_sql_fixed _ _ _ _ Hrow Hf Hl).
  apply IH. intros e' u' Hin. apply Hc. apply elem_of_cons. by right.
Qed.

Lemma upsert_users_fixed table users :
  Sink.users_covered table users ->
  V1.upsert_users table users = (table, 0).
Proof.
  intros Hc. unfold V1.upsert_users. case_decide; [done|].
  rewrite foldl_upsert_fixed; [f_equal; lia|].
  intros e u Hin. apply Hc. by apply elem_of_map_to_list.
Qed.

Lemma upsert_users_covers table users :
  Sink.users_covered (V1.upsert_users table users).1 users.
Proof.
  intros e u Hu. rewrite (upsert_users_present _ _ _ _ Hu).
  unfold V1.upsert_sql. destruct (table !! e) as [row|];
    rewrite lookup_insert_eq; eexists; (split; [done|]); simpl; lia.
Qed.

Lemma upsert_users_covered_mono table users batch :
  Sink.users_covered table batch ->
  Sink.users_covered (V1.upsert_users table users).1 batch.
Proof.
  intros Hc e u Hu. destruct (Hc e u Hu) as (row & Hrow & Hf & Hl).
  destruct (users !! e) as [u'|] eqn:Eu.
  - rewrite (upsert_users_conflict _ _ _ _ _ Hrow Eu).
    eexists. split; [done|]. simpl. lia.
  - rewrite (upsert_users_absent _ _ _ Eu). eauto.
Qed.

(** X20. [upsert_users] is idempotent: upserting the same batch of users a
    second time leaves the table as it is and reports no new user. *)
Theorem upsert_users_idempotent table users :
  V1.upsert_users (V1.upsert_users table users).1 users
  = ((V1.upsert_users table users).1, 0).
Proof. apply upsert_users_fixed, upsert_users_covers. Qed.

(** * The import loop *)

Lemma insert_records_growth table records batch_size :
  (V1.insert_records table records batch_size).2
  = Z.of_nat (size (V1.insert_records table records batch_size).1)
    - Z.of_nat (size table).
Proof. unfold V1.insert_records. destruct records; simpl; lia. Qed.

Lemma upsert_users_growth table users :
  (V1.upsert_users table users).2
  = Z.of_nat (size (V1.upsert_users table users).1) - Z.of_nat (size table).
Proof. unfold V1.upsert_users. case_decide; simpl; lia. Qed.

Lemma insert_records_bounds table records batch_size :
  0 <= (V1.insert_records table records batch_size).2
    <= Z.of_nat (length records).
Proof. apply insert_records_spec. Qed.

Lemma insert_records_keep table records batch_size k o :
  table !! k = Some o ->
  (V1.insert_records table records batch_size).1 !! k = Some o.
Proof. apply insert_records_spec. Qed.

Lemma insert_records_covers table records batch_size :
  Sink.obs_covered (V1.insert_records table records batch_size).1 records.
Proof.
  destruct (insert_records_spec table records batch_size) as (_ & Hdom & _).
  intros o Ho. apply elem_of_dom.
  rewrite Hdom. apply elem_of_union. right. apply elem_of_list_to_set.
  by apply list_elem_of_fmap_2.
Qed.

Lemma insert_records_fixed table records batch_size :
  Sink.obs_covered table records ->
  V1.insert_records table records batch_size = (table, 0).
Proof.
  intros Hc. unfold V1.insert_records. destruct records as [|o l]; [done|].
  rewrite foldl_insert_fixed by done. f_equal. lia.
Qed.

Lemma upsert_users_no_batch table :
  V1.upsert_users table (V1.extract_users_from_batch []) = (table, 0).
Proof.
  apply upsert_users_fixed. intros e u Hu.
  unfold V1.extract_users_from_batch in Hu. simpl in Hu.
  by rewrite lookup_empty in Hu.
Qed.

Section ImportLoop.

Variable fromisoformat : string -> option Z.
Variable fetch : Z * Z -> list V1.raw_sample.
Variable batch_size : Z.

(** What one window does to the state. *)
Lemma import_window_cases dry_run st w st' :
  V1.import_window fromisoformat fetch dry_run batch_size st w = Some st' ->
  V1.all_records st' = V1.all_records st ++ fetch w
  /\ ((fetch w = [] \/ dry_run = true)
      /\ V1.total_containers_inserted st' = V1.total_containers_inserted st
      /\ V1.total_users_inserted st' = V1.total_users_inserted st
      /\ V1.total_skipped_no_pod_name st' = V1.total_skipped_no_pod_name st
      /\ V1.total_skipped_not_jupyter st' = V1.total_skipped_not_jupyter st
      /\ V1.total_duplicates_in_batch st' = V1.total_duplicates_in_batch st
      /\ V1.container_observations st' = V1.container_observations st
      /\ V1.users st' = V1.users st
      \/ fetch w <> [] /\ dry_run = false
         /\ exists out stats,
              V1.transform_records fromisoformat (fetch w) = Some (out, stats)
              /\ V1.total_skipped_no_pod_name st'
                 = V1.total_skipped_no_pod_name st
                   + V1.s_skipped_no_pod_name stats
              /\ V1.total_skipped_not_jupyter st'
                 = V1.total_skipped_not_jupyter st
                   + V1.s_skipped_not_jupyter stats
              /\ V1.total_duplicates_in_batch st'
                 = V1.total_duplicates_in_batch st
                   + V1.s_duplicates_in_batch stats
              /\ V1.container_observations st'
                 = (V1.insert_records (V1.container_observations st) out
                      batch_size).1
              /\ V1.total_containers_inserted st'
                 = V1.total_containers_inserted st
                   + (V1.insert_records (V1.container_observations st) out
                        batch_size).2
              /\ V1.users st'
                 = (V1.upsert_users (V1.users st)
                      (V1.extract_users_from_batch out)).1
              /\ V1.total_users_inserted st'
                 = V1.total_users_inserted st
                   + (V1.upsert_users (V1.users st)
                        (V1.extract_users_from_batch out)).2).
Proof.
  unfold V1.import_window.
  destruct (bool_decide (fetch w <> [])) eqn:Ene; simpl andb.
  2:{ intros [= <-]. simpl. split; [done|]. left.
      apply bool_decide_eq_false in Ene.
      split; [|done]. left.
      destruct (fetch w); [done | exfalso; by apply Ene]. }
  apply bool_decide_eq_true in Ene.
  destruct dry_run; simpl negb; cbv iota.
  { intros [= <-]. simpl. split; [done|]. left. split; [by right | done]. }
  destruct (V1.transform_records fromisoformat (fetch w)) as [[out stats]|];
    simpl mbind; [|done].
  destruct out as [|o out].
  - intros [= <-]. simpl. split; [done|]. right. split; [done|]. split; [done|].
    exists [], stats. rewrite upsert_users_no_batch. simpl.
    repeat split; try done; lia.
  - set (batch := o :: out).
    destruct (V1.insert_records (V1.container_observations st) batch batch_size)
      as [t n] eqn:Ei.
    destruct (V1.upsert_users (V1.users st) (V1.extract_users_from_batch batch))
      as [ut un] eqn:Eu.
    intros [= <-]. simpl. split; [done|]. right. split; [done|]. split; [done|].
    exists batch, stats. rewrite Ei, Eu. done.
Qed.

(** The part of the totals that each window adds. *)
Lemma import_window_accounting dry_run st w st' :
  V1.import_window fromisoformat fetch dry_run batch_size st w = Some st' ->
  V1.all_records st' = V1.all_records st ++ fetch w
  /\ V1.total_containers_inserted st' - V1.total_containers_inserted st
     = Z.of_nat (size (V1.container_observations st'))
       - Z.of_nat (size (V1.container_observations st))
  /\ V1.total_users_inserted st' - V1.total_users_inserted st
     = Z.of_nat (size (V1.users st')) - Z.of_nat (size (V1.users st))
  /\ 0 <= V1.total_containers_inserted st' - V1.total_containers_inserted st
       <= V1.transformed_count st' - V1.transformed_count st.
Proof.
  intros H. destruct (import_window_cases _ _ _ _ H) as (Hall & Hcase).
  split; [done|]. unfold V1.transformed_count. rewrite Hall, length_app.
  destruct Hcase as [(_ & -> & -> & -> & -> & -> & -> & ->)
                    |(_ & _ & out & stats & Ht & -> & -> & -> & -> & -> & -> & ->)].
  - lia.
  - rewrite <- insert_records_growth, <- upsert_users_growth.
    pose proof (insert_records_bounds (V1.container_observations st) out
                  batch_size).
    destruct (transform_records_inv _ _ _ _ Ht) as (_ & Hlen & _ & _ & _ & Hsum).
    lia.
Qed.

Lemma run_import_loop_accounting dry_run : forall windows st st',
  V1.run_import_loop fromisoformat fetch dry_run batch_size st windows
  = Some st' ->
  V1.all_records st' = V1.all_records st ++ concat (fetch <$> windows)
  /\ V1.total_containers_inserted st' - V1.total_containers_inserted st
     = Z.of_nat (size (V1.container_observations st'))
       - Z.of_nat (size (V1.container_observations st))
  /\ V1.total_users_inserted st' - V1.total_users_inserted st
     = Z.of_nat (size (V1.users st')) - Z.of_nat (size (V1.users st))
  /\ 0 <= V1.total_containers_inserted st' - V1.total_containers_inserted st
       <= V1.transformed_count st' - V1.transformed_count st.
Proof.
  induction windows as [|w ws IH]; intros st st' H; simpl in H.
  - simplify_eq. simpl. rewrite app_nil_r. repeat split; lia.
  - destruct (V1.import_window fromisoformat fetch dry_run batch_size st w)
      as [st1|] eqn:E; simpl in H; [|done].
    destruct (import_window_accounting _ _ _ _ E) as (A1 & A2 & A3 & A4).
    destruct (IH _ _ H) as (B1 & B2 & B3 & B4).
    split; [|repeat split; lia].
    rewrite B1, A1, fmap_cons. simpl. by rewrite app_assoc.
Qed.

(** X21. When [run_import_loop] returns, [all_records] holds the rows of
    all windows in order, "Containers inserted" and "Users inserted" are
    the growth of the two tables, and the inserted containers are at most
    the "Ready to insert" figure [transformed_count], so that the reported
    number of rows "already in database" is never negative. *)
Theorem run_import_loop_totals dry_run windows table utable st' :
  V1.run_import_loop fromisoformat fetch dry_run batch_size
    (V1.initial_state table utable) windows = Some st' ->
  V1.all_records st' = concat (fetch <$> windows)
  /\ V1.total_containers_inserted st'
     = Z.of_nat (size (V1.container_observations st'))
       - Z.of_nat (size table)
  /\ V1.total_users_inserted st'
     = Z.of_nat (size (V1.users st')) - Z.of_nat (size utable)
  /\ 0 <= V1.total_containers_inserted st' <= V1.transformed_count st'.
Proof.
  intros H. destruct (run_import_loop_accounting _ _ _ _ H) as (A1 & A2 & A3 & A4).
  unfold V1.transformed_count in *. simpl in *. repeat split; try done; lia.
Qed.

Lemma tables_grow_covered st st' w :
  Sink.tables_grow st st' -> Sink.window_covered fromisoformat fetch st w -> Sink.window_covered fromisoformat fetch st' w.
Proof.
  intros [Hk Hu] Hw out stats Ht. destruct (Hw out stats Ht) as [Ho Hus].
  split; [|by apply Hu].
  intros o Hin. destruct (Ho o Hin) as [x Hx]. exists x. by apply Hk.
Qed.

Lemma import_window_grows st w st' :
  V1.import_window fromisoformat fetch false batch_size st w = Some st' ->
  Sink.tables_grow st st'
  /\ (fetch w <> [] -> Sink.window_covered fromisoformat fetch st' w)
  /\ (fetch w <> [] ->
        is_Some (V1.transform_records fromisoformat (fetch w))).
Proof.
  intros H. destruct (import_window_cases _ _ _ _ H) as (_ & Hcase).
  unfold Sink.tables_grow, Sink.window_covered.
  destruct Hcase as [([He|He] & _ & _ & _ & _ & _ & HT & HU)
                    |(_ & _ & out & stats & Ht & _ & _ & _ & HT & _ & HU & _)];
    try done; rewrite HT, HU.
  - split; [by split|]. split; intros Hne; done.
  - split; [split|split].
    + intros k o. apply insert_records_keep.
    + intros batch. apply upsert_users_covered_mono.
    + intros _ out' stats' Ht'. rewrite Ht in Ht'. simplify_eq.
      split; [apply insert_records_covers | apply upsert_users_covers].
    + intros _. rewrite Ht. eauto.
Qed.

Lemma run_import_loop_grows : forall windows st st',
  V1.run_import_loop fromisoformat fetch false batch_size st windows
  = Some st' ->
  Sink.tables_grow st st'
  /\ (forall w, w ∈ windows -> fetch w <> [] ->
        Sink.window_covered fromisoformat fetch st' w
        /\ is_Some (V1.transform_records fromisoformat (fetch w))).
Proof.
  induction windows as [|w ws IH]; intros st st' H; simpl in H.
  - simplify_eq. split; [by split|]. intros w Hw. by apply elem_of_nil in Hw.
  - destruct (V1.import_window fromisoformat fetch false batch_size st w)
      as [st1|] eqn:E; simpl in H; [|done].
    destruct (import_window_grows _ _ _ E) as (G1 & C1 & S1).
    destruct (IH _ _ H) as (G2 & C2).
    split.
    + destruct G1 as [K1 U1], G2 as [K2 U2]. split; eauto.
    + intros w' Hw' Hne. apply elem_of_cons in Hw' as [->|Hw'].
      * split; [|by apply S1]. eapply tables_grow_covered; eauto.
      * by apply C2.
Qed.

Lemma import_window_fixed st w :
  (fetch w <> [] ->
     Sink.window_covered fromisoformat fetch st w
     /\ is_Some (V1.transform_records fromisoformat (fetch w))) ->
  exists st',
    V1.import_window fromisoformat fetch false batch_size st w = Some st'
    /\ V1.container_observations st' = V1.container_observations st
    /\ V1.users st' = V1.users st
    /\ V1.total_containers_inserted st' = V1.total_containers_inserted st
    /\ V1.total_users_inserted st' = V1.total_users_inserted st.
Proof.
  intros Hw. unfold V1.import_window.
  destruct (bool_decide (fetch w <> [])) eqn:Ene; simpl andb; cbv iota.
  2:{ eexists. split; [done|]. done. }
  apply bool_decide_eq_true in Ene. destruct (Hw Ene) as (Hc & [[out stats] Ht]).
  rewrite Ht. simpl mbind. destruct (Hc out stats Ht) as [Ho Hu].
  destruct out as [|o out].
  - eexists. split; [done|]. done.
  - rewrite (insert_records_fixed _ _ _ Ho), (upsert_users_fixed _ _ Hu).
    eexists. split; [done|]. simpl. repeat split; lia.
Qed.

Lemma run_import_loop_fixed : forall windows st,
  (forall w, w ∈ windows -> fetch w <> [] ->
     Sink.window_covered fromisoformat fetch st w
     /\ is_Some (V1.transform_records fromisoformat (fetch w))) ->
  exists st',
    V1.run_import_loop fromisoformat fetch false batch_size st windows
    = Some st'
    /\ V1.container_observations st' = V1.container_observations st
    /\ V1.users st' = V1.users st
    /\ V1.total_containers_inserted st' = V1.total_containers_inserted st
    /\ V1.total_users_inserted st' = V1.total_users_inserted st.
Proof.
  induction windows as [|w ws IH]; intros st Hall; simpl.
  - eexists. split; [done|]. done.
  - destruct (import_window_fixed st w) as (st1 & -> & T1 & U1 & C1 & N1).
    { apply Hall. apply elem_of_cons. by left. }
    simpl. destruct (IH st1) as (st2 & -> & T2 & U2 & C2 & N2).
    { intros w' Hw' Hne.
      destruct (Hall w' ltac:(apply elem_of_cons; by right) Hne) as [Hc Hs].
      split; [|done]. intros out stats Ht. rewrite T1, U1.
      by apply (Hc out stats). }
    eexists. split; [done|]. repeat split; congruence.
Qed.

(** X22. The live import is idempotent: when the loop has run over some
    windows, running it again over the same windows, with the source
    returning the same rows, succeeds, leaves both tables as they are and
    reports no inserted container and no inserted user. *)
Theorem run_import_loop_idempotent windows table utable st1 :
  V1.run_import_loop fromisoformat fetch false batch_size
    (V1.initial_state table utable) windows = Some st1 ->
  exists st2,
    V1.run_import_loop fromisoformat fetch false batch_size
      (V1.initial_state (V1.container_observations st1) (V1.users st1))
      windows = Some st2
    /\ V1.container_observations st2 = V1.container_observations st1
    /\ V1.users st2 = V1.users st1
    /\ V1.total_containers_inserted st2 = 0
    /\ V1.total_users_inserted st2 = 0.
Proof.
  intros H. destruct (run_import_loop_grows _ _ _ H) as (_ & Hcov).
  destruct (run_import_loop_fixed windows
              (V1.initial_state (V1.container_observations st1) (V1.users st1)))
    as (st2 & Hrun & T & U & C & N).
  { intros w Hw Hne. destruct (Hcov w Hw Hne) as [Hc Hs]. split; [|done].
    intros out stats Ht. by apply (Hc out stats). }
  exists st2. done.
Qed.

End ImportLoop.

Lemma run_import_loop_totals_witness :
  exists st',
    V1.run_import_loop Iso.fromisoformat Scenario.fetch false 1000
      (V1.initial_state ∅ ∅) Scenario.windows = Some st'
    /\ V1.all_records st' = concat (Scenario.fetch <$> Scenario.windows)
    /\ V1.total_containers_inserted st'
       = Z.of_nat (size (V1.container_observations st'))
         - Z.of_nat (size (∅ : gmap (string * string * Z) observation))
    /\ V1.total_users_inserted st'
       = Z.of_nat (size (V1.users st'))
         - Z.of_nat (size (∅ : gmap string V1.user_row))
    /\ 0 <= V1.total_containers_inserted st' <= V1.transformed_count st'.
Proof.
  eexists. split; [vm_compute; reflexivity|].
  apply (run_import_loop_totals Iso.fromisoformat Scenario.fetch 1000 false
           Scenario.windows ∅ ∅).
  vm_compute; reflexivity.
Defined.

Lemma run_import_loop_idempotent_witness :
  exists st1,
    V1.run_import_loop Iso.fromisoformat Scenario.fetch false 1000
      (V1.initial_state ∅ ∅) Scenario.windows = Some st1
    /\ exists st2,
         V1.run_import_loop Iso.fromisoformat Scenario.fetch false 1000
           (V1.initial_state (V1.container_observations st1) (V1.users st1))
           Scenario.windows = Some st2
         /\ V1.container_observations st2 = V1.container_observations st1
         /\ V1.users st2 = V1.users st1
         /\ V1.total_containers_inserted st2 = 0
         /\ V1.total_users_inserted st2 = 0.
Proof.
  eexists. split; [vm_compute; reflexivity|].
  apply (run_import_loop_idempotent Iso.fromisoformat Scenario.fetch 1000
           Scenario.windows ∅ ∅).
  vm_compute; reflexivity.
Defined.
